(** * duckdb-oracle: the scan-path pipeline, embedded and verified

    A shallow embedding of the C++ sources of the Oracle connector
    (oracle_utils.cpp, oracle_type_mapping.cpp, oracle_connection.cpp,
    oracle_optimizer.cpp, oracle_scan.cpp) together with the properties the
    specification states about them.

    Conventions.
    - [idx_t], [column_t], [size_t] and [uint64_t] are [N] with the 64-bit
      wrap-around written out where the code does arithmetic on them;
      [int], [int32_t] and [int64_t] are [Z].
    - [std::string] is [string]; [std::vector<T>] is [list T].
    - [std::ostringstream] is the text written so far; [oss << x] appends.
    - Calls into the ODPI-C driver are replaced by what they return: a
      statement is the list of rows it will fetch, a failing call is an
      [OracleError]. *)

From Stdlib Require Import ZArith NArith List String Ascii Bool Lia.
From Stdlib Require Import Permutation DecimalString DecimalPos.
Import ListNotations.

Local Open Scope list_scope.
Local Open Scope string_scope.

(* ===================================================================== *)
(** * Machine integers and the text of numbers                           *)
(* ===================================================================== *)

Module Machine.

(** Number of values of a 64-bit unsigned integer. *)
Definition two64 : N := 18446744073709551616%N.

(** [idx_t(-1)], the largest [idx_t]. *)
Definition idx_max : N := 18446744073709551615%N.

(** [a + b] on [idx_t]: unsigned addition wraps around. *)
Definition idx_add (a b : N) : N := ((a + b) mod two64)%N.

(** [oss << n] and [std::to_string(n)] for an unsigned integer. *)
Definition dec_of_N (n : N) : string :=
  NilZero.string_of_uint (N.to_uint n).

(** [std::to_string(n)] for a signed integer. *)
Definition dec_of_Z (z : Z) : string :=
  NilZero.string_of_int (Z.to_int z).

(** C casts to the fixed-width signed types: reduce modulo [2^w] into
    the signed range. *)
Definition wrap_signed (w : Z) (z : Z) : Z :=
  ((z + 2 ^ (w - 1)) mod 2 ^ w - 2 ^ (w - 1))%Z.

Definition to_int16 : Z -> Z := wrap_signed 16.
Definition to_int32 : Z -> Z := wrap_signed 32.
Definition to_int64 : Z -> Z := wrap_signed 64.

End Machine.

(* ===================================================================== *)
(** * oracle_utils.cpp                                                   *)
(* ===================================================================== *)

Module OracleUtils.

(** [FormatOracleError(context, oracle_msg)]. *)
Definition FormatOracleError (context oracle_msg : string) : string :=
  "Oracle error in " ++ context ++ ": " ++ oracle_msg.

(** The double quote character. *)
Definition dquote : string := String (ascii_of_nat 34) EmptyString.

(** [QuoteIdentifier(name)]: the name between double quotes, nothing
    escaped. *)
Definition QuoteIdentifier (name : string) : string :=
  dquote ++ name ++ dquote.

(** [std::toupper] in the "C" locale: the letters a..z move to A..Z,
    every other byte is kept. *)
Definition toupper (c : ascii) : ascii :=
  let n := nat_of_ascii c in
  if (97 <=? n)%nat && (n <=? 122)%nat then ascii_of_nat (n - 32) else c.

(** [ToUpper(s)]: [std::transform] of [toupper] over the bytes. *)
Fixpoint ToUpper (s : string) : string :=
  match s with
  | EmptyString => EmptyString
  | String c rest => String (toupper c) (ToUpper rest)
  end.

End OracleUtils.

(* ===================================================================== *)
(** * The host engine's types the connector names                        *)
(* ===================================================================== *)

Module Host.

(** [LogicalType], restricted to the ids the connector produces or
    inspects.  [DECIMAL width scale] carries the two arguments the code
    passes to [LogicalType::DECIMAL]. *)
Inductive LogicalType : Type :=
| BOOLEAN | TINYINT | SMALLINT | INTEGER | BIGINT | HUGEINT | UBIGINT
| FLOAT | DOUBLE
| DECIMAL (width scale : Z)
| VARCHAR | BLOB | DATE | TIMESTAMP | TIMESTAMP_TZ | INTERVAL
| OTHER_TYPE (id : nat).

Definition LogicalType_eq_dec (a b : LogicalType) : {a = b} + {a <> b}.
Proof. decide equality; try apply Z.eq_dec; apply Nat.eq_dec. Defined.

(** [a == b] on logical types. *)
Definition type_eqb (a b : LogicalType) : bool :=
  if LogicalType_eq_dec a b then true else false.

(** [COLUMN_IDENTIFIER_ROW_ID], the host's [(column_t)-1]. *)
Definition COLUMN_IDENTIFIER_ROW_ID : N := Machine.idx_max.

(** [DConstants::INVALID_INDEX], the host's [idx_t(-1)]. *)
Definition INVALID_INDEX : N := Machine.idx_max.

(** [STANDARD_VECTOR_SIZE], the number of rows of a full chunk. *)
Definition STANDARD_VECTOR_SIZE : N := 2048.

End Host.

(* ===================================================================== *)
(** * Floating point, left uninterpreted                                  *)
(* ===================================================================== *)

(** The connector moves [double] and [float] cells around and applies a
    handful of C++ conversions to them.  Their results are not interpreted
    here: a [FloatModel] names the two carriers and those conversions. *)
Class FloatModel : Type := {
  double : Type;
  float : Type;
  (** [(float)d] *)
  double_to_float : double -> float;
  (** [(int64_t)d] *)
  double_to_int64 : double -> Z;
  (** [(int32_t)d] *)
  double_to_int32 : double -> Z;
  (** [(int64_t)std::round(d * std::pow(10.0, scale))] *)
  round_scaled : double -> Z -> Z;
  (** [std::to_string(d)] *)
  double_to_string : double -> string;
  (** [std::to_string(f)] *)
  float_to_string : float -> string
}.

(* ===================================================================== *)
(** * The calendar and libc's mktime                                      *)
(* ===================================================================== *)

Module Calendar.
Local Open Scope Z_scope.

(** Days from 1970-01-01 to the civil date [y]-[m]-[d] of the proleptic
    Gregorian calendar ([m] in 1..12). *)
Definition days_from_civil (y m d : Z) : Z :=
  let y' := if m <=? 2 then y - 1 else y in
  let era := y' / 400 in
  let yoe := y' - era * 400 in
  let mp := (m + 9) mod 12 in
  let doy := (153 * mp + 2) / 5 + d - 1 in
  let doe := yoe * 365 + yoe / 4 - yoe / 100 + doy in
  era * 146097 + doe - 719468.

(** The civil date [(y, m, d)] of a day number: the host's
    [Date::Convert]. *)
Definition civil_from_days (z : Z) : Z * Z * Z :=
  let z' := z + 719468 in
  let era := z' / 146097 in
  let doe := z' - era * 146097 in
  let yoe := (doe - doe / 1460 + doe / 36524 - doe / 146096) / 365 in
  let doy := doe - (365 * yoe + yoe / 4 - yoe / 100) in
  let mp := (5 * doy + 2) / 153 in
  let d := doy - (153 * mp + 2) / 5 + 1 in
  let m := if mp <? 10 then mp + 3 else mp - 9 in
  let y := yoe + era * 400 in
  ((if m <=? 2 then y + 1 else y), m, d).

Definition micros_per_sec : Z := 1000000.
Definition micros_per_day : Z := 86400 * micros_per_sec.

End Calendar.

Module Libc.
Local Open Scope Z_scope.

(** [struct tm]. *)
Record tm : Type := {
  tm_sec : Z; tm_min : Z; tm_hour : Z;
  tm_mday : Z; tm_mon : Z; tm_year : Z;
  tm_isdst : Z
}.

(** Seconds since the epoch of a broken-down time read as UTC, fields
    out of their range carried over as [mktime] and [timegm] do. *)
Definition timegm (t : tm) : Z :=
  let months := tm_year t * 12 + tm_mon t in
  let y := 1900 + months / 12 in
  let m := months mod 12 + 1 in
  (Calendar.days_from_civil y m 1 + (tm_mday t - 1)) * 86400
  + tm_hour t * 3600 + tm_min t * 60 + tm_sec t.

(** The time zone of the process (the [TZ] environment): the offset
    east of UTC, in seconds, in force at a local time given as the
    seconds [timegm] counts for it.  A zone without daylight saving is
    a constant function. *)
Definition timezone : Type := Z -> Z.

Definition utc : timezone := fun _ => 0.
Definition fixed_zone (gmtoff : Z) : timezone := fun _ => gmtoff.

(** [mktime(&t)] with [tm_isdst = -1]: the broken-down time is LOCAL
    time of the process's zone. *)
Definition mktime (zone : timezone) (t : tm) : Z :=
  timegm t - zone (timegm t).

End Libc.

(* ===================================================================== *)
(** * The ODPI-C driver's data                                            *)
(* ===================================================================== *)

Module Dpi.

(** [dpiNativeTypeNum] and its named values (dpi.h). *)
Definition dpiNativeTypeNum : Type := N.

Definition DPI_NATIVE_TYPE_INT64 : N := 3000.
Definition DPI_NATIVE_TYPE_UINT64 : N := 3001.
Definition DPI_NATIVE_TYPE_FLOAT : N := 3002.
Definition DPI_NATIVE_TYPE_DOUBLE : N := 3003.
Definition DPI_NATIVE_TYPE_BYTES : N := 3004.
Definition DPI_NATIVE_TYPE_TIMESTAMP : N := 3005.
Definition DPI_NATIVE_TYPE_INTERVAL_DS : N := 3006.
Definition DPI_NATIVE_TYPE_INTERVAL_YM : N := 3007.
Definition DPI_NATIVE_TYPE_LOB : N := 3008.
Definition DPI_NATIVE_TYPE_BOOLEAN : N := 3011.

(** [dpiTimestamp]: [year] is an [int16_t]; [month] .. [second] are
    [uint8_t]; [fsecond] is a [uint32_t] of nanoseconds; the two zone
    offsets are [int8_t]. *)
Record dpiTimestamp : Type := {
  year : Z; month : Z; day : Z;
  hour : Z; minute : Z; second : Z;
  fsecond : Z;
  tzHourOffset : Z; tzMinuteOffset : Z
}.

(** [dpiIntervalYM], two [int32_t]. *)
Record dpiIntervalYM : Type := { ym_years : Z; ym_months : Z }.

(** [dpiIntervalDS], five [int32_t]. *)
Record dpiIntervalDS : Type := {
  ds_days : Z; ds_hours : Z; ds_minutes : Z; ds_seconds : Z;
  ds_fseconds : Z
}.

(** A [dpiLob*] handle, as the two driver calls on it answer:
    [dpiLob_getSize] stores [lob_size]; [dpiLob_readBytes(lob, 1,
    lob_size, buf, &actual)] fills the buffer with [lob_bytes] and
    stores their number in [actual]. *)
Record dpiLob : Type := { lob_size : N; lob_bytes : string }.

(** [dpiData]: the null flag and the [value] union, one field per
    member the connector reads. *)
Record dpiData `{FloatModel} : Type := {
  isNull : bool;
  asBoolean : Z;
  asInt64 : Z;
  asUint64 : N;
  asFloat : float;
  asDouble : double;
  asBytes : string;
  asTimestamp : dpiTimestamp;
  asIntervalDS : dpiIntervalDS;
  asIntervalYM : dpiIntervalYM;
  asLOB : dpiLob
}.

End Dpi.

(* ===================================================================== *)
(** * oracle_type_mapping.cpp                                             *)
(* ===================================================================== *)

Module TypeMapping.
Import Host Dpi.

(** [struct OracleColumnInfo]; the three numbers are [int32_t]. *)
Record OracleColumnInfo : Type := {
  name : string;
  oracle_type_name : string;
  precision : Z;
  scale : Z;
  char_length : Z;
  nullable : bool
}.

(** A default-constructed [OracleColumnInfo] (the member initialisers of
    the header). *)
Definition default_column : OracleColumnInfo :=
  {| name := ""; oracle_type_name := ""; precision := 0;
     scale := (-127)%Z; char_length := 0; nullable := true |}.

(** The integer block of the NUMBER case: the four [if ... return]
    in a row; [None] when control falls out of the block. *)
Definition number_integer_block (p : Z) : option LogicalType :=
  if (p <=? 4)%Z then Some SMALLINT
  else if (p <=? 9)%Z then Some INTEGER
  else if (p <=? 18)%Z then Some BIGINT
  else if (p <=? 38)%Z then Some HUGEINT
  else None.

(** [OracleTypeMapping::ToDuckDBType]. *)
Definition ToDuckDBType (col : OracleColumnInfo) : LogicalType :=
  let type := oracle_type_name col in
  if type =? "NUMBER" then
    if (precision col =? 0)%Z && (scale col =? -127)%Z then DOUBLE
    else
      match
        (if (scale col =? 0)%Z || (scale col =? -127)%Z
         then number_integer_block (precision col) else None)
      with
      | Some t => t
      | None =>
          if (0 <? precision col)%Z && (0 <=? scale col)%Z
          then DECIMAL (precision col) (scale col)
          else DOUBLE
      end
  else if (type =? "VARCHAR2") || (type =? "NVARCHAR2") ||
          (type =? "CHAR") || (type =? "NCHAR") ||
          (type =? "ROWID") || (type =? "CLOB") || (type =? "NCLOB")
  then VARCHAR
  else if (type =? "DATE") || (type =? "TIMESTAMP") ||
          (type =? "TIMESTAMP WITH LOCAL TIME ZONE")
  then TIMESTAMP
  else if type =? "TIMESTAMP WITH TIME ZONE" then TIMESTAMP_TZ
  else if (type =? "BLOB") || (type =? "RAW") then BLOB
  else if type =? "BINARY_FLOAT" then FLOAT
  else if type =? "BINARY_DOUBLE" then DOUBLE
  else if (type =? "INTERVAL YEAR TO MONTH") ||
          (type =? "INTERVAL DAY TO SECOND")
  then INTERVAL
  else VARCHAR.

Section Values.
Context `{FloatModel}.

(** The host's [Value], by the constructor the code calls.
    [Null t] is [Value(t)], the typed null. *)
Inductive Value : Type :=
| Null (t : LogicalType)
| V_BOOLEAN (b : bool)
| V_TINYINT (v : Z)
| V_SMALLINT (v : Z)
| V_INTEGER (v : Z)
| V_BIGINT (v : Z)
| V_HUGEINT (v : Z)
| V_UBIGINT (v : N)
| V_FLOAT (f : float)
| V_DOUBLE (d : double)
| V_DECIMAL (v : Z) (width scale : Z)
| V_VARCHAR (s : string)
| V_BLOB (s : string)
| V_DATE (days : Z)
| V_TIMESTAMP (micros : Z)
| V_TIMESTAMPTZ (micros : Z)
| V_INTERVAL (months days micros : Z).

(** The [std::tm] the timestamp case fills in before [mktime]. *)
Definition tm_of_timestamp (ts : dpiTimestamp) : Libc.tm :=
  {| Libc.tm_year := year ts - 1900;
     Libc.tm_mon := month ts - 1;
     Libc.tm_mday := day ts;
     Libc.tm_hour := hour ts;
     Libc.tm_min := minute ts;
     Libc.tm_sec := second ts;
     Libc.tm_isdst := -1 |}.

(** The [DPI_NATIVE_TYPE_TIMESTAMP] case. *)
Definition timestamp_value (zone : Libc.timezone) (ts : dpiTimestamp)
    (target_type : LogicalType) : Value :=
  let epoch := Libc.mktime zone (tm_of_timestamp ts) in
  let us := (epoch * 1000000 + fsecond ts / 1000)%Z in
  if type_eqb target_type TIMESTAMP_TZ then
    let tz_offset_sec :=
      ((tzHourOffset ts * 60 + tzMinuteOffset ts) * 60)%Z in
    V_TIMESTAMPTZ (us - tz_offset_sec * 1000000)%Z
  else V_TIMESTAMP us.

(** The [DPI_NATIVE_TYPE_LOB] case. *)
Definition lob_value (lob : dpiLob) (target_type : LogicalType) : Value :=
  if (lob_size lob =? 0)%N then
    if type_eqb target_type BLOB then V_BLOB "" else V_VARCHAR ""
  else
    let buf := lob_bytes lob in
    if type_eqb target_type BLOB then V_BLOB buf else V_VARCHAR buf.

(** [OracleTypeMapping::ToDuckDBValue].  [zone] is the time zone of
    the process, which [mktime] reads. *)
Definition ToDuckDBValue (zone : Libc.timezone) (data : dpiData)
    (native_type : dpiNativeTypeNum) (target_type : LogicalType)
    : Value :=
  if isNull data then Null target_type
  else if (native_type =? DPI_NATIVE_TYPE_DOUBLE)%N then
    match target_type with
    | FLOAT => V_FLOAT (double_to_float (asDouble data))
    | DOUBLE => V_DOUBLE (asDouble data)
    | DECIMAL width scale =>
        V_DECIMAL (round_scaled (asDouble data) scale) width scale
    | BIGINT => V_BIGINT (double_to_int64 (asDouble data))
    | INTEGER => V_INTEGER (double_to_int32 (asDouble data))
    | _ => V_DOUBLE (asDouble data)
    end
  else if (native_type =? DPI_NATIVE_TYPE_FLOAT)%N then
    V_FLOAT (asFloat data)
  else if (native_type =? DPI_NATIVE_TYPE_INT64)%N then
    match target_type with
    | BIGINT => V_BIGINT (asInt64 data)
    | INTEGER => V_INTEGER (Machine.to_int32 (asInt64 data))
    | SMALLINT => V_SMALLINT (Machine.to_int16 (asInt64 data))
    | _ => V_BIGINT (asInt64 data)
    end
  else if (native_type =? DPI_NATIVE_TYPE_UINT64)%N then
    V_UBIGINT (asUint64 data)
  else if (native_type =? DPI_NATIVE_TYPE_BYTES)%N then
    let s := asBytes data in
    if type_eqb target_type BLOB then V_BLOB s else V_VARCHAR s
  else if (native_type =? DPI_NATIVE_TYPE_TIMESTAMP)%N then
    timestamp_value zone (asTimestamp data) target_type
  else if (native_type =? DPI_NATIVE_TYPE_INTERVAL_YM)%N then
    V_INTERVAL
      (ym_years (asIntervalYM data) * 12 + ym_months (asIntervalYM data))
      0 0
  else if (native_type =? DPI_NATIVE_TYPE_INTERVAL_DS)%N then
    let ids := asIntervalDS data in
    V_INTERVAL 0 (ds_days ids)
      (ds_hours ids * 3600000000 + ds_minutes ids * 60000000
       + ds_seconds ids * 1000000 + Z.quot (ds_fseconds ids) 1000)
  else if (native_type =? DPI_NATIVE_TYPE_BOOLEAN)%N then
    V_BOOLEAN (negb (asBoolean data =? 0)%Z)
  else if (native_type =? DPI_NATIVE_TYPE_LOB)%N then
    lob_value (asLOB data) target_type
  else Null target_type.

(** The native type numbers [ToDuckDBValue] has a case for. *)
Definition recognized_native_types : list dpiNativeTypeNum :=
  [ DPI_NATIVE_TYPE_DOUBLE; DPI_NATIVE_TYPE_FLOAT; DPI_NATIVE_TYPE_INT64;
    DPI_NATIVE_TYPE_UINT64; DPI_NATIVE_TYPE_BYTES;
    DPI_NATIVE_TYPE_TIMESTAMP; DPI_NATIVE_TYPE_INTERVAL_YM;
    DPI_NATIVE_TYPE_INTERVAL_DS; DPI_NATIVE_TYPE_BOOLEAN;
    DPI_NATIVE_TYPE_LOB ].

End Values.

End TypeMapping.

(* ===================================================================== *)
(** * oracle_connection.cpp                                               *)
(* ===================================================================== *)

Module Connection.
Import Host Dpi TypeMapping.

(** A call that [throw]s a [std::runtime_error] returns its message on
    the left. *)
Definition OracleError : Type := string.
Definition result (A : Type) : Type := (OracleError + A)%type.

(** What an ODPI-C call answers: [DPI_SUCCESS] with what it stores
    through its out-parameters, or a failure with the message
    [dpiContext_getError] then reports. *)
Inductive dpi_answer (A : Type) : Type :=
| DPI_SUCCESS (a : A)
| DPI_FAILURE (message : string).
Arguments DPI_SUCCESS {A} a.
Arguments DPI_FAILURE {A} message.

(** [ThrowIfError(rc, context)], followed by the rest of the function. *)
Definition ThrowIfError {A B : Type} (rc : dpi_answer A) (context : string)
    (rest : A -> result B) : result B :=
  match rc with
  | DPI_SUCCESS a => rest a
  | DPI_FAILURE message =>
      inl (OracleUtils.FormatOracleError context message)
  end.

(** [struct OracleConnectionParameters] (oracle_utils.hpp). *)
Record OracleConnectionParameters : Type := {
  host : string;
  port : Z;
  service_name : string;
  sid : string;
  tns_name : string;
  user : string;
  password : string;
  wallet_location : string;
  schema : string;
  read_only : bool;
  fetch_size : Z
}.

(** An [OracleConnection] object: the native handle [conn_] it owns,
    named by a number, and a copy of the parameters. *)
Record OracleConnection : Type := {
  conn_ : nat;
  params_ : OracleConnectionParameters
}.

Definition GetParams (c : OracleConnection) : OracleConnectionParameters :=
  params_ c.

(** [OracleConnection::Open(params)]; [created] is the answer of
    [dpiConn_create]. *)
Definition Open (created : dpi_answer nat)
    (params : OracleConnectionParameters) : result OracleConnection :=
  match created with
  | DPI_SUCCESS h => inr {| conn_ := h; params_ := params |}
  | DPI_FAILURE message =>
      inl (OracleUtils.FormatOracleError "OracleConnection::Open" message)
  end.

(** ** The connection pool *)

(** [class OracleConnectionPool]: the free list [pool_] holds the idle
    connections, its back is the end of the list. *)
Record OracleConnectionPool : Type := {
  pool_params_ : OracleConnectionParameters;
  max_connections_ : N;
  pool_ : list OracleConnection
}.

Definition default_max_connections : N := 8.

(** The constructor: an empty free list. *)
Definition new_pool (params : OracleConnectionParameters)
    (max_connections : N) : OracleConnectionPool :=
  {| pool_params_ := params; max_connections_ := max_connections;
     pool_ := [] |}.

Definition set_pool_ (p : OracleConnectionPool)
    (l : list OracleConnection) : OracleConnectionPool :=
  {| pool_params_ := pool_params_ p;
     max_connections_ := max_connections_ p;
     pool_ := l |}.

(** [Acquire()]: the connection returned (or the error [Open] throws)
    and the pool afterwards.  [created] is what [dpiConn_create] answers
    should [Open] be called. *)
Definition Acquire (created : dpi_answer nat) (p : OracleConnectionPool)
    : result OracleConnection * OracleConnectionPool :=
  match pool_ p with
  | c :: rest =>
      let conn := last rest c in               (* pool_.back() *)
      (inr conn, set_pool_ p (removelast (c :: rest)))  (* pop_back() *)
  | [] => (Open created (pool_params_ p), p)
  end.

(** [Release(conn)]. *)
Definition Release (conn : OracleConnection) (p : OracleConnectionPool)
    : OracleConnectionPool :=
  if (N.of_nat (List.length (pool_ p)) <? max_connections_ p)%N
  then set_pool_ p (pool_ p ++ [conn])%list
  else p.

(** [ClearCache()]. *)
Definition ClearCache (p : OracleConnectionPool) : OracleConnectionPool :=
  set_pool_ p [].

(** A call on the pool, with what the driver answers during it. *)
Inductive pool_call : Type :=
| CallAcquire (created : dpi_answer nat)
| CallRelease (conn : OracleConnection)
| CallClearCache.

Definition pool_step (p : OracleConnectionPool) (c : pool_call)
    : OracleConnectionPool :=
  match c with
  | CallAcquire created => snd (Acquire created p)
  | CallRelease conn => Release conn p
  | CallClearCache => ClearCache p
  end.

(** The pool after a sequence of calls (the pool's mutex makes them
    happen one after the other). *)
Definition pool_run (calls : list pool_call) (p : OracleConnectionPool)
    : OracleConnectionPool :=
  fold_left pool_step calls p.

Definition idle_count (p : OracleConnectionPool) : N :=
  N.of_nat (List.length (pool_ p)).

(** The pool keeps no more idle connections than its capacity. *)
Definition within_cap (p : OracleConnectionPool) : Prop :=
  (idle_count p <= max_connections_ p)%N.

(** ** Statements *)

Section Statements.
Context `{FloatModel}.

(** A fetched row, as [dpiStmt_getQueryValue(stmt, pos, &native,
    &data)] answers on it: the native type and the cell at each
    position (positions count from 1). *)
Definition Row : Type := N -> dpiNativeTypeNum * dpiData.

(** What the server answers to one SQL text on a connection:
    [dpiConn_prepareStmt]; [dpiStmt_execute], which stores the number
    of query columns; and the rows [dpiStmt_fetch] finds, one per
    call, until it finds none or fails. *)
Record Statement : Type := {
  prepared : dpi_answer unit;
  executed : dpi_answer N;
  fetched : list Row
}.

Definition Server : Type := string -> Statement.

(** *** GetColumns *)

(** The SQL text [GetColumns] builds (string literals of the source,
    concatenated). *)
Definition GetColumns_sql (schema table : string) : string :=
  "SELECT COLUMN_NAME, DATA_TYPE, DATA_PRECISION, DATA_SCALE, "
  ++ "       CHAR_LENGTH, NULLABLE "
  ++ "FROM ALL_TAB_COLUMNS "
  ++ "WHERE OWNER = '" ++ OracleUtils.ToUpper schema ++ "' "
  ++ "  AND TABLE_NAME = '" ++ OracleUtils.ToUpper table ++ "' "
  ++ "ORDER BY COLUMN_ID".

(** The body of the fetch loop of [GetColumns]: one row to one
    [OracleColumnInfo]. *)
Definition column_of_row (r : Row) : OracleColumnInfo :=
  let d1 := snd (r 1%N) in
  let d2 := snd (r 2%N) in
  let d3 := snd (r 3%N) in
  let d4 := snd (r 4%N) in
  let d5 := snd (r 5%N) in
  let d6 := snd (r 6%N) in
  {| name := asBytes d1;
     oracle_type_name := asBytes d2;
     precision := if isNull d3 then 0%Z else double_to_int32 (asDouble d3);
     scale := if isNull d4 then (-127)%Z else double_to_int32 (asDouble d4);
     char_length :=
       if isNull d5 then 0%Z else double_to_int32 (asDouble d5);
     nullable := (asBytes d6 =? "Y") |}.

(** [OracleConnection::GetColumns(schema, table)]. *)
Definition GetColumns (server : Server) (schema table : string)
    : result (list OracleColumnInfo) :=
  let sql := GetColumns_sql schema table in
  let stmt := server sql in
  ThrowIfError (prepared stmt) "GetColumns::prepareStmt" (fun _ =>
  ThrowIfError (executed stmt) "GetColumns::execute" (fun _ =>
  inr (fold_left (fun columns r => (columns ++ [column_of_row r])%list)
         (fetched stmt) []))).

(** *** ExecuteQuery *)

(** A [DataChunk]: its column types, its cardinality, and the cells
    written by [SetValue] since the last reset, oldest first, each as
    (column, row, value). *)
Record DataChunk : Type := {
  chunk_types : list LogicalType;
  count : N;
  cells : list (N * N * Value)
}.

Definition Initialize (types : list LogicalType) : DataChunk :=
  {| chunk_types := types; count := 0; cells := [] |}.

Definition SetValue (chunk : DataChunk) (col row : N) (val : Value)
    : DataChunk :=
  {| chunk_types := chunk_types chunk; count := count chunk;
     cells := (cells chunk ++ [(col, row, val)])%list |}.

Definition SetCardinality (chunk : DataChunk) (n : N) : DataChunk :=
  {| chunk_types := chunk_types chunk; count := n;
     cells := cells chunk |}.

Definition Reset (chunk : DataChunk) : DataChunk :=
  {| chunk_types := chunk_types chunk; count := 0; cells := [] |}.

(** The [std::function<bool(DataChunk &)>] callback.  It may keep
    state of its own ([S]) and it receives the chunk by reference: it
    answers its [bool], its new state, and the chunk as it leaves
    it. *)
Definition Callback (S : Type) : Type :=
  S -> DataChunk -> bool * S * DataChunk.

Definition CHUNK_SIZE : N := STANDARD_VECTOR_SIZE.

(** The inner [for] loop: columns [col], [col + 1], ... of one row,
    while [col < num_cols && col < types.size()]; [types] holds the
    types from index [col] on. *)
Fixpoint fill_row (zone : Libc.timezone) (r : Row) (num_cols : N)
    (row_count : N) (types : list LogicalType) (col : N)
    (chunk : DataChunk) : DataChunk :=
  match types with
  | [] => chunk
  | t :: rest =>
      if (col <? num_cols)%N then
        let '(actual_native, data) := r (col + 1)%N in
        let val := ToDuckDBValue zone data actual_native t in
        fill_row zone r num_cols row_count rest (col + 1)%N
          (SetValue chunk col row_count val)
      else chunk
  end.

(** The [while (true)] loop over the rows still to be fetched.  It
    ends by [break], either when the fetch finds no row (or fails) or
    when the callback answers [false]; the result is the chunk,
    [row_count] and the callback's state at that point. *)
Fixpoint fetch_loop {S : Type} (zone : Libc.timezone)
    (types : list LogicalType) (num_cols : N) (callback : Callback S)
    (rows : list Row) (chunk : DataChunk) (row_count : N) (s : S)
    : DataChunk * N * S :=
  match rows with
  | [] => (chunk, row_count, s)
  | r :: rest =>
      let chunk := fill_row zone r num_cols row_count types 0%N chunk in
      let row_count := (row_count + 1)%N in
      if (row_count =? CHUNK_SIZE)%N then
        let chunk := SetCardinality chunk row_count in
        let '(go_on, s, chunk) := callback s chunk in
        if negb go_on then (chunk, row_count, s)
        else fetch_loop zone types num_cols callback rest
               (Reset chunk) 0%N s
      else fetch_loop zone types num_cols callback rest
             chunk row_count s
  end.

(** [OracleConnection::ExecuteQuery(sql, types, fetch_size,
    callback)]: the callback's state when the call returns, or the
    error thrown.  ([fetch_size] only goes to
    [dpiStmt_setFetchArraySize]; the [native_types] the source
    computes after [execute] are not read again.) *)
Definition ExecuteQuery {S : Type} (zone : Libc.timezone)
    (server : Server) (sql : string) (types : list LogicalType)
    (fetch_size : N) (callback : Callback S) (s0 : S) : result S :=
  let stmt := server sql in
  ThrowIfError (prepared stmt) "ExecuteQuery::prepareStmt" (fun _ =>
  ThrowIfError (executed stmt) "ExecuteQuery::execute" (fun num_cols =>
    let chunk := Initialize types in
    let '(chunk, row_count, s) :=
      fetch_loop zone types num_cols callback (fetched stmt)
        chunk 0%N s0 in
    (* flush what is left *)
    if (0 <? row_count)%N then
      let '(_, s, _) := callback s (SetCardinality chunk row_count) in
      inr s
    else inr s)).

(** One delivery: the chunk handed to the callback and the callback's
    answer. *)
Definition Delivery : Type := (DataChunk * bool)%type.

(** A callback observed: the same callback, with every call appended
    to a log. *)
Definition recording {S : Type} (callback : Callback S)
    : Callback (S * list Delivery) :=
  fun '(s, log) chunk =>
    let '(go_on, s', chunk') := callback s chunk in
    (go_on, (s', (log ++ [(chunk, go_on)])%list), chunk').

(** The deliveries of one [ExecuteQuery] call, in order (empty when
    the call throws). *)
Definition deliveries {S : Type} (zone : Libc.timezone)
    (server : Server) (sql : string) (types : list LogicalType)
    (fetch_size : N) (callback : Callback S) (s0 : S)
    : list Delivery :=
  match ExecuteQuery zone server sql types fetch_size
          (recording callback) (s0, []) with
  | inr (_, log) => log
  | inl _ => []
  end.

(** The deliveries made inside the fetch loop of one [ExecuteQuery]
    call, before the flush that follows the loop. *)
Definition loop_deliveries {S : Type} (zone : Libc.timezone)
    (server : Server) (sql : string) (types : list LogicalType)
    (callback : Callback S) (s0 : S) : list Delivery :=
  let stmt := server sql in
  match prepared stmt, executed stmt with
  | DPI_SUCCESS _, DPI_SUCCESS num_cols =>
      snd (snd (fetch_loop zone types num_cols (recording callback)
                  (fetched stmt) (Initialize types) 0%N (s0, [])))
  | _, _ => []
  end.

(** The early-out contract on the answers of one call's deliveries, in
    order: nothing is delivered after an answer [false]. *)
Fixpoint stops_after_false (answers : list bool) : bool :=
  match answers with
  | [] => true
  | true :: rest => stops_after_false rest
  | false :: rest => match rest with [] => true | _ :: _ => false end
  end.

End Statements.

End Connection.

(* ===================================================================== *)
(** * Text helpers shared by the SQL builders                             *)
(* ===================================================================== *)

Module Text.

(** [s.empty()]. *)
Definition empty (s : string) : bool :=
  match s with EmptyString => true | String _ _ => false end.

(** The loop
    [for (i = 0; i < items.size(); ++i) { if (i > 0) out += sep; out += items[i]; }]
    run on the text [out] written so far. *)
Definition append_joined (sep : string) (items : list string)
    (out : string) : string :=
  snd (fold_left
         (fun (st : N * string) (item : string) =>
            let '(i, out) := st in
            ((i + 1)%N, (if (0 <? i)%N then out ++ sep else out) ++ item))
         items (0%N, out)).

(** [n] copies of the character ['0']. *)
Fixpoint zeros (n : nat) : string :=
  match n with O => "" | S k => String "0" (zeros k) end.

(** The digits of [z >= 0], padded with zeros on the left to [width]. *)
Definition zero_padded (width : nat) (z : Z) : string :=
  let digits := Machine.dec_of_Z z in
  zeros (width - String.length digits) ++ digits.

(** [printf]'s [%0<width>d]. *)
Definition fmt_0d (width : nat) (z : Z) : string :=
  if (z <? 0)%Z then "-" ++ zero_padded (width - 1) (- z)
  else zero_padded width z.

(** [snprintf(buf, size, ...)]: at most [size - 1] characters are
    stored. *)
Definition snprintf (size : nat) (formatted : string) : string :=
  substring 0 (size - 1) formatted.

End Text.

(* ===================================================================== *)
(** * oracle_scan.hpp / oracle_scan.cpp: the bind data                    *)
(* ===================================================================== *)

Module BindData.
Import Host TypeMapping Text.

(** A [std::shared_ptr<OracleConnectionPool>]: which pool object it
    points to.  Copies of a bind data share the pool. *)
Definition PoolRef : Type := nat.

(** [struct OracleScanBindData]. *)
Record OracleScanBindData : Type := {
  pool : PoolRef;
  schema : string;
  table : string;
  all_columns : list OracleColumnInfo;
  all_types : list LogicalType;
  filters : list string;
  column_ids : list N;
  limit : N;
  offset : N;
  oracle_major_version : Z
}.

(** [OracleScanBindData::Equals(other)]. *)
Definition Equals (self o : OracleScanBindData) : bool :=
  (schema self =? schema o) && (table self =? table o).

(** One turn of the projection loop: the stream and the [first] flag
    before, the column id, the stream and the flag after. *)
Definition project_column (all_columns : list OracleColumnInfo)
    (st : string * bool) (cid : N) : string * bool :=
  let '(oss, first) := st in
  if (cid =? COLUMN_IDENTIFIER_ROW_ID)%N then
    let oss := if negb first then oss ++ ", " else oss in
    (oss ++ "ROWID", false)
  else if (cid <? N.of_nat (List.length all_columns))%N then
    let oss := if negb first then oss ++ ", " else oss in
    (oss ++ OracleUtils.QuoteIdentifier
              (name (nth (N.to_nat cid) all_columns default_column)),
     false)
  else (oss, first).

(** [OracleScanBindData::BuildSelectQuery()]. *)
Definition BuildSelectQuery (self : OracleScanBindData) : string :=
  let oss := "SELECT " in
  (* projection *)
  let oss :=
    match column_ids self with
    | [] => oss ++ "*"
    | _ :: _ =>
        let '(oss, first) :=
          fold_left (project_column (all_columns self))
            (column_ids self) (oss, true) in
        if first then oss ++ "*" else oss
    end in
  let oss :=
    oss ++ " FROM " ++ OracleUtils.QuoteIdentifier (schema self)
        ++ "." ++ OracleUtils.QuoteIdentifier (table self) in
  (* WHERE *)
  let oss :=
    match filters self with
    | [] => oss
    | _ :: _ => append_joined " AND " (filters self) (oss ++ " WHERE ")
    end in
  (* LIMIT / OFFSET *)
  if negb (limit self =? INVALID_INDEX)%N then
    if (12 <=? oracle_major_version self)%Z then
      let oss :=
        if (0 <? offset self)%N
        then oss ++ " OFFSET " ++ Machine.dec_of_N (offset self) ++ " ROWS"
        else oss in
      oss ++ " FETCH FIRST " ++ Machine.dec_of_N (limit self)
          ++ " ROWS ONLY"
    else
      let inner := oss in
      "SELECT * FROM (SELECT ROWNUM rn__, t__.* FROM (" ++ inner
      ++ ") t__ WHERE ROWNUM <= "
      ++ Machine.dec_of_N (Machine.idx_add (offset self) (limit self))
      ++ ")" ++ " WHERE rn__ > " ++ Machine.dec_of_N (offset self)
  else oss.

(** [filters.push_back(sql)] on the bind data. *)
Definition push_filter (self : OracleScanBindData) (sql : string)
    : OracleScanBindData :=
  {| pool := pool self; schema := schema self; table := table self;
     all_columns := all_columns self; all_types := all_types self;
     filters := (filters self ++ [sql])%list;
     column_ids := column_ids self; limit := limit self;
     offset := offset self;
     oracle_major_version := oracle_major_version self |}.

End BindData.

(* ===================================================================== *)
(** * oracle_optimizer.cpp                                                *)
(* ===================================================================== *)

Module FilterPushdown.
Import Host TypeMapping Text BindData.

(** [ExpressionType], the members the rewriter tests. *)
Inductive ExpressionType : Type :=
| COMPARE_EQUAL | COMPARE_NOTEQUAL
| COMPARE_LESSTHAN | COMPARE_GREATERTHAN
| COMPARE_LESSTHANOREQUALTO | COMPARE_GREATERTHANOREQUALTO
| CONJUNCTION_AND | CONJUNCTION_OR
| OTHER_EXPRESSION_TYPE (id : nat).

Section Rewriter.
Context `{FloatModel}.

(** A bound [Expression], by [expression_class]. *)
#[warnings="-register-all"]
Inductive Expression : Type :=
| BoundComparison (type : ExpressionType) (left right : Expression)
| BoundConjunction (type : ExpressionType) (children : list Expression)
| BoundFunction (function_name : string) (children : list Expression)
| BoundConstant (value : Value)
| BoundColumnRef (column_index : N)
| OtherExpression (class : nat).

(** The loop over the characters of a VARCHAR constant: a single
    quote is written twice. *)
Fixpoint escape_quotes (s : string) : string :=
  match s with
  | EmptyString => EmptyString
  | String c rest =>
      if Ascii.eqb c "'"%char
      then String "'" (String c (escape_quotes rest))
      else String c (escape_quotes rest)
  end.

(** The host's [Timestamp::GetDate]: the day a timestamp falls on. *)
Definition timestamp_date (micros : Z) : Z :=
  (micros / Calendar.micros_per_day)%Z.

(** The host's [Timestamp::GetTime] followed by [Time::Convert]:
    hour, minute and second within the day. *)
Definition timestamp_hms (micros : Z) : Z * Z * Z :=
  let in_day := (micros mod Calendar.micros_per_day)%Z in
  let secs := (in_day / Calendar.micros_per_sec)%Z in
  ((secs / 3600)%Z, ((secs / 60) mod 60)%Z, (secs mod 60)%Z).

(** [ConstantToSQL(expr)], on the constant's value. *)
Definition ConstantToSQL (val : Value) : string :=
  match val with
  | Null _ => "NULL"
  | V_BOOLEAN b => if b then "1" else "0"
  | V_TINYINT v | V_SMALLINT v | V_INTEGER v => Machine.dec_of_Z v
  | V_BIGINT v => Machine.dec_of_Z v
  | V_FLOAT f => float_to_string f
  | V_DOUBLE d => double_to_string d
  | V_VARCHAR s => "'" ++ escape_quotes s ++ "'"
  | V_DATE d =>
      let '(year, month, day) := Calendar.civil_from_days d in
      snprintf 32
        ("DATE '" ++ fmt_0d 4 year ++ "-" ++ fmt_0d 2 month ++ "-"
         ++ fmt_0d 2 day ++ "'")
  | V_TIMESTAMP ts =>
      let '(year, month, day) :=
        Calendar.civil_from_days (timestamp_date ts) in
      let '(hour, min, sec) := timestamp_hms ts in
      snprintf 64
        ("TIMESTAMP '" ++ fmt_0d 4 year ++ "-" ++ fmt_0d 2 month ++ "-"
         ++ fmt_0d 2 day ++ " " ++ fmt_0d 2 hour ++ ":" ++ fmt_0d 2 min
         ++ ":" ++ fmt_0d 2 sec ++ "'")
  | _ => ""
  end.

(** [ColumnToSQL(expr, col_names)], on the column index. *)
Definition ColumnToSQL (col_idx : N) (col_names : list string) : string :=
  if (N.of_nat (List.length col_names) <=? col_idx)%N then ""
  else OracleUtils.QuoteIdentifier (nth (N.to_nat col_idx) col_names "").

(** The [switch] of [ComparisonToSQL]: the operator text, [None] for
    the [default] case. *)
Definition comparison_op (type : ExpressionType) : option string :=
  match type with
  | COMPARE_EQUAL => Some " = "
  | COMPARE_NOTEQUAL => Some " <> "
  | COMPARE_LESSTHAN => Some " < "
  | COMPARE_GREATERTHAN => Some " > "
  | COMPARE_LESSTHANOREQUALTO => Some " <= "
  | COMPARE_GREATERTHANOREQUALTO => Some " >= "
  | _ => None
  end.

(** The first [if] chain of [ConjunctionToSQL]. *)
Definition conjunction_op (type : ExpressionType) : option string :=
  match type with
  | CONJUNCTION_AND => Some " AND "
  | CONJUNCTION_OR => Some " OR "
  | _ => None
  end.

(** [ExpressionToSQL(expr, col_names)] with [ComparisonToSQL],
    [ConjunctionToSQL] and [FunctionToSQL], which call it back, in
    line. *)
Fixpoint ExpressionToSQL (expr : Expression) (col_names : list string)
    {struct expr} : string :=
  match expr with
  | BoundComparison type l r =>
      let lhs := ExpressionToSQL l col_names in
      let rhs := ExpressionToSQL r col_names in
      if empty lhs || empty rhs then ""
      else
        match comparison_op type with
        | Some op => "(" ++ lhs ++ op ++ rhs ++ ")"
        | None => ""
        end
  | BoundConjunction type children =>
      match conjunction_op type with
      | None => ""
      | Some op =>
          (* the loop collecting [parts]; [None] when it returns "" *)
          match
            (fix collect (cs : list Expression) (parts : list string)
               : option (list string) :=
               match cs with
               | [] => Some parts
               | child :: cs' =>
                   let part := ExpressionToSQL child col_names in
                   if empty part then None
                   else collect cs' (parts ++ [part])%list
               end) children []
          with
          | None => ""
          | Some parts => append_joined op parts "(" ++ ")"
          end
      end
  | BoundFunction fn children =>
      if (fn =? "isnull") && (List.length children =? 1)%nat then
        match children with
        | c0 :: _ =>
            let child := ExpressionToSQL c0 col_names in
            if empty child then "" else "(" ++ child ++ " IS NULL)"
        | [] => ""
        end
      else if (fn =? "isnotnull") && (List.length children =? 1)%nat then
        match children with
        | c0 :: _ =>
            let child := ExpressionToSQL c0 col_names in
            if empty child then "" else "(" ++ child ++ " IS NOT NULL)"
        | [] => ""
        end
      else if (fn =? "~~") && (List.length children =? 2)%nat then
        match children with
        | c0 :: c1 :: _ =>
            let col := ExpressionToSQL c0 col_names in
            let pat := ExpressionToSQL c1 col_names in
            if empty col || empty pat then ""
            else "(" ++ col ++ " LIKE " ++ pat ++ ")"
        | _ => ""
        end
      else ""
  | BoundConstant value => ConstantToSQL value
  | BoundColumnRef column_index => ColumnToSQL column_index col_names
  | OtherExpression _ => ""
  end.

(** One turn of the loop of [PushdownFilters]: the bind data and
    [remaining] before and after one filter. *)
Definition pushdown_step (column_names : list string)
    (st : OracleScanBindData * list Expression) (filter : Expression)
    : OracleScanBindData * list Expression :=
  let '(bind_data, remaining) := st in
  let sql := ExpressionToSQL filter column_names in
  if negb (empty sql) then (push_filter bind_data sql, remaining)
  else (bind_data, (remaining ++ [filter])%list).

(** [PushdownFilters(bind_data, column_names, filters)]: the bind
    data and the [filters] vector when it returns. *)
Definition PushdownFilters (bind_data : OracleScanBindData)
    (column_names : list string) (filters : list Expression)
    : OracleScanBindData * list Expression :=
  fold_left (pushdown_step column_names) filters (bind_data, []).

End Rewriter.

End FilterPushdown.

(* ===================================================================== *)
(** * oracle_scan.cpp: the table function                                 *)
(* ===================================================================== *)

Module OracleScan.
Import Host Dpi TypeMapping Connection BindData.

(** The pool objects alive, by reference.  A bind data and its copies
    name the same pool; a call through the reference changes the one
    object. *)
Definition Pools : Type := PoolRef -> OracleConnectionPool.

Definition set_pool (pools : Pools) (ref : PoolRef)
    (p : OracleConnectionPool) : Pools :=
  fun r => if Nat.eqb r ref then p else pools r.

(** [struct OracleScanLocalState] (its [current_chunk] is never used). *)
Record OracleScanLocalState : Type := {
  connection : OracleConnection;
  done : bool
}.

(** [OracleScan::InitLocal]: the local state (or the error thrown) and
    the pools afterwards. *)
Definition InitLocal (created : dpi_answer nat)
    (bind_data : OracleScanBindData) (pools : Pools)
    : result OracleScanLocalState * Pools :=
  let '(acquired, p) := Acquire created (pools (pool bind_data)) in
  let pools := set_pool pools (pool bind_data) p in
  match acquired with
  | inr conn => (inr {| connection := conn; done := false |}, pools)
  | inl e => (inl e, pools)
  end.

(** The conversion of the [int] [fetch_size] to the [idx_t] parameter. *)
Definition idx_of_int (z : Z) : N := Z.to_N (z mod Z.of_N Machine.two64).

Section Scanning.
Context `{FloatModel}.

(** One turn of the loop that builds [projected_types]. *)
Definition project_type (all_types : list LogicalType)
    (projected_types : list LogicalType) (cid : N) : list LogicalType :=
  if (cid =? COLUMN_IDENTIFIER_ROW_ID)%N then
    (projected_types ++ [VARCHAR])%list
  else
    match nth_error all_types (N.to_nat cid) with
    | Some t => (projected_types ++ [t])%list   (* cid < all_types.size() *)
    | None => projected_types
    end.

(** The types of the projected columns, as [Scan] assembles them. *)
Definition projected_types_of (bind_data : OracleScanBindData)
    : list LogicalType :=
  match column_ids bind_data with
  | [] => all_types bind_data
  | _ :: _ =>
      fold_left (project_type (all_types bind_data))
        (column_ids bind_data) []
  end.

(** [DataChunk::Move] of the host: the receiver takes the chunk over and
    the chunk is left destroyed. *)
Definition Destroyed : DataChunk :=
  {| chunk_types := []; count := 0; cells := [] |}.

(** The lambda [Scan] passes to [ExecuteQuery]; it captures [output] and
    [got_chunk] by reference. *)
Definition scan_callback : Callback (DataChunk * bool) :=
  fun '(output, got_chunk) chunk =>
    (false, (chunk, true), Destroyed).

(** What one [Scan] call leaves behind: [output], the local state, and
    everything passed to [ExecuteQuery] that the callers observe. *)
Record ScanOutcome : Type := {
  output : DataChunk;
  local_after : OracleScanLocalState;
  fetch_size_passed : option N
}.

(** [OracleScan::Scan].  [created] is what [dpiConn_create] answers
    should a connection be opened during the call.  The result is the
    outcome (or the error thrown) and the pools afterwards. *)
Definition Scan (zone : Libc.timezone) (server : Server)
    (created : dpi_answer nat) (bind_data : OracleScanBindData)
    (local : OracleScanLocalState) (pools : Pools) (output0 : DataChunk)
    : result ScanOutcome * Pools :=
  if done local then
    (inr {| output := output0; local_after := local;
            fetch_size_passed := None |}, pools)
  else
    let projected_types := projected_types_of bind_data in
    let sql := BuildSelectQuery bind_data in
    let got_chunk := false in
    (* the argument [bind_data.pool->Acquire()->GetParams().fetch_size] *)
    let '(acquired, p) := Acquire created (pools (pool bind_data)) in
    let pools := set_pool pools (pool bind_data) p in
    match acquired with
    | inl e => (inl e, pools)
    | inr temporary =>
        let fetch_size := idx_of_int (fetch_size (GetParams temporary)) in
        match ExecuteQuery zone server sql projected_types fetch_size
                scan_callback (output0, got_chunk) with
        | inl e => (inl e, pools)
        | inr (output1, got_chunk) =>
            (* the temporary connection is destroyed here, not released *)
            (inr {| output := output1;
                    local_after :=
                      if negb got_chunk
                      then {| connection := connection local; done := true |}
                      else local;
                    fetch_size_passed := Some fetch_size |},
             pools)
        end
    end.

(** [OracleScan::ComplexFilter]: the column names are collected and the
    filters handed to [PushdownFilters]. *)
Definition ComplexFilter (bind_data : OracleScanBindData)
    (filters : list FilterPushdown.Expression)
    : OracleScanBindData * list FilterPushdown.Expression :=
  let col_names :=
    fold_left (fun names col => (names ++ [name col])%list)
      (all_columns bind_data) [] in
  FilterPushdown.PushdownFilters bind_data col_names filters.

End Scanning.

End OracleScan.

(* ===================================================================== *)
(** * A float model for running the definitions                           *)
(* ===================================================================== *)

(** The doubles and floats that hold whole numbers, as integers; enough
    to evaluate the definitions on concrete cells.  The casts to integer
    types are those of a number within the range of the target. *)
Definition WholeFloats : FloatModel :=
  {| double := Z; float := Z;
     double_to_float := fun d => d;
     double_to_int64 := fun d => d;
     double_to_int32 := fun d => d;
     round_scaled := fun d scale => (d * 10 ^ scale)%Z;
     double_to_string := fun d => Machine.dec_of_Z d ++ ".000000";
     float_to_string := fun f => Machine.dec_of_Z f ++ ".000000" |}.

(* ===================================================================== *)
(** * The specification's SELECT builder (section 4.3), as written        *)
(* ===================================================================== *)

Module SelectSpec.
Import Host TypeMapping BindData.

(** What one projected id becomes: [ROWID] for the row-id sentinel, the
    quoted column name for a valid index, nothing when out of range. *)
Definition spec_select_item (columns : list OracleColumnInfo) (cid : N)
    : option string :=
  if (cid =? COLUMN_IDENTIFIER_ROW_ID)%N then Some "ROWID"
  else
    match nth_error columns (N.to_nat cid) with
    | Some col => Some (OracleUtils.QuoteIdentifier (name col))
    | None => None
    end.

(** The items of the SELECT list, in projection order, skipped ids left
    out. *)
Fixpoint spec_select_items (columns : list OracleColumnInfo)
    (ids : list N) : list string :=
  match ids with
  | [] => []
  | cid :: rest =>
      match spec_select_item columns cid with
      | Some item => item :: spec_select_items columns rest
      | None => spec_select_items columns rest
      end
  end.

(** Step 1: the SELECT list. *)
Definition spec_select_list (b : OracleScanBindData) : string :=
  match spec_select_items (all_columns b) (column_ids b) with
  | [] => "*"
  | items => String.concat ", " items
  end.

(** Step 3: the WHERE clause. *)
Definition spec_where (b : OracleScanBindData) : string :=
  match filters b with
  | [] => ""
  | fs => " WHERE " ++ String.concat " AND " fs
  end.

(** Steps 1 to 3: the query before any limit is applied. *)
Definition spec_inner_query (b : OracleScanBindData) : string :=
  "SELECT " ++ spec_select_list b
  ++ " FROM " ++ OracleUtils.QuoteIdentifier (schema b)
  ++ "." ++ OracleUtils.QuoteIdentifier (table b)
  ++ spec_where b.

(** Step 4 for a server of major version 12 or later. *)
Definition spec_fetch_first (b : OracleScanBindData) : string :=
  (if (0 <? offset b)%N
   then " OFFSET " ++ Machine.dec_of_N (offset b) ++ " ROWS" else "")
  ++ " FETCH FIRST " ++ Machine.dec_of_N (limit b) ++ " ROWS ONLY".

(** Step 4 for an older server: the query wrapped in a ROWNUM window.
    [offset+limit] is the sum of the two [idx_t] fields. *)
Definition spec_rownum_wrap (b : OracleScanBindData) (inner : string)
    : string :=
  "SELECT * FROM (SELECT ROWNUM rn__, t__.* FROM (" ++ inner
  ++ ") t__ WHERE ROWNUM <= "
  ++ Machine.dec_of_N (Machine.idx_add (offset b) (limit b))
  ++ ") WHERE rn__ > " ++ Machine.dec_of_N (offset b).

(** The statement section 4.3 prescribes for a bind data. *)
Definition spec_select_query (b : OracleScanBindData) : string :=
  if (limit b =? INVALID_INDEX)%N then spec_inner_query b
  else if (12 <=? oracle_major_version b)%Z
       then spec_inner_query b ++ spec_fetch_first b
       else spec_rownum_wrap b (spec_inner_query b).

(** The table of scenario S1. *)
Definition employees_columns : list OracleColumnInfo :=
  [ {| name := "EMP_ID"; oracle_type_name := "NUMBER"; precision := 9;
       scale := 0; char_length := 0; nullable := true |};
    {| name := "NAME"; oracle_type_name := "VARCHAR2"; precision := 0;
       scale := (-127); char_length := 50; nullable := true |} ].

(** A bind data on HR.EMPLOYEES with the given projection, filters,
    limit, offset and server version. *)
Definition employees_scan (ids : list N) (fs : list string)
    (lim off : N) (version : Z) : OracleScanBindData :=
  {| pool := 0%nat; schema := "HR"; table := "EMPLOYEES";
     all_columns := employees_columns;
     all_types := map ToDuckDBType employees_columns;
     filters := fs; column_ids := ids; limit := lim; offset := off;
     oracle_major_version := version |}.

(** The SQL of scenario S1, the double quotes spelled by their code. *)
Definition S1_sql : string :=
  let q := OracleUtils.dquote in
  "SELECT " ++ q ++ "EMP_ID" ++ q ++ ", " ++ q ++ "NAME" ++ q
  ++ " FROM " ++ q ++ "HR" ++ q ++ "." ++ q ++ "EMPLOYEES" ++ q
  ++ " FETCH FIRST 10 ROWS ONLY".

(** A bind data with its paging fields replaced. *)
Definition with_paging (b : OracleScanBindData) (lim off : N)
    (version : Z) : OracleScanBindData :=
  {| pool := pool b; schema := schema b; table := table b;
     all_columns := all_columns b; all_types := all_types b;
     filters := filters b; column_ids := column_ids b;
     limit := lim; offset := off; oracle_major_version := version |}.

End SelectSpec.

(* ===================================================================== *)
(** * The specification's type table (section 4.1), as written            *)
(* ===================================================================== *)

Module TypeSpec.
Import Host TypeMapping.

(** "scale is 0 or -127". *)
Definition integral_scale (s : Z) : bool := ((s =? 0) || (s =? -127))%Z.

(** The rows of the table for NUMBER, top to bottom; the first row that
    applies decides. *)
Definition spec_number_type (p s : Z) : LogicalType :=
  if ((p =? 0) && (s =? -127))%Z then DOUBLE
  else if integral_scale s && (p <=? 4)%Z then SMALLINT
  else if integral_scale s && (p <=? 9)%Z then INTEGER
  else if integral_scale s && (p <=? 18)%Z then BIGINT
  else if integral_scale s && (p <=? 38)%Z then HUGEINT
  else if ((0 <? p) && (0 <=? s))%Z then DECIMAL p s
  else DOUBLE.

(** A NUMBER column of the given precision and scale. *)
Definition number_column (p s : Z) : OracleColumnInfo :=
  {| name := "N"; oracle_type_name := "NUMBER"; precision := p;
     scale := s; char_length := 0; nullable := true |}.

End TypeSpec.

(* ===================================================================== *)
(** * The specification's metadata reader (section 4.5), as written       *)
(* ===================================================================== *)

Module MetadataSpec.
Import Dpi TypeMapping Connection.

(** The text of [list_columns] with its two bind variables. *)
Definition spec_list_columns_sql : string :=
  "SELECT COLUMN_NAME, DATA_TYPE, DATA_PRECISION, DATA_SCALE, CHAR_LENGTH, NULLABLE FROM ALL_TAB_COLUMNS WHERE OWNER = :schema AND TABLE_NAME = :table ORDER BY COLUMN_ID".

(** [needle] occurs in [text]. *)
Definition mentions (needle text : string) : bool :=
  match String.index 0 needle text with
  | Some _ => true
  | None => false
  end.

(** A statement text that takes the schema and the table through the
    bind variables [:schema] and [:table]. *)
Definition uses_bind_variables (sql : string) : bool :=
  mentions ":schema" sql && mentions ":table" sql.

Section Rows.
Context `{FloatModel}.

(** A dictionary row as the specification sees it: the two names, the
    three numbers when present, and the NULLABLE text. *)
Record DictionaryRow : Type := {
  COLUMN_NAME : string;
  DATA_TYPE : string;
  DATA_PRECISION : option double;
  DATA_SCALE : option double;
  CHAR_LENGTH : option double;
  NULLABLE : string
}.

(** A number cell: missing when the driver flags it null. *)
Definition number_cell (d : dpiData) : option double :=
  if isNull d then None else Some (asDouble d).

(** The dictionary row a fetched row stands for. *)
Definition dictionary_row (r : Row) : DictionaryRow :=
  {| COLUMN_NAME := asBytes (snd (r 1%N));
     DATA_TYPE := asBytes (snd (r 2%N));
     DATA_PRECISION := number_cell (snd (r 3%N));
     DATA_SCALE := number_cell (snd (r 4%N));
     CHAR_LENGTH := number_cell (snd (r 5%N));
     NULLABLE := asBytes (snd (r 6%N)) |}.

(** "Missing precision -> 0; missing scale -> -127;
    nullable = (NULLABLE == 'Y')". *)
Definition spec_column (d : DictionaryRow) : OracleColumnInfo :=
  {| name := COLUMN_NAME d;
     oracle_type_name := DATA_TYPE d;
     precision :=
       match DATA_PRECISION d with
       | None => 0%Z | Some x => double_to_int32 x end;
     scale :=
       match DATA_SCALE d with
       | None => (-127)%Z | Some x => double_to_int32 x end;
     char_length :=
       match CHAR_LENGTH d with
       | None => 0%Z | Some x => double_to_int32 x end;
     nullable := (NULLABLE d =? "Y") |}.

(** What [GetColumns] makes of the server's answers to its statement. *)
Definition spec_list_columns (stmt : Statement)
    : result (list OracleColumnInfo) :=
  match prepared stmt with
  | DPI_FAILURE message =>
      inl (OracleUtils.FormatOracleError "GetColumns::prepareStmt" message)
  | DPI_SUCCESS _ =>
      match executed stmt with
      | DPI_FAILURE message =>
          inl (OracleUtils.FormatOracleError "GetColumns::execute" message)
      | DPI_SUCCESS _ =>
          inr (map (fun r => spec_column (dictionary_row r)) (fetched stmt))
      end
  end.

End Rows.

End MetadataSpec.

(* ===================================================================== *)
(** * The specification's filter partition (section 4.2), as written      *)
(* ===================================================================== *)

Module PushdownSpec.
Import BindData FilterPushdown Text.

(** A bind data with its list of pushed-down fragments replaced. *)
Definition with_filters (b : OracleScanBindData) (fs : list string)
    : OracleScanBindData :=
  {| pool := pool b; schema := schema b; table := table b;
     all_columns := all_columns b; all_types := all_types b;
     filters := fs; column_ids := column_ids b; limit := limit b;
     offset := offset b;
     oracle_major_version := oracle_major_version b |}.

Section Partition.
Context `{FloatModel}.

(** The rendering of a filter. *)
Definition rendering (names : list string) (f : Expression) : string :=
  ExpressionToSQL f names.

(** A filter is pushable when its rendering is non-empty. *)
Definition pushable (names : list string) (f : Expression) : bool :=
  negb (empty (rendering names f)).

(** The filters that are pushed, in input order. *)
Definition pushed_filters (names : list string) (fs : list Expression)
    : list Expression :=
  filter (pushable names) fs.

(** The filters that stay with the host, in input order. *)
Definition residual_filters (names : list string) (fs : list Expression)
    : list Expression :=
  filter (fun f => negb (pushable names f)) fs.

End Partition.

End PushdownSpec.

(* ===================================================================== *)
(** * Concrete inputs                                                     *)
(* ===================================================================== *)

Module Inputs.
Import Host Dpi TypeMapping Connection BindData.

(** A cell of the whole-number float model holding nothing. *)
Definition blank_cell : @dpiData WholeFloats :=
  @Build_dpiData WholeFloats false 0%Z 0%Z 0%N 0%Z 0%Z ""
    {| year := 1970; month := 1; day := 1; hour := 0; minute := 0;
       second := 0; fsecond := 0; tzHourOffset := 0; tzMinuteOffset := 0 |}
    {| ds_days := 0; ds_hours := 0; ds_minutes := 0; ds_seconds := 0;
       ds_fseconds := 0 |}
    {| ym_years := 0; ym_months := 0 |}
    {| lob_size := 0; lob_bytes := "" |}.

(** An INT64 cell. *)
Definition int64_cell (v : Z) : @dpiData WholeFloats :=
  @Build_dpiData WholeFloats false 0%Z v 0%N 0%Z 0%Z ""
    (asTimestamp blank_cell) (asIntervalDS blank_cell)
    (asIntervalYM blank_cell) (asLOB blank_cell).

(** A timestamp cell. *)
Definition timestamp_cell (ts : dpiTimestamp) : @dpiData WholeFloats :=
  @Build_dpiData WholeFloats false 0%Z 0%Z 0%N 0%Z 0%Z ""
    ts (asIntervalDS blank_cell) (asIntervalYM blank_cell)
    (asLOB blank_cell).

(** The value of scenario S5: 2024-01-01 00:00:00 +05:00. *)
Definition S5_timestamp : dpiTimestamp :=
  {| year := 2024; month := 1; day := 1; hour := 0; minute := 0;
     second := 0; fsecond := 0; tzHourOffset := 5; tzMinuteOffset := 0 |}.

(** 2023-12-31T19:00:00Z in microseconds since the epoch. *)
Definition S5_instant : Z :=
  ((Calendar.days_from_civil 2023 12 31 * 86400 + 19 * 3600)
   * Calendar.micros_per_sec)%Z.

(** The zone of a process running nine hours east of UTC, without
    daylight saving (Asia/Tokyo). *)
Definition tokyo : Libc.timezone := Libc.fixed_zone (9 * 3600).

(** A row of one INT64 column. *)
Definition one_column_row (v : Z) : @Row WholeFloats :=
  fun _ => (DPI_NATIVE_TYPE_INT64, int64_cell v).

(** A server that answers every statement with [n] rows of one
    column. *)
Definition server_of_rows (n : nat) : @Server WholeFloats :=
  fun _ =>
    {| prepared := DPI_SUCCESS tt; executed := DPI_SUCCESS 1%N;
       fetched := repeat (one_column_row 7) n |}.

(** A callback that asks the executor to stop, whatever it is given. *)
Definition stop_callback : @Callback WholeFloats unit :=
  fun s chunk => (false, s, chunk).

(** Connection parameters with the default fetch size. *)
Definition some_params : OracleConnectionParameters :=
  {| host := "localhost"; port := 1521; service_name := "ORCL"; sid := "";
     tns_name := ""; user := "hr"; password := "hr"; wallet_location := "";
     Connection.schema := ""; read_only := false; fetch_size := 10000 |}.

(** An idle connection. *)
Definition idle_connection : OracleConnection :=
  {| conn_ := 1%nat; params_ := some_params |}.

(** A pool holding one idle connection. *)
Definition pool_with_one_idle : OracleConnectionPool :=
  {| pool_params_ := some_params;
     max_connections_ := default_max_connections;
     pool_ := [idle_connection] |}.

(** An idle connection opened with a fetch size of its own. *)
Definition idle_connection_500 : OracleConnection :=
  {| conn_ := 2%nat;
     params_ :=
       {| host := "localhost"; port := 1521; service_name := "ORCL";
          sid := ""; tns_name := ""; user := "hr"; password := "hr";
          wallet_location := ""; Connection.schema := "";
          read_only := false; fetch_size := 500 |} |}.

(** The one pool of a catalog, holding that idle connection. *)
Definition pools_with_one_idle : OracleScan.Pools :=
  fun _ =>
    {| pool_params_ := some_params;
       max_connections_ := default_max_connections;
       pool_ := [idle_connection_500] |}.

(** A scan of HR.EMPLOYEES without projection, filter or limit. *)
Definition plain_scan : OracleScanBindData :=
  SelectSpec.employees_scan [] [] Host.INVALID_INDEX 0 12.

(** The local state [InitLocal] made earlier: the scan's own
    connection. *)
Definition scanning_local : OracleScan.OracleScanLocalState :=
  {| OracleScan.connection := idle_connection; OracleScan.done := false |}.

(** What a [Scan] call on those leaves behind. *)
Definition scan_once
    : result (@OracleScan.ScanOutcome WholeFloats) * OracleScan.Pools :=
  @OracleScan.Scan WholeFloats Libc.utc (server_of_rows 3)
    (DPI_SUCCESS 3%nat) plain_scan scanning_local pools_with_one_idle
    (@Initialize WholeFloats []).

(** The filters of scenarios S2 and S3 on HR.EMPLOYEES. *)
Definition emp_id_is_42 : @FilterPushdown.Expression WholeFloats :=
  FilterPushdown.BoundComparison FilterPushdown.COMPARE_EQUAL
    (FilterPushdown.BoundColumnRef 0)
    (FilterPushdown.BoundConstant (V_INTEGER 42)).

Definition name_like_A : @FilterPushdown.Expression WholeFloats :=
  FilterPushdown.BoundFunction "~~"
    [FilterPushdown.BoundColumnRef 1;
     FilterPushdown.BoundConstant (V_VARCHAR "A%")].

Definition lower_name_is_x : @FilterPushdown.Expression WholeFloats :=
  FilterPushdown.BoundComparison FilterPushdown.COMPARE_EQUAL
    (FilterPushdown.BoundFunction "lower" [FilterPushdown.BoundColumnRef 1])
    (FilterPushdown.BoundConstant (V_VARCHAR "x")).

(** The WHERE clauses of scenarios S2 and S3, the double quotes spelled
    by their code. *)
Definition S2_where : string :=
  let q := OracleUtils.dquote in
  " WHERE (" ++ q ++ "EMP_ID" ++ q ++ " = 42) AND (" ++ q ++ "NAME" ++ q
  ++ " LIKE 'A%')".

Definition S3_where : string :=
  let q := OracleUtils.dquote in
  " WHERE (" ++ q ++ "EMP_ID" ++ q ++ " = 42)".

(** A scan of HR.EMPLOYEES on a server that has [n] rows to fetch. *)
Definition scan_rows (n : nat)
    : result (@OracleScan.ScanOutcome WholeFloats) * OracleScan.Pools :=
  @OracleScan.Scan WholeFloats Libc.utc (server_of_rows n)
    (DPI_SUCCESS 3%nat) plain_scan scanning_local pools_with_one_idle
    (@Initialize WholeFloats []).

End Inputs.

(* ===================================================================== *)
(** * What the executor's callers can rely on                             *)
(* ===================================================================== *)

Module ExecutorSpec.
Import Host Connection.


Section Deliveries.
Context `{FloatModel}.

(** The cardinalities of the chunks delivered, in order. *)
Definition delivered_counts (log : list Delivery) : list N :=
  map (fun d => count (fst d)) log.


End Deliveries.

End ExecutorSpec.

Module MoreInputs.
Import Host Dpi TypeMapping Connection Inputs.


End MoreInputs.

(* ===================================================================== *)
(** * How the callers use the pool                                        *)
(* ===================================================================== *)

Module PoolUse.
Import Connection.

(** The pattern of the metadata callers (for instance
    [OracleTableEntry::GetScanFunction]): [Acquire()], a use of the
    connection that does not throw, [Release(conn)].  [created] is what
    the driver answers should a connection be opened; when [Acquire]
    throws nothing is released. *)
Definition borrow (created : dpi_answer nat) (p : OracleConnectionPool)
    : OracleConnectionPool :=
  let '(acquired, p') := Acquire created p in
  match acquired with
  | inr conn => Release conn p'
  | inl _ => p'
  end.

(** One [borrow] after the other. *)
Definition borrow_all (answers : list (dpi_answer nat))
    (p : OracleConnectionPool) : OracleConnectionPool :=
  fold_left (fun p created => borrow created p) answers p.

End PoolUse.

(* ===================================================================== *)
(** * Reading the rewriter's output                                       *)
(* ===================================================================== *)

Module RewriterSpec.
Import TypeMapping FilterPushdown.

(** The body of a single-quoted SQL literal read back: two quotes in a
    row stand for one, a quote on its own does not belong there. *)
Fixpoint unescape_quotes (s : string) : option string :=
  match s with
  | EmptyString => Some EmptyString
  | String c rest =>
      if Ascii.eqb c "'"%char then
        match rest with
        | String c2 rest2 =>
            if Ascii.eqb c2 "'"%char
            then option_map (String "'"%char) (unescape_quotes rest2)
            else None
        | EmptyString => None
        end
      else option_map (String c) (unescape_quotes rest)
  end.

Section Trees.
Context `{FloatModel}.

(** The children [ExpressionToSQL] renders when it renders a node. *)
Definition rendered_children (e : Expression) : list Expression :=
  match e with
  | BoundComparison _ l r => [l; r]
  | BoundConjunction _ children => children
  | BoundFunction _ children => children
  | BoundConstant _ => []
  | BoundColumnRef _ => []
  | OtherExpression _ => []
  end.

(** An expression and everything below it. *)
Fixpoint subexpressions (e : Expression) : list Expression :=
  e ::
  match e with
  | BoundComparison _ l r => (subexpressions l ++ subexpressions r)%list
  | BoundConjunction _ children =>
      (fix all (cs : list Expression) : list Expression :=
         match cs with
         | [] => []
         | c :: cs' => (subexpressions c ++ all cs')%list
         end) children
  | BoundFunction _ children =>
      (fix all (cs : list Expression) : list Expression :=
         match cs with
         | [] => []
         | c :: cs' => (subexpressions c ++ all cs')%list
         end) children
  | BoundConstant _ => []
  | BoundColumnRef _ => []
  | OtherExpression _ => []
  end.


End Trees.

End RewriterSpec.

(* ===================================================================== *)
(** * oracle_scan.cpp: Copy and Bind                                      *)
(* ===================================================================== *)

Module ScanBind.
Import Host TypeMapping BindData.








End ScanBind.

(* ===================================================================== *)
(** * oracle_connection.cpp: GetTables                                    *)
(* ===================================================================== *)

Module Metadata.
Import Dpi TypeMapping Connection.

(** [struct OracleTableInfo]. *)
Record OracleTableInfo : Type := {
  table_schema : string;
  table_name : string;
  is_view : bool
}.

(** The SQL text [GetTables] builds. *)
Definition GetTables_sql (schema : string) : string :=
  "SELECT OBJECT_NAME, OBJECT_TYPE "
  ++ "FROM ALL_OBJECTS "
  ++ "WHERE OWNER = '" ++ OracleUtils.ToUpper schema ++ "' "
  ++ "  AND OBJECT_TYPE IN ('TABLE', 'VIEW') "
  ++ "ORDER BY OBJECT_NAME".

Section Tables.
Context `{FloatModel}.

(** The body of the fetch loop of [GetTables]. *)
Definition table_of_row (schema : string) (r : Row) : OracleTableInfo :=
  let name_data := snd (r 1%N) in
  let type_data := snd (r 2%N) in
  let obj_type := asBytes type_data in
  {| table_schema := OracleUtils.ToUpper schema;
     table_name := asBytes name_data;
     is_view := (obj_type =? "VIEW") |}.

(** [OracleConnection::GetTables(schema)]. *)
Definition GetTables (server : Server) (schema : string)
    : result (list OracleTableInfo) :=
  let sql := GetTables_sql schema in
  let stmt := server sql in
  ThrowIfError (prepared stmt) "GetTables::prepareStmt" (fun _ =>
  ThrowIfError (executed stmt) "GetTables::execute" (fun _ =>
  inr (fold_left (fun tables r => (tables ++ [table_of_row schema r])%list)
         (fetched stmt) []))).

End Tables.

End Metadata.

(* ===================================================================== *)
(** * oracle_type_mapping.cpp: FromQueryInfo and ToOracleType             *)
(* ===================================================================== *)

Module TypeDDL.
Import Host TypeMapping.






(** [DecimalType::GetWidth] and [DecimalType::GetScale] of the host:
    both are [uint8_t]. *)
Definition GetWidth (width : Z) : Z := (width mod 256)%Z.
Definition GetScale (scale : Z) : Z := (scale mod 256)%Z.

(** [OracleTypeMapping::ToOracleType(type)]. *)
Definition ToOracleType (type : LogicalType) : string :=
  match type with
  | BOOLEAN => "NUMBER(1)"
  | TINYINT => "NUMBER(3)"
  | SMALLINT => "NUMBER(5)"
  | INTEGER => "NUMBER(10)"
  | BIGINT => "NUMBER(19)"
  | HUGEINT => "NUMBER(38)"
  | FLOAT => "BINARY_FLOAT"
  | DOUBLE => "BINARY_DOUBLE"
  | DECIMAL w s =>
      let width := GetWidth w in
      let scale := GetScale s in
      "NUMBER(" ++ Machine.dec_of_Z width ++ "," ++ Machine.dec_of_Z scale
      ++ ")"
  | VARCHAR => "VARCHAR2(4000)"
  | BLOB => "BLOB"
  | DATE => "DATE"
  | TIMESTAMP => "TIMESTAMP"
  | TIMESTAMP_TZ => "TIMESTAMP WITH TIME ZONE"
  | INTERVAL => "INTERVAL DAY(9) TO SECOND(9)"
  | _ => "VARCHAR2(4000)"
  end.


(** The text of a DDL type [NUMBER(w)]. *)
Definition number_ddl (w : Z) : string :=
  "NUMBER(" ++ Machine.dec_of_Z w ++ ")".

End TypeDDL.

(* ===================================================================== *)
(** * oracle_utils.cpp: connection strings                                *)
(* ===================================================================== *)

Module ConnectString.
Import Connection Text.

(** [std::isspace] in the "C" locale: space, and the controls from tab
    to carriage return. *)
Definition isspace (c : ascii) : bool :=
  let n := nat_of_ascii c in
  (n =? 32)%nat || ((9 <=? n)%nat && (n <=? 13)%nat).

(** A [std::unordered_map<std::string, std::string>] as the list of its
    assignments, newest first: [find] sees the newest assignment of a
    key. *)
Definition KeyValues : Type := list (string * string).

(** [result[key] = value]. *)
Definition kv_set (m : KeyValues) (key value : string) : KeyValues :=
  (key, value) :: m.

(** [result.find(key)]: the value, or [None] for [end()]. *)
Fixpoint kv_find (m : KeyValues) (key : string) : option string :=
  match m with
  | [] => None
  | (k, v) :: rest => if k =? key then Some v else kv_find rest key
  end.

(** The loop [while (pos < len && std::isspace(s[pos])) ++pos], on the
    text from [pos] on: what is left. *)
Fixpoint skip_spaces (s : string) : string :=
  match s with
  | EmptyString => EmptyString
  | String c rest => if isspace c then skip_spaces rest else s
  end.

(** The loop [while (pos < len && !stop(s[pos])) ++pos] on the text from
    [pos] on: the characters passed and what is left. *)
Fixpoint span (stop : ascii -> bool) (s : string) : string * string :=
  match s with
  | EmptyString => (EmptyString, EmptyString)
  | String c rest =>
      if stop c then (EmptyString, s)
      else let '(passed, remaining) := span stop rest in
           (String c passed, remaining)
  end.

Definition key_stop (c : ascii) : bool := Ascii.eqb c "="%char || isspace c.
Definition word_stop (c : ascii) : bool := isspace c.
Definition quote_stop (c : ascii) : bool := Ascii.eqb c "'"%char.

(** [++pos] when [pos < len]. *)
Definition advance (s : string) : string :=
  match s with
  | EmptyString => EmptyString
  | String _ rest => rest
  end.

(** The outer [while (pos < len)] loop of [ParseKeyValueString], on the
    text from [pos] on.  Every turn passes at least one character, so
    [fuel] turns are enough for a text of [fuel] characters. *)
Fixpoint parse_pairs (fuel : nat) (s : string) (result : KeyValues)
    : KeyValues :=
  match fuel with
  | O => result
  | S fuel' =>
      let s := skip_spaces s in
      match s with
      | EmptyString => result
      | String _ _ =>
          let '(key, s) := span key_stop s in
          if empty key then parse_pairs fuel' (advance s) result
          else
            let s := skip_spaces s in
            match s with
            | String c after =>
                if Ascii.eqb c "="%char then
                  let s := skip_spaces after in
                  let '(value, s) :=
                    match s with
                    | String q quoted =>
                        if Ascii.eqb q "'"%char
                        then let '(v, remaining) := span quote_stop quoted in
                             (v, advance remaining)
                        else span word_stop s
                    | EmptyString => span word_stop s
                    end in
                  parse_pairs fuel' s (kv_set result key value)
                else parse_pairs fuel' s result
            | EmptyString => parse_pairs fuel' s result
            end
      end
  end.

(** [OracleUtils::ParseKeyValueString(s)]. *)
Definition ParseKeyValueString (s : string) : KeyValues :=
  parse_pairs (String.length s) s [].

(** The lambda [get] of the two parsers. *)
Definition get (kv : KeyValues) (key default_val : string) : string :=
  match kv_find kv key with
  | Some v => v
  | None => default_val
  end.

Definition is_digit (c : ascii) : bool :=
  let n := nat_of_ascii c in (48 <=? n)%nat && (n <=? 57)%nat.

Definition INT_MIN : Z := (-2147483648)%Z.
Definition INT_MAX : Z := 2147483647%Z.

(** [std::stoi(s)]: blanks are skipped, a sign is read, then the longest
    run of digits; [std::invalid_argument] without a digit and
    [std::out_of_range] beyond [int], both with the message [stoi]. *)
Definition stoi (s : string) : result Z :=
  let s := skip_spaces s in
  let '(negative, s) :=
    match s with
    | String c rest =>
        if Ascii.eqb c "-"%char then (true, rest)
        else if Ascii.eqb c "+"%char then (false, rest)
        else (false, s)
    | EmptyString => (false, s)
    end in
  let '(digits, _) := span (fun c => negb (is_digit c)) s in
  match digits, NilEmpty.uint_of_string digits with
  | String _ _, Some u =>
      let magnitude := Z.of_uint u in
      let v := if negative then (- magnitude)%Z else magnitude in
      if ((INT_MIN <=? v) && (v <=? INT_MAX))%Z then inr v
      else inl "stoi"
  | _, _ => inl "stoi"
  end.

(** A default-constructed [OracleConnectionParameters]. *)
Definition default_params : OracleConnectionParameters :=
  {| host := "localhost"; port := 1521; service_name := ""; sid := "";
     tns_name := ""; user := ""; password := ""; wallet_location := "";
     Connection.schema := ""; read_only := false; fetch_size := 10000 |}.

(** [s.find(c, from)]: the first position of [c] at or after [from],
    [None] for [npos]. *)
Fixpoint find_from (c : ascii) (s : string) (from : nat) : option nat :=
  match s with
  | EmptyString => None
  | String x rest =>
      match from with
      | O => if Ascii.eqb x c then Some O
             else option_map S (find_from c rest O)
      | S k => option_map S (find_from c rest k)
      end
  end.

Definition find (c : ascii) (s : string) : option nat := find_from c s 0.

(** [s.substr(pos)]; it throws [std::out_of_range] when [pos] is beyond
    the end. *)
Definition substr_from (s : string) (pos : nat) : result string :=
  if (pos <=? String.length s)%nat
  then inr (substring pos (String.length s - pos) s)
  else inl "basic_string::substr".

(** The assignments of the three fields read from the extra key-value
    part of an EasyConnect string. *)
Definition set_user_password_schema (p : OracleConnectionParameters)
    (u pw sch : string) : OracleConnectionParameters :=
  {| host := host p; port := port p; service_name := service_name p;
     sid := sid p; tns_name := tns_name p; user := u; password := pw;
     wallet_location := wallet_location p; Connection.schema := sch;
     read_only := read_only p; fetch_size := fetch_size p |}.

(** The assignments of host, port and service in [ParseEasyConnect]. *)
Definition set_host_port_service (p : OracleConnectionParameters)
    (h : string) (pt : Z) (svc : string) : OracleConnectionParameters :=
  {| host := h; port := pt; service_name := svc;
     sid := sid p; tns_name := tns_name p; user := user p;
     password := password p; wallet_location := wallet_location p;
     Connection.schema := Connection.schema p;
     read_only := read_only p; fetch_size := fetch_size p |}.

(** The throwing steps of the parsers, in sequence. *)
Definition and_then {A B : Type} (r : result A) (k : A -> result B)
    : result B :=
  match r with
  | inl e => inl e
  | inr a => k a
  end.

(** The branch of [ParseEasyConnect] taken when a colon comes before
    any slash: host, port and, when a slash follows, the service. *)
Definition easy_host_port (params : OracleConnectionParameters)
    (ec : string) (colon : nat) : result OracleConnectionParameters :=
  let h := substring 0 colon ec in
  match find_from "/"%char ec colon with
  | Some slash2 =>
      and_then (stoi (substring (colon + 1) (slash2 - colon - 1) ec))
        (fun pt =>
      and_then (substr_from ec (slash2 + 1)) (fun svc =>
      inr (set_host_port_service params h pt svc)))
  | None =>
      and_then (substr_from ec (colon + 1)) (fun port_text =>
      and_then (stoi port_text) (fun pt =>
      inr (set_host_port_service params h pt (service_name params))))
  end.

(** The branch taken when a slash comes first: host and service. *)
Definition easy_host_service (params : OracleConnectionParameters)
    (ec : string) (slash : nat) : result OracleConnectionParameters :=
  and_then (substr_from ec (slash + 1)) (fun svc =>
  inr (set_host_port_service params (substring 0 slash ec) (port params)
         svc)).

(** [OracleConnectionParameters::ParseEasyConnect(conn_str)]. *)
Definition ParseEasyConnect (conn_str : string)
    : result OracleConnectionParameters :=
  let params := default_params in
  let '(ec_part, kv_part) :=
    match find " "%char conn_str with
    | Some space_pos =>
        (substring 0 space_pos conn_str,
         substring (space_pos + 1)
           (String.length conn_str - (space_pos + 1)) conn_str)
    | None => (conn_str, EmptyString)
    end in
  and_then (substr_from ec_part 2) (fun ec =>
  and_then
    (match find ":"%char ec, find "/"%char ec with
     | Some colon, None => easy_host_port params ec colon
     | Some colon, Some slash =>
         if (colon <? slash)%nat then easy_host_port params ec colon
         else easy_host_service params ec slash
     | None, Some slash => easy_host_service params ec slash
     | None, None =>
         inr (set_host_port_service params ec (port params)
                (service_name params))
     end)
    (fun params =>
  if negb (empty kv_part) then
    let kv := ParseKeyValueString kv_part in
    inr (set_user_password_schema params
           (get kv "user" (get kv "username" ""))
           (get kv "password" "")
           (get kv "schema" ""))
  else inr params)).

(** The test [conn_str.size() >= 2 && conn_str[0] == '/' &&
    conn_str[1] == '/']. *)
Definition starts_with_slashes (conn_str : string) : bool :=
  match conn_str with
  | String c0 (String c1 _) =>
      Ascii.eqb c0 "/"%char && Ascii.eqb c1 "/"%char
  | _ => false
  end.

(** [OracleConnectionParameters::ParseConnectionString(conn_str)]. *)
Definition ParseConnectionString (conn_str : string)
    : result OracleConnectionParameters :=
  if starts_with_slashes conn_str then ParseEasyConnect conn_str
  else
    let kv := ParseKeyValueString conn_str in
    and_then (stoi (get kv "port" "1521")) (fun pt =>
    let service := get kv "service" (get kv "service_name" "") in
    let user_name := get kv "user" (get kv "username" "") in
    let wallet := get kv "wallet" (get kv "wallet_location" "") in
    and_then (stoi (get kv "fetch_size" "10000")) (fun fs =>
    inr {| host := get kv "host" "localhost";
           port := pt;
           service_name := service;
           sid := get kv "sid" "";
           tns_name := get kv "tns" "";
           user := user_name;
           password := get kv "password" "";
           wallet_location := wallet;
           Connection.schema := get kv "schema" "";
           read_only := false;
           fetch_size := fs |})).

(** [OracleConnectionParameters::BuildConnectString()]. *)
Definition BuildConnectString (p : OracleConnectionParameters) : string :=
  if negb (empty (tns_name p)) then tns_name p
  else
    let oss := "//" ++ host p ++ ":" ++ Machine.dec_of_Z (port p) ++ "/" in
    if negb (empty (service_name p)) then oss ++ service_name p
    else if negb (empty (sid p)) then
      oss ++ "(DESCRIPTION=(ADDRESS=(PROTOCOL=TCP)(HOST=" ++ host p
          ++ ")(PORT=" ++ Machine.dec_of_Z (port p) ++ "))"
          ++ "(CONNECT_DATA=(SID=" ++ sid p ++ ")))"
    else oss.

(** [OracleConnectionParameters::GetEffectiveSchema()]. *)
Definition GetEffectiveSchema (p : OracleConnectionParameters) : string :=
  if negb (empty (Connection.schema p))
  then OracleUtils.ToUpper (Connection.schema p)
  else OracleUtils.ToUpper (user p).

End ConnectString.
(* ===================================================================== *)
(** * Connection strings as their writers mean them                       *)
(* ===================================================================== *)

Module ConnectStringSpec.
Import Connection ConnectString Text.

(** Every character of the text passes the test. *)
Fixpoint all_chars (test : ascii -> bool) (s : string) : bool :=
  match s with
  | EmptyString => true
  | String c rest => test c && all_chars test rest
  end.

(** A key as one writes it: not empty, no blank and no equals sign. *)
Definition plain_key (k : string) : bool :=
  negb (empty k) && all_chars (fun c => negb (key_stop c)) k.

(** An unquoted value: not empty, no blank, not opening with a quote. *)
Definition plain_value (v : string) : bool :=
  match v with
  | EmptyString => false
  | String c _ =>
      negb (Ascii.eqb c "'"%char) && all_chars (fun c => negb (isspace c)) v
  end.

Definition well_formed_pair (kv : string * string) : bool :=
  plain_key (fst kv) && plain_value (snd kv).

(** [key=value]. *)
Definition render_pair (kv : string * string) : string :=
  fst kv ++ "=" ++ snd kv.

(** The pairs, one blank between them. *)
Definition render_pairs (kvs : list (string * string)) : string :=
  String.concat " " (map render_pair kvs).

(** The text opens with a decimal digit. *)
Definition starts_with_digit (s : string) : bool :=
  match s with
  | EmptyString => false
  | String c _ => is_digit c
  end.

(** A key with its value between single quotes. *)
Definition render_quoted (key value : string) : string :=
  key ++ "='" ++ value ++ "'".

(** Parameters [BuildConnectString] writes in the form
    [//host:port/service] and that can be read back: no TNS alias, a SID
    only beside a service name, a host without blank, colon or slash, a
    service name without blank, a port that is an [int]. *)
Definition easy_connectable (p : OracleConnectionParameters) : bool :=
  empty (tns_name p)
  && (negb (empty (service_name p)) || empty (sid p))
  && all_chars (fun c => negb (Ascii.eqb c " "%char)
                         && negb (Ascii.eqb c ":"%char)
                         && negb (Ascii.eqb c "/"%char)) (host p)
  && all_chars (fun c => negb (Ascii.eqb c " "%char)) (service_name p)
  && (INT_MIN <=? port p)%Z && (port p <=? INT_MAX)%Z.

End ConnectStringSpec.

(* ===================================================================== *)
(** * oracle_schema_entry.cpp, oracle_table_entry.cpp                     *)
(* ===================================================================== *)

Module SchemaEntry.
Import Host Dpi TypeMapping Connection Text.

(** The host's [ColumnDefinition], as far as the connector sets it: the
    name and the type.  ([SetDefault(nullptr)], called for a column that
    is not nullable, leaves the default expression empty as it was.) *)
Record ColumnDefinition : Type := {
  column_name : string;
  column_type : LogicalType
}.

(** The host's [CreateTableInfo], the fields the connector fills in. *)
Record CreateTableInfo : Type := {
  info_schema : string;
  info_table : string;
  temporary : bool;
  info_columns : list ColumnDefinition
}.

(** [OracleTableInfoToCreateTableInfo(catalog, schema, table,
    columns)]. *)
Definition OracleTableInfoToCreateTableInfo (schema table : string)
    (columns : list OracleColumnInfo) : CreateTableInfo :=
  {| info_schema := schema;
     info_table := table;
     temporary := false;
     info_columns :=
       fold_left
         (fun cols col =>
            let dtype := ToDuckDBType col in
            (cols ++ [{| column_name := name col;
                         column_type := dtype |}])%list)
         columns [] |}.

(** An [OracleTableEntry]: what the host keeps of the create info, and
    [oracle_columns_]. *)
Record OracleTableEntry : Type := {
  create_info : CreateTableInfo;
  oracle_columns_ : list OracleColumnInfo
}.

(** An [unordered_map<string, unique_ptr<...>>] as the list of its
    entries, one per key. *)
Definition Cache (A : Type) : Type := list (string * A).

(** [cache.find(key)]; [None] for [end()]. *)
Fixpoint cache_find {A : Type} (m : Cache A) (key : string) : option A :=
  match m with
  | [] => None
  | (k, v) :: rest => if k =? key then Some v else cache_find rest key
  end.

(** [cache.erase(key)]. *)
Definition cache_erase {A : Type} (m : Cache A) (key : string) : Cache A :=
  filter (fun kv => negb (fst kv =? key)) m.

(** [cache[key] = value]: the entry of the key is replaced, or made. *)
Definition cache_assign {A : Type} (m : Cache A) (key : string) (v : A)
    : Cache A :=
  (key, v) :: cache_erase m key.

(** An [OracleSchemaEntry]: its [name] and its [table_cache_].  The
    pool it refers to is the catalog's and is passed beside it. *)
Record OracleSchemaEntry : Type := {
  schema_name : string;
  table_cache_ : Cache OracleTableEntry
}.

Definition set_table_cache_ (entry : OracleSchemaEntry)
    (cache : Cache OracleTableEntry) : OracleSchemaEntry :=
  {| schema_name := schema_name entry; table_cache_ := cache |}.

(** The host's [CatalogType], the members the connector tells apart
    and two of the others. *)
Inductive CatalogType : Type :=
| TABLE_ENTRY
| VIEW_ENTRY
| SCHEMA_ENTRY
| INDEX_ENTRY.

Definition is_table_or_view (type : CatalogType) : bool :=
  match type with
  | TABLE_ENTRY | VIEW_ENTRY => true
  | _ => false
  end.

(** What a method of the schema entry leaves behind: its result or the
    exception it throws, the pool and the schema entry afterwards. *)
Definition Outcome (A : Type) : Type :=
  (result A * OracleConnectionPool * OracleSchemaEntry)%type.

Section Tables.
Context `{FloatModel}.

(** [OracleConnection::ExecuteDML(sql)]. *)
Definition ExecuteDML (server : Server) (sql : string) : result unit :=
  let stmt := server sql in
  ThrowIfError (prepared stmt) "ExecuteDML::prepareStmt" (fun _ =>
  ThrowIfError (executed stmt) "ExecuteDML::execute" (fun _ =>
  inr tt)).

(** [OracleSchemaEntry::GetOrLoadTable(table_name)]: the entry found or
    loaded, [None] for [nullptr].  [created] is what the driver answers
    should [Acquire] open a connection.  When [GetColumns] throws, the
    connection acquired is not released: the last reference to it goes
    with the local variable. *)
Definition GetOrLoadTable (created : dpi_answer nat) (server : Server)
    (pool : OracleConnectionPool) (entry : OracleSchemaEntry)
    (table_name : string) : Outcome (option OracleTableEntry) :=
  let upper_name := OracleUtils.ToUpper table_name in
  match cache_find (table_cache_ entry) upper_name with
  | Some cached => (inr (Some cached), pool, entry)
  | None =>
      let '(acquired, pool) := Acquire created pool in
      match acquired with
      | inl e => (inl e, pool, entry)
      | inr conn =>
          match GetColumns server (schema_name entry) upper_name with
          | inl e => (inl e, pool, entry)
          | inr columns =>
              let pool := Release conn pool in
              match columns with
              | [] => (inr None, pool, entry)
              | _ :: _ =>
                  let info :=
                    OracleTableInfoToCreateTableInfo (schema_name entry)
                      upper_name columns in
                  let loaded :=
                    {| create_info := info; oracle_columns_ := columns |} in
                  (inr (Some loaded), pool,
                   set_table_cache_ entry
                     (cache_assign (table_cache_ entry) upper_name loaded))
              end
          end
      end
  end.

(** [OracleSchemaEntry::GetEntry(transaction, type, entry_name)]. *)
Definition GetEntry (created : dpi_answer nat) (server : Server)
    (pool : OracleConnectionPool) (entry : OracleSchemaEntry)
    (type : CatalogType) (entry_name : string)
    : Outcome (option OracleTableEntry) :=
  if negb (is_table_or_view type) then (inr None, pool, entry)
  else GetOrLoadTable created server pool entry entry_name.

(** The statement [DropEntry] builds. *)
Definition DropEntry_sql (schema : string) (table : string)
    (if_exists : bool) : string :=
  let upper_name := OracleUtils.ToUpper table in
  let sql := "DROP TABLE " ++ OracleUtils.QuoteIdentifier schema
             ++ "." ++ OracleUtils.QuoteIdentifier upper_name in
  if if_exists then sql ++ " PURGE" else sql.

(** [OracleSchemaEntry::DropEntry(context, info)], with [info.name] and
    [info.if_exists]. *)
Definition DropEntry (created : dpi_answer nat) (server : Server)
    (pool : OracleConnectionPool) (entry : OracleSchemaEntry)
    (table : string) (if_exists : bool) : Outcome unit :=
  let upper_name := OracleUtils.ToUpper table in
  let sql := DropEntry_sql (schema_name entry) table if_exists in
  let '(acquired, pool) := Acquire created pool in
  match acquired with
  | inl e => (inl e, pool, entry)
  | inr conn =>
      match ExecuteDML server sql with
      | inl e => (inl e, pool, entry)
      | inr _ =>
          let pool := Release conn pool in
          (inr tt, pool,
           set_table_cache_ entry
             (cache_erase (table_cache_ entry) upper_name))
      end
  end.

End Tables.

End SchemaEntry.

(* ===================================================================== *)
(** * What the table cache is meant to hold                               *)
(* ===================================================================== *)

Module SchemaEntrySpec.
Import TypeMapping Connection Text SchemaEntry.

(** A cached table as [GetOrLoadTable] makes it: kept under its own
    name, which is in upper case, in the schema of the entry, with at
    least one column and one column definition for each. *)
Definition loaded_entry (schema : string)
    (kv : string * OracleTableEntry) : bool :=
  let '(key, e) := kv in
  (OracleUtils.ToUpper key =? key)
  && (info_table (create_info e) =? key)
  && (info_schema (create_info e) =? schema)
  && negb (Nat.eqb (List.length (oracle_columns_ e)) 0)
  && Nat.eqb (List.length (info_columns (create_info e)))
             (List.length (oracle_columns_ e)).

Definition cache_ok (entry : OracleSchemaEntry) : bool :=
  forallb (loaded_entry (schema_name entry)) (table_cache_ entry).

(** No two entries of the cache have the same key. *)
Fixpoint unique_keys {A : Type} (m : Cache A) : bool :=
  match m with
  | [] => true
  | (k, _) :: rest =>
      match cache_find rest k with
      | Some _ => false
      | None => unique_keys rest
      end
  end.

End SchemaEntrySpec.

Module SchemaInputs.
Import Host Dpi TypeMapping Connection SchemaEntry Inputs.

(** A cell holding a text. *)
Definition text_cell (s : string) : @dpiData WholeFloats :=
  @Build_dpiData WholeFloats false 0%Z 0%Z 0%N 0%Z 0%Z s
    (asTimestamp blank_cell) (asIntervalDS blank_cell)
    (asIntervalYM blank_cell) (asLOB blank_cell).

(** A cell holding a number. *)
Definition number_cell (v : Z) : @dpiData WholeFloats :=
  @Build_dpiData WholeFloats false 0%Z 0%Z 0%N 0%Z v ""
    (asTimestamp blank_cell) (asIntervalDS blank_cell)
    (asIntervalYM blank_cell) (asLOB blank_cell).

(** The dictionary row of a column [ID NUMBER(10,0) NOT NULL]. *)
Definition id_column_row : @Row WholeFloats :=
  fun pos =>
    if (pos =? 1)%N then (DPI_NATIVE_TYPE_BYTES, text_cell "ID")
    else if (pos =? 2)%N then (DPI_NATIVE_TYPE_BYTES, text_cell "NUMBER")
    else if (pos =? 3)%N then (DPI_NATIVE_TYPE_DOUBLE, number_cell 10)
    else if (pos =? 4)%N then (DPI_NATIVE_TYPE_DOUBLE, number_cell 0)
    else if (pos =? 5)%N then (DPI_NATIVE_TYPE_DOUBLE, number_cell 0)
    else (DPI_NATIVE_TYPE_BYTES, text_cell "N").

(** A server whose dictionary lists that one column for every table. *)
Definition one_column_server : @Server WholeFloats :=
  fun _ =>
    {| prepared := DPI_SUCCESS tt; executed := DPI_SUCCESS 6%N;
       fetched := [id_column_row] |}.

(** A server on which no statement can be prepared. *)
Definition failing_server : @Server WholeFloats :=
  fun _ =>
    {| prepared := DPI_FAILURE "ORA-03113"; executed := DPI_SUCCESS 0%N;
       fetched := [] |}.

(** The schema entry [HR] before any lookup. *)
Definition hr_schema : OracleSchemaEntry :=
  {| schema_name := "HR"; table_cache_ := [] |}.

(** The connection the empty pool opens first. *)
Definition first_connection : OracleConnection :=
  {| conn_ := 1%nat; params_ := some_params |}.

(** The pool once that connection is idle in it. *)
Definition pool_after_first : OracleConnectionPool :=
  set_pool_ (new_pool some_params 8) [first_connection].

(** The table [EMP] as it is loaded from that server. *)
Definition emp_entry : OracleTableEntry :=
  {| create_info :=
       {| info_schema := "HR"; info_table := "EMP"; temporary := false;
          info_columns :=
            [{| column_name := "ID"; column_type := BIGINT |}] |};
     oracle_columns_ :=
       [{| name := "ID"; oracle_type_name := "NUMBER"; precision := 10;
           scale := 0; char_length := 0; nullable := false |}] |}.

(** The schema entry [HR] with [EMP] cached. *)
Definition hr_with_emp : OracleSchemaEntry :=
  {| schema_name := "HR"; table_cache_ := [("EMP", emp_entry)] |}.

End SchemaInputs.

(* ===================================================================== *)
(** * oracle_catalog.cpp                                                  *)
(* ===================================================================== *)

Module Catalog.
Import Host Dpi TypeMapping Connection Text SchemaEntry.

(** An [OracleCatalog]: [params_], the pool [pool_] owns, and
    [schema_cache_].  The schema entries refer to that pool. *)
Record OracleCatalog : Type := {
  catalog_params_ : OracleConnectionParameters;
  catalog_pool_ : OracleConnectionPool;
  schema_cache_ : Cache OracleSchemaEntry
}.

(** The constructor: a pool of at most 8 connections, no schema. *)
Definition new_catalog (params : OracleConnectionParameters)
    : OracleCatalog :=
  {| catalog_params_ := params;
     catalog_pool_ := new_pool params 8;
     schema_cache_ := [] |}.

Definition set_schema_cache_ (cat : OracleCatalog)
    (cache : Cache OracleSchemaEntry) : OracleCatalog :=
  {| catalog_params_ := catalog_params_ cat;
     catalog_pool_ := catalog_pool_ cat;
     schema_cache_ := cache |}.

(** A method called through a pointer into the cache changes the
    object the cache holds: the entry of [key], where it is. *)
Fixpoint cache_replace {A : Type} (m : Cache A) (key : string) (v : A)
    : Cache A :=
  match m with
  | [] => []
  | (k, x) :: rest =>
      if k =? key then (k, v) :: rest
      else (k, x) :: cache_replace rest key v
  end.

(** [GetSchemaFromCache(schema_name)]. *)
Definition GetSchemaFromCache (cat : OracleCatalog) (schema_name : string)
    : option OracleSchemaEntry :=
  cache_find (schema_cache_ cat) (OracleUtils.ToUpper schema_name).

(** [CreateSchemaEntry(schema_name)]: a schema entry with an empty table
    cache. *)
Definition CreateSchemaEntry (schema_name : string) : OracleSchemaEntry :=
  {| SchemaEntry.schema_name := OracleUtils.ToUpper schema_name;
     table_cache_ := [] |}.

(** [PreloadSchema(schema)]. *)
Definition PreloadSchema (cat : OracleCatalog) (schema : string)
    : OracleCatalog :=
  let upper := OracleUtils.ToUpper schema in
  let entry := CreateSchemaEntry upper in
  set_schema_cache_ cat (cache_assign (schema_cache_ cat) upper entry).

(** [Initialize(load_builtin)]. *)
Definition Initialize (cat : OracleCatalog) : OracleCatalog :=
  PreloadSchema cat (ConnectString.GetEffectiveSchema (catalog_params_ cat)).

(** [GetSchema(transaction, schema_name, on_not_found, error_context)]:
    the entry ([None] for a null pointer) and the catalog afterwards. *)
Definition GetSchema (cat : OracleCatalog) (schema_name : string)
    : option OracleSchemaEntry * OracleCatalog :=
  let upper := OracleUtils.ToUpper schema_name in
  match GetSchemaFromCache cat upper with
  | Some cached => (Some cached, cat)
  | None =>
      match cache_find (schema_cache_ cat) upper with
      | Some entry => (Some entry, cat)
      | None =>
          let entry := CreateSchemaEntry upper in
          (Some entry,
           set_schema_cache_ cat
             (cache_assign (schema_cache_ cat) upper entry))
      end
  end.

(** [OracleCatalog::ClearCache()]. *)
Definition ClearCache (cat : OracleCatalog) : OracleCatalog :=
  let cat :=
    {| catalog_params_ := catalog_params_ cat;
       catalog_pool_ := Connection.ClearCache (catalog_pool_ cat);
       schema_cache_ := [] |} in
  PreloadSchema cat (ConnectString.GetEffectiveSchema (catalog_params_ cat)).

Section Entries.
Context `{FloatModel}.

(** [GetEntryInternal(transaction, type, schema, name)]: the entry or
    the exception, and the catalog afterwards.  The schema entry is the
    object in the cache, under the upper-cased schema name. *)
Definition GetEntryInternal (created : dpi_answer nat) (server : Server)
    (cat : OracleCatalog) (type : CatalogType) (schema name : string)
    : result (option OracleTableEntry) * OracleCatalog :=
  let '(schema_entry, cat) := GetSchema cat schema in
  match schema_entry with
  | None => (inr None, cat)
  | Some entry =>
      let '(found, pool, entry) :=
        GetEntry created server (catalog_pool_ cat) entry type name in
      (found,
       {| catalog_params_ := catalog_params_ cat;
          catalog_pool_ := pool;
          schema_cache_ :=
            cache_replace (schema_cache_ cat)
              (OracleUtils.ToUpper schema) entry |})
  end.

End Entries.

End Catalog.

Module CatalogInputs.
Import Connection SchemaEntry Catalog Inputs SchemaInputs.

(** The catalog after [EMP] of [HR] was looked up through it. *)
Definition catalog_with_emp : OracleCatalog :=
  {| catalog_params_ := some_params;
     catalog_pool_ := pool_after_first;
     schema_cache_ := [("HR", hr_with_emp)] |}.

End CatalogInputs.

(* ===================================================================== *)
(** * Facts about text                                                    *)
(* ===================================================================== *)

Section TextFacts.
Import Text.

(** The [idx_t] sum is the sum of the numbers whenever that fits 64
    bits. *)
Lemma idx_add_exact (a b : N) :
  (a + b < Machine.two64)%N -> Machine.idx_add a b = (a + b)%N.
Proof. intros Hfit. unfold Machine.idx_add. now apply N.mod_small. Qed.

Lemma string_app_nil_r (s : string) : s ++ "" = s.
Proof. induction s as [|c s IH]; simpl; [reflexivity | now rewrite IH]. Qed.

Lemma string_app_assoc (a b c : string) : (a ++ b) ++ c = a ++ (b ++ c).
Proof. induction a as [|x a IH]; simpl; [reflexivity | now rewrite IH]. Qed.

Lemma empty_true_iff (s : string) : empty s = true <-> s = "".
Proof. destruct s; simpl; split; congruence. Qed.

(** The indexed join loop, started at any index. *)
Lemma join_loop_from (sep : string) (items : list string) :
  forall (i : N) (out : string),
    snd (fold_left
           (fun (st : N * string) (item : string) =>
              let '(i, out) := st in
              ((i + 1)%N, (if (0 <? i)%N then out ++ sep else out) ++ item))
           items (i, out))
    = match items with
      | [] => out
      | _ :: _ =>
          out ++ (if (0 <? i)%N then sep else "") ++ String.concat sep items
      end.
Proof.
  induction items as [|x xs IH]; intros i out; [reflexivity|].
  cbn [fold_left]. rewrite IH.
  assert (Hpos : (0 <? i + 1)%N = true) by (apply N.ltb_lt; lia).
  rewrite Hpos.
  destruct xs as [|y ys].
  - cbn [String.concat]. destruct (0 <? i)%N.
    + now rewrite string_app_assoc.
    + reflexivity.
  - change (String.concat sep (x :: y :: ys))
      with (x ++ sep ++ String.concat sep (y :: ys)).
    destruct (0 <? i)%N; now rewrite ?string_app_assoc.
Qed.

(** The join loop appends the items separated by [sep]. *)
Lemma append_joined_concat (sep : string) (items : list string)
    (out : string) :
  append_joined sep items out = out ++ String.concat sep items.
Proof.
  unfold append_joined. rewrite join_loop_from.
  destruct items; [now rewrite string_app_nil_r | reflexivity].
Qed.

End TextFacts.

(* ===================================================================== *)
(** * The SELECT builder                                                  *)
(* ===================================================================== *)

Section SelectBuilder.
Import Host TypeMapping BindData SelectSpec Text.

(** Indexing guarded by [cid < size] is [nth_error]. *)
Lemma guarded_index {A : Type} (l : list A) (d : A) (cid : N) :
  nth_error l (N.to_nat cid)
  = if (cid <? N.of_nat (List.length l))%N
    then Some (nth (N.to_nat cid) l d) else None.
Proof.
  destruct (N.ltb_spec cid (N.of_nat (List.length l))) as [Hlt | Hge].
  - apply nth_error_nth'. lia.
  - apply nth_error_None. lia.
Qed.

(** One turn of the projection loop writes the item of the id, after a
    comma unless it is the first item written. *)
Lemma project_column_item (cols : list OracleColumnInfo) (oss : string)
    (first : bool) (cid : N) :
  project_column cols (oss, first) cid
  = match spec_select_item cols cid with
    | Some item => ((if negb first then oss ++ ", " else oss) ++ item, false)
    | None => (oss, first)
    end.
Proof.
  unfold project_column, spec_select_item.
  destruct (cid =? COLUMN_IDENTIFIER_ROW_ID)%N; [reflexivity|].
  rewrite (guarded_index cols default_column).
  destruct (cid <? N.of_nat (List.length cols))%N; reflexivity.
Qed.

(** The whole projection loop, from any stream and flag. *)
Lemma project_loop (cols : list OracleColumnInfo) (ids : list N) :
  forall (oss : string) (first : bool),
    fold_left (project_column cols) ids (oss, first)
    = match spec_select_items cols ids with
      | [] => (oss, first)
      | items =>
          (oss ++ (if first then "" else ", ") ++ String.concat ", " items,
           false)
      end.
Proof.
  induction ids as [|cid ids IH]; intros oss first; [reflexivity|].
  cbn [fold_left spec_select_items].
  rewrite project_column_item.
  destruct (spec_select_item cols cid) as [item|]; [|apply IH].
  rewrite IH.
  destruct (spec_select_items cols ids) as [|i2 items].
  - cbn [String.concat].
    destruct first; cbn [negb]; now rewrite ?string_app_assoc.
  - change (String.concat ", " (item :: i2 :: items))
      with (item ++ ", " ++ String.concat ", " (i2 :: items)).
    destruct first; cbn [negb]; now rewrite ?string_app_assoc.
Qed.

(** The projection part of [BuildSelectQuery] writes the SELECT list. *)
Lemma projection_writes_select_list (b : OracleScanBindData) :
  match column_ids b with
  | [] => "SELECT " ++ "*"
  | _ :: _ =>
      let '(oss, first) :=
        fold_left (project_column (all_columns b)) (column_ids b)
          ("SELECT ", true) in
      if first then oss ++ "*" else oss
  end = "SELECT " ++ spec_select_list b.
Proof.
  unfold spec_select_list.
  destruct (column_ids b) as [|cid ids] eqn:Hids; [reflexivity|].
  rewrite project_loop.
  destruct (spec_select_items (all_columns b) (cid :: ids)); reflexivity.
Qed.

(** The WHERE part of [BuildSelectQuery] appends the WHERE clause. *)
Lemma where_writes_clause (b : OracleScanBindData) (oss : string) :
  match filters b with
  | [] => oss
  | _ :: _ => append_joined " AND " (filters b) (oss ++ " WHERE ")
  end = oss ++ spec_where b.
Proof.
  unfold spec_where. destruct (filters b) as [|f fs].
  - now rewrite string_app_nil_r.
  - now rewrite append_joined_concat, string_app_assoc.
Qed.

(** Before the limit is looked at, the stream holds the inner query. *)
Lemma BuildSelectQuery_unfold (b : OracleScanBindData) :
  BuildSelectQuery b
  = let oss := spec_inner_query b in
    if negb (limit b =? INVALID_INDEX)%N then
      if (12 <=? oracle_major_version b)%Z then
        (if (0 <? offset b)%N
         then oss ++ " OFFSET " ++ Machine.dec_of_N (offset b) ++ " ROWS"
         else oss)
        ++ " FETCH FIRST " ++ Machine.dec_of_N (limit b) ++ " ROWS ONLY"
      else
        "SELECT * FROM (SELECT ROWNUM rn__, t__.* FROM (" ++ oss
        ++ ") t__ WHERE ROWNUM <= "
        ++ Machine.dec_of_N (Machine.idx_add (offset b) (limit b))
        ++ ")" ++ " WHERE rn__ > " ++ Machine.dec_of_N (offset b)
    else oss.
Proof.
  unfold BuildSelectQuery.
  rewrite projection_writes_select_list.
  rewrite where_writes_clause.
  unfold spec_inner_query.
  now rewrite !string_app_assoc.
Qed.

(** C1. [BuildSelectQuery] emits exactly the SQL of the builder
    algorithm of section 4.3: the SELECT list ([*] for an empty
    projection; otherwise ROWID or the quoted column name per id, in
    order, out-of-range ids skipped, [*] when all were skipped), then
    FROM the quoted schema and table, then the filters joined by AND
    after WHERE when there are any, then, when the limit is set, OFFSET
    (only when positive) and FETCH FIRST for a server of major version at
    least 12 and the ROWNUM wrapping otherwise.  Scenario S1 yields its
    SQL text, and scenario S4 (version 11, limit 5, offset 10) wraps the
    inner query between [ROWNUM <= 15] and [rn__ > 10]. *)
Theorem BuildSelectQuery_emits_prescribed_sql :
  (forall b : OracleScanBindData,
      BuildSelectQuery b = spec_select_query b)
  /\ BuildSelectQuery (employees_scan [0%N; 1%N] [] 10 0 12) = S1_sql
  /\ (forall b : OracleScanBindData,
        BuildSelectQuery (with_paging b 5 10 11)
        = "SELECT * FROM (SELECT ROWNUM rn__, t__.* FROM ("
          ++ spec_inner_query b
          ++ ") t__ WHERE ROWNUM <= 15) WHERE rn__ > 10").
Proof.
  assert (Hall : forall b, BuildSelectQuery b = spec_select_query b).
  { intros b. rewrite BuildSelectQuery_unfold.
    unfold spec_select_query, spec_fetch_first, spec_rownum_wrap.
    destruct (limit b =? INVALID_INDEX)%N; cbn [negb]; [reflexivity|].
    destruct (12 <=? oracle_major_version b)%Z; [|reflexivity].
    destruct (0 <? offset b)%N; now rewrite ?string_app_assoc. }
  split; [exact Hall|]. split; [reflexivity|].
  intros b. rewrite Hall. reflexivity.
Qed.

End SelectBuilder.

(* ===================================================================== *)
(** * Type mapping                                                        *)
(* ===================================================================== *)

Section TypeMappingFacts.
Import Host Dpi TypeMapping TypeSpec Inputs.

(** The integer block returns exactly when the precision is at most 38,
    and then by the four thresholds. *)
Lemma number_integer_block_rows (p : Z) :
  number_integer_block p
  = if (p <=? 4)%Z then Some SMALLINT
    else if (p <=? 9)%Z then Some INTEGER
    else if (p <=? 18)%Z then Some BIGINT
    else if (p <=? 38)%Z then Some HUGEINT
    else None.
Proof. reflexivity. Qed.

(** The NUMBER branch of [ToDuckDBType] computes the table. *)
Lemma number_branch_is_table (p s : Z) :
  (if (p =? 0)%Z && (s =? -127)%Z then DOUBLE
   else
     match
       (if (s =? 0)%Z || (s =? -127)%Z
        then number_integer_block p else None)
     with
     | Some t => t
     | None => if (0 <? p)%Z && (0 <=? s)%Z then DECIMAL p s else DOUBLE
     end)
  = spec_number_type p s.
Proof.
  unfold spec_number_type, integral_scale, number_integer_block.
  destruct ((p =? 0)%Z && (s =? -127)%Z); [reflexivity|].
  destruct ((s =? 0)%Z || (s =? -127)%Z); cbn [andb]; [|reflexivity].
  destruct (p <=? 4)%Z; [reflexivity|].
  destruct (p <=? 9)%Z; [reflexivity|].
  destruct (p <=? 18)%Z; [reflexivity|].
  destruct (p <=? 38)%Z; reflexivity.
Qed.

(** C2. [ToDuckDBType] is a function of the column alone (a total,
    deterministic one: it is defined on every [OracleColumnInfo] and
    returns a type), and on every column whose type name is NUMBER it
    follows the table: DOUBLE for precision 0 and scale -127; otherwise,
    for scale 0 or -127, SMALLINT up to precision 4, INTEGER up to 9,
    BIGINT up to 18, HUGEINT up to 38; otherwise DECIMAL(precision,
    scale) when precision > 0 and scale >= 0; DOUBLE in every other
    case. *)
Theorem ToDuckDBType_number_table (col : OracleColumnInfo) :
  oracle_type_name col = "NUMBER" ->
  ToDuckDBType col = spec_number_type (precision col) (scale col).
Proof.
  intros Hname. unfold ToDuckDBType. rewrite Hname.
  cbn [String.eqb Ascii.eqb Bool.eqb]. cbn match.
  apply number_branch_is_table.
Qed.

(** C2 at NUMBER(38,0): the table applied through the theorem. *)
Lemma ToDuckDBType_number_table_witness :
  oracle_type_name (number_column 38 0) = "NUMBER"
  /\ ToDuckDBType (number_column 38 0) = HUGEINT.
Proof.
  split; [reflexivity|].
  rewrite (ToDuckDBType_number_table (number_column 38 0) eq_refl).
  reflexivity.
Defined.

(** Scenario S5, the three NUMBER rows. *)
Example S5_number_types :
  ToDuckDBType (number_column 38 0) = HUGEINT
  /\ ToDuckDBType (number_column 0 (-127)) = DOUBLE
  /\ ToDuckDBType (number_column 10 2) = DECIMAL 10 2.
Proof. repeat split. Qed.

(** Precision above 38 with scale 0 leaves the integer block and lands
    on DECIMAL. *)
Example number_wide_integer :
  ToDuckDBType (number_column 40 0) = DECIMAL 40 0.
Proof. reflexivity. Qed.

Section AnyFloats.
Context `{FloatModel}.

(** A native type number outside the recognised ones fails every test of
    the [switch]. *)
Lemma unrecognized_native (n : dpiNativeTypeNum) :
  ~ In n recognized_native_types ->
  (n =? DPI_NATIVE_TYPE_DOUBLE)%N = false
  /\ (n =? DPI_NATIVE_TYPE_FLOAT)%N = false
  /\ (n =? DPI_NATIVE_TYPE_INT64)%N = false
  /\ (n =? DPI_NATIVE_TYPE_UINT64)%N = false
  /\ (n =? DPI_NATIVE_TYPE_BYTES)%N = false
  /\ (n =? DPI_NATIVE_TYPE_TIMESTAMP)%N = false
  /\ (n =? DPI_NATIVE_TYPE_INTERVAL_YM)%N = false
  /\ (n =? DPI_NATIVE_TYPE_INTERVAL_DS)%N = false
  /\ (n =? DPI_NATIVE_TYPE_BOOLEAN)%N = false
  /\ (n =? DPI_NATIVE_TYPE_LOB)%N = false.
Proof.
  intros Hnot. unfold recognized_native_types in Hnot.
  repeat split; apply N.eqb_neq; intros ->; apply Hnot;
    cbn [In]; tauto.
Qed.

(** C6. [ToDuckDBValue] always returns a value (it is a total function
    into [Value], with no error case), and that value is the typed null
    of the target type whenever the driver flags the cell null, whatever
    the native type, and whenever the native type number is not one the
    function has a case for. *)
Theorem ToDuckDBValue_null_and_unknown (zone : Libc.timezone)
    (data : dpiData) (native_type : dpiNativeTypeNum)
    (target_type : LogicalType) :
  isNull data = true \/ ~ In native_type recognized_native_types ->
  ToDuckDBValue zone data native_type target_type = Null target_type.
Proof.
  intros [Hnull | Hunknown]; unfold ToDuckDBValue.
  - now rewrite Hnull.
  - destruct (unrecognized_native native_type Hunknown)
      as (H1 & H2 & H3 & H4 & H5 & H6 & H7 & H8 & H9 & H10).
    rewrite H1, H2, H3, H4, H5, H6, H7, H8, H9, H10.
    destruct (isNull data); reflexivity.
Qed.

(** With the process in UTC, a timestamp cell becomes the seconds of its
    civil date and time, in microseconds, plus the microseconds of its
    fraction; for TIMESTAMP_TZ the cell's zone offset is taken off. *)
Lemma timestamp_value_in_utc (ts : dpiTimestamp) (target : LogicalType) :
  timestamp_value Libc.utc ts target
  = let us :=
      (Libc.timegm (tm_of_timestamp ts) * 1000000 + fsecond ts / 1000)%Z in
    if type_eqb target TIMESTAMP_TZ
    then V_TIMESTAMPTZ
           (us - (tzHourOffset ts * 60 + tzMinuteOffset ts) * 60 * 1000000)%Z
    else V_TIMESTAMP us.
Proof.
  unfold timestamp_value, Libc.mktime, Libc.utc.
  now rewrite Z.sub_0_r.
Qed.

(** In any zone the result is off by the zone's offset from UTC. *)
Lemma timestamp_value_shifted (zone : Libc.timezone) (ts : dpiTimestamp) :
  timestamp_value zone ts TIMESTAMP_TZ
  = V_TIMESTAMPTZ
      ((Libc.timegm (tm_of_timestamp ts) * 1000000 + fsecond ts / 1000
        - (tzHourOffset ts * 60 + tzMinuteOffset ts) * 60 * 1000000)
       - zone (Libc.timegm (tm_of_timestamp ts)) * 1000000)%Z.
Proof.
  unfold timestamp_value, Libc.mktime, type_eqb. cbv zeta.
  destruct (LogicalType_eq_dec TIMESTAMP_TZ TIMESTAMP_TZ) as [_|Hneq];
    [|congruence].
  f_equal. lia.
Qed.

End AnyFloats.

(** C6 at an INT64 cell reported under the unknown native type number
    9999: the typed null, through the theorem. *)
Lemma ToDuckDBValue_null_and_unknown_witness :
  ~ In 9999%N (@recognized_native_types)
  /\ @ToDuckDBValue WholeFloats Libc.utc (int64_cell 5) 9999%N VARCHAR
     = Null VARCHAR.
Proof.
  assert (Hnot : ~ In 9999%N recognized_native_types).
  { cbn [In recognized_native_types].
    intros [H|[H|[H|[H|[H|[H|[H|[H|[H|[H|[]]]]]]]]]]]; discriminate H. }
  split; [exact Hnot|].
  exact (@ToDuckDBValue_null_and_unknown WholeFloats Libc.utc (int64_cell 5)
           9999%N VARCHAR (or_intror Hnot)).
Defined.

(** C5 at scenario S5, in a process that runs in UTC: the cell
    2024-01-01 00:00:00 +05:00 is stored as 2023-12-31T19:00:00Z. *)
Example S5_timestamp_in_utc :
  @ToDuckDBValue WholeFloats Libc.utc (timestamp_cell S5_timestamp)
    DPI_NATIVE_TYPE_TIMESTAMP TIMESTAMP_TZ
  = V_TIMESTAMPTZ S5_instant.
Proof. reflexivity. Qed.

(** C5 at scenario S5, in a process that runs nine hours east of UTC:
    [mktime] reads the cell's civil time as local time, so the same cell
    is stored as 2023-12-31T10:00:00Z, nine hours before the instant the
    specification names. *)
Theorem ToDuckDBValue_timestamp_depends_on_process_zone :
  @ToDuckDBValue WholeFloats tokyo (timestamp_cell S5_timestamp)
    DPI_NATIVE_TYPE_TIMESTAMP TIMESTAMP_TZ
  = V_TIMESTAMPTZ (S5_instant - 9 * 3600 * 1000000)%Z
  /\ @ToDuckDBValue WholeFloats tokyo (timestamp_cell S5_timestamp)
       DPI_NATIVE_TYPE_TIMESTAMP TIMESTAMP_TZ
     <> V_TIMESTAMPTZ S5_instant.
Proof.
  assert (Hcode :
    @ToDuckDBValue WholeFloats tokyo (timestamp_cell S5_timestamp)
      DPI_NATIVE_TYPE_TIMESTAMP TIMESTAMP_TZ
    = V_TIMESTAMPTZ (S5_instant - 9 * 3600 * 1000000)%Z) by reflexivity.
  split; [exact Hcode|].
  rewrite Hcode. intros Heq. injection Heq as Heq. lia.
Qed.

End TypeMappingFacts.

(* ===================================================================== *)
(** * The connection pool                                                 *)
(* ===================================================================== *)

Section PoolFacts.
Import Connection.

Lemma removelast_shorter {A : Type} (l : list A) :
  (List.length (removelast l) <= List.length l)%nat.
Proof.
  induction l as [|a [|b l] IH]; cbn [removelast List.length] in *; lia.
Qed.

Lemma last_removelast_snoc {A : Type} (l : list A) (c d : A) :
  last (l ++ [c]) d = c /\ removelast (l ++ [c]) = l.
Proof.
  split; [apply last_last | apply removelast_last].
Qed.

(** No call changes the capacity. *)
Lemma pool_step_keeps_capacity (p : OracleConnectionPool) (c : pool_call) :
  max_connections_ (pool_step p c) = max_connections_ p.
Proof.
  destruct c as [created | conn |]; cbn [pool_step].
  - unfold Acquire. destruct (pool_ p); reflexivity.
  - unfold Release.
    destruct (N.of_nat (List.length (pool_ p)) <? max_connections_ p)%N;
      reflexivity.
  - reflexivity.
Qed.

(** Every call keeps the free list within the capacity. *)
Lemma pool_step_within_cap (p : OracleConnectionPool) (c : pool_call) :
  within_cap p -> within_cap (pool_step p c).
Proof.
  unfold within_cap, idle_count. intros Hcap.
  destruct c as [created | conn |]; cbn [pool_step].
  - unfold Acquire. destruct (pool_ p) as [|c0 rest] eqn:Hpool.
    + cbn [snd]. now rewrite Hpool.
    + cbn [snd set_pool_ pool_ max_connections_].
      pose proof (removelast_shorter (c0 :: rest)). lia.
  - unfold Release.
    destruct (N.ltb_spec (N.of_nat (List.length (pool_ p)))
                (max_connections_ p)) as [Hlt | Hge].
    + cbn [set_pool_ pool_ max_connections_].
      rewrite length_app. cbn [List.length]. lia.
    + exact Hcap.
  - cbn [ClearCache set_pool_ pool_ max_connections_ List.length]. lia.
Qed.

(** So does every sequence of calls. *)
Lemma pool_run_within_cap (calls : list pool_call) :
  forall p : OracleConnectionPool,
    within_cap p -> within_cap (pool_run calls p).
Proof.
  unfold pool_run.
  induction calls as [|c calls IH]; intros p Hcap; [exact Hcap|].
  cbn [fold_left]. apply IH, pool_step_within_cap, Hcap.
Qed.

Lemma pool_run_keeps_capacity (calls : list pool_call) :
  forall p : OracleConnectionPool,
    max_connections_ (pool_run calls p) = max_connections_ p.
Proof.
  unfold pool_run.
  induction calls as [|c calls IH]; intros p; [reflexivity|].
  cbn [fold_left]. now rewrite IH, pool_step_keeps_capacity.
Qed.

(** C7. Whatever sequence of Acquire, Release and ClearCache calls is
    made on a pool constructed with capacity [max_connections] (8 when
    the argument is left out), the free list never holds more than
    [max_connections] idle connections.  Acquire hands out the idle
    connection at the back of the list and removes it when there is one,
    and opens a new connection otherwise, leaving the list empty; Release
    appends the connection when the list is under the capacity and
    otherwise leaves the list as it is; ClearCache empties the list. *)
Theorem pool_free_list_never_exceeds_cap :
  (forall (params : OracleConnectionParameters) (max_connections : N)
          (calls : list pool_call),
      (idle_count (pool_run calls (new_pool params max_connections))
       <= max_connections)%N)
  /\ default_max_connections = 8%N
  /\ (forall created p idle c,
        Acquire created (set_pool_ p (idle ++ [c]))
        = (inr c, set_pool_ p idle))
  /\ (forall created p,
        Acquire created (set_pool_ p [])
        = (Open created (pool_params_ p), set_pool_ p []))
  /\ (forall conn p,
        pool_ (Release conn p)
        = if (idle_count p <? max_connections_ p)%N
          then (pool_ p ++ [conn])%list else pool_ p)
  /\ (forall p, pool_ (ClearCache p) = []).
Proof.
  split; [|split; [reflexivity | split; [|split; [|split]]]].
  - intros params max_connections calls.
    pose proof (pool_run_within_cap calls (new_pool params max_connections))
      as Hrun.
    unfold within_cap in Hrun.
    rewrite pool_run_keeps_capacity in Hrun.
    apply Hrun. unfold idle_count. cbn [new_pool pool_ List.length]. lia.
  - intros created p idle c. unfold Acquire.
    cbn [set_pool_ pool_ pool_params_ max_connections_].
    destruct (idle ++ [c])%list as [|c0 rest] eqn:Hl.
    + destruct idle; discriminate Hl.
    + destruct (last_removelast_snoc idle c c0) as [Hlast Hremove].
      rewrite Hl in Hlast, Hremove.
      assert (Hback : last rest c0 = c).
      { destruct rest as [|r rest']; [|exact Hlast].
        cbn [last] in Hlast |- *. exact Hlast. }
      rewrite Hback, Hremove. reflexivity.
  - intros created p. reflexivity.
  - intros conn p. unfold Release, idle_count.
    destruct (N.of_nat (List.length (pool_ p)) <? max_connections_ p)%N;
      reflexivity.
  - intros p. reflexivity.
Qed.

End PoolFacts.

(* ===================================================================== *)
(** * The bind data and the filter pushdown                               *)
(* ===================================================================== *)

Section BindDataFacts.
Import Host TypeMapping BindData.

(** C10. [a.Equals(b)] holds exactly when the two bind data have equal
    schemas and equal tables: bind data that differ only in the pool, the
    columns, the types, the filters, the projected ids, the limit, the
    offset or the server's major version are reported equal. *)
Theorem Equals_iff_same_schema_and_table :
  (forall a b : OracleScanBindData,
      Equals a b = true <-> schema a = schema b /\ table a = table b)
  /\ (forall (a : OracleScanBindData) (pool' : PoolRef)
             (columns' : list OracleColumnInfo) (types' : list LogicalType)
             (filters' : list string) (column_ids' : list N)
             (limit' offset' : N) (version' : Z),
        Equals a
          {| pool := pool'; schema := schema a; table := table a;
             all_columns := columns'; all_types := types';
             filters := filters'; column_ids := column_ids';
             limit := limit'; offset := offset';
             oracle_major_version := version' |} = true).
Proof.
  assert (Hiff : forall a b : OracleScanBindData,
             Equals a b = true <-> schema a = schema b /\ table a = table b).
  { intros a b. unfold Equals.
    rewrite andb_true_iff, !String.eqb_eq. reflexivity. }
  split; [exact Hiff|].
  intros. apply Hiff. split; reflexivity.
Qed.

End BindDataFacts.

Section PushdownFacts.
Import BindData FilterPushdown PushdownSpec Text.
Context `{FloatModel}.

Lemma with_filters_same (b : OracleScanBindData) :
  with_filters b (filters b) = b.
Proof. destruct b; reflexivity. Qed.

Lemma push_filter_with_filters (b : OracleScanBindData)
    (fs : list string) (sql : string) :
  push_filter (with_filters b fs) sql = with_filters b (fs ++ [sql])%list.
Proof. reflexivity. Qed.

(** The loop of [PushdownFilters], from any fragments already pushed and
    any filters already kept. *)
Lemma pushdown_loop (names : list string) (fs : list Expression) :
  forall (b : OracleScanBindData) (sqls : list string)
         (remaining : list Expression),
    fold_left (pushdown_step names) fs (with_filters b sqls, remaining)
    = (with_filters b
         (sqls ++ map (rendering names) (pushed_filters names fs))%list,
       (remaining ++ residual_filters names fs)%list).
Proof.
  unfold pushed_filters, residual_filters.
  induction fs as [|f fs IH]; intros b sqls remaining.
  - cbn [fold_left filter map]. now rewrite !app_nil_r.
  - cbn [fold_left filter]. unfold pushdown_step at 2.
    fold (rendering names f). fold (pushable names f).
    destruct (pushable names f) eqn:Hp; cbn [negb].
    + rewrite push_filter_with_filters, IH. cbn [map].
      now rewrite <- app_assoc.
    + rewrite IH. now rewrite <- app_assoc.
Qed.

(** Splitting a list by a test loses and repeats nothing. *)
Lemma filter_split_permutation {A : Type} (test : A -> bool) (l : list A) :
  Permutation l (filter test l ++ filter (fun x => negb (test x)) l).
Proof.
  induction l as [|x l IH]; [constructor|].
  cbn [filter]. destruct (test x); cbn [negb app].
  - now constructor.
  - now apply Permutation_cons_app.
Qed.

(** C4. [PushdownFilters] partitions its filter list.  The filters with
    a non-empty rendering are appended to [bind_data.filters] as their
    rendered text, in input order, and leave the list; the filters with
    an empty rendering stay in the list, in their order; nothing else of
    the bind data changes.  The pushed and the remaining filters together
    are the input filters, each once, every pushed filter renders to a
    non-empty text and every remaining one to the empty text. *)
Theorem PushdownFilters_partitions (b : OracleScanBindData)
    (names : list string) (fs : list Expression) :
  PushdownFilters b names fs
  = (with_filters b
       (filters b ++ map (rendering names) (pushed_filters names fs))%list,
     residual_filters names fs)
  /\ Permutation fs (pushed_filters names fs ++ residual_filters names fs)
  /\ Forall (fun f => ExpressionToSQL f names <> "")
       (pushed_filters names fs)
  /\ Forall (fun f => ExpressionToSQL f names = "")
       (residual_filters names fs).
Proof.
  split; [|split; [|split]].
  - unfold PushdownFilters.
    rewrite <- (with_filters_same b) at 1.
    rewrite pushdown_loop. reflexivity.
  - apply filter_split_permutation.
  - apply Forall_forall. intros f Hin.
    apply filter_In in Hin. destruct Hin as [_ Hp].
    unfold pushable, rendering in Hp. intros Hempty.
    rewrite Hempty in Hp. discriminate Hp.
  - apply Forall_forall. intros f Hin.
    apply filter_In in Hin. destruct Hin as [_ Hp].
    unfold pushable, rendering in Hp.
    apply empty_true_iff. now destruct (empty (ExpressionToSQL f names)).
Qed.

End PushdownFacts.

Section PushdownScenarios.
Import BindData FilterPushdown PushdownSpec SelectSpec Inputs.

(** Scenario S2: an equality and a LIKE both push, nothing stays with
    the host, and the statement carries both in its WHERE clause. *)
Example S2_both_filters_pushed :
  let '(b, residual) :=
    @OracleScan.ComplexFilter WholeFloats plain_scan
      [emp_id_is_42; name_like_A] in
  residual = []
  /\ BuildSelectQuery b = spec_inner_query plain_scan ++ S2_where.
Proof. vm_compute. split; reflexivity. Qed.

(** Scenario S3: a comparison on [lower(NAME)] is not pushable; it stays
    with the host and the WHERE clause holds the first filter only. *)
Example S3_partial_pushdown :
  let '(b, residual) :=
    @OracleScan.ComplexFilter WholeFloats plain_scan
      [emp_id_is_42; lower_name_is_x] in
  residual = [lower_name_is_x]
  /\ BuildSelectQuery b = spec_inner_query plain_scan ++ S3_where.
Proof. vm_compute. split; reflexivity. Qed.

End PushdownScenarios.

(* ===================================================================== *)
(** * The executor and the scan                                           *)
(* ===================================================================== *)

Section ExecutorFacts.
Import Host Dpi TypeMapping Connection BindData OracleScan Inputs.

(** C3 on a result of exactly one full chunk and a callback that answers
    [false]: [ExecuteQuery] leaves the loop with [row_count] still at the
    chunk size, so the flush after the loop hands the callback the chunk
    a second time.  Two deliveries are made, the first already answered
    [false]. *)
Theorem ExecuteQuery_delivers_again_after_false :
  let log :=
    @deliveries WholeFloats unit Libc.utc (server_of_rows 2048) "q"
      [BIGINT] 10000 stop_callback tt in
  map snd log = [false; false]
  /\ map (fun d => count (fst d)) log = [2048%N; 2048%N]
  /\ stops_after_false (map snd log) = false.
Proof.
  cbv zeta.
  assert (Hanswers :
    map snd
      (@deliveries WholeFloats unit Libc.utc (server_of_rows 2048) "q"
         [BIGINT] 10000 stop_callback tt) = [false; false])
    by (vm_compute; reflexivity).
  split; [exact Hanswers|]. split.
  - vm_compute. reflexivity.
  - rewrite Hanswers. reflexivity.
Qed.

(** With fewer rows than a chunk holds there is one delivery, the flush,
    and the contract is kept. *)
Example ExecuteQuery_partial_chunk :
  map snd
    (@deliveries WholeFloats unit Libc.utc (server_of_rows 5) "q"
       [BIGINT] 10000 stop_callback tt) = [false].
Proof. vm_compute. reflexivity. Qed.

(** C8 on a pool with one idle connection: a [Scan] call takes that
    connection out of the pool (and never puts it back), and the fetch
    size it passes on is the one of the connection just taken. *)
Theorem Scan_acquires_from_pool :
  pool_ (pools_with_one_idle (pool plain_scan)) = [idle_connection_500]
  /\ pool_ (snd scan_once (pool plain_scan)) = []
  /\ match fst scan_once with
     | inr outcome => fetch_size_passed outcome
     | inl _ => None
     end = Some 500%N.
Proof.
  split; [reflexivity|]. split; vm_compute; reflexivity.
Qed.

(** What the second delivery does to [Scan]: on a result of a full chunk
    the lambda first moves the 2048 rows into [output], then, called
    again by the flush, moves the chunk it had left destroyed; [output]
    ends with a cardinality of 2048 and no cell. *)
Example Scan_full_chunk_is_lost :
  match fst (scan_rows 2048) with
  | inr outcome =>
      count (output outcome) = 2048%N /\ cells (output outcome) = []
  | inl _ => False
  end.
Proof. vm_compute. split; reflexivity. Qed.

(** With fewer rows the one delivery is the flush and [output] holds
    them. *)
Example Scan_partial_chunk_is_kept :
  match fst (scan_rows 3) with
  | inr outcome =>
      count (output outcome) = 3%N
      /\ List.length (cells (output outcome)) = 3%nat
  | inl _ => False
  end.
Proof. vm_compute. split; reflexivity. Qed.

Section AnyFloats.
Context `{FloatModel}.

(** A [false] answer followed by one more answer breaks the contract. *)
Lemma false_then_more (answers : list bool) (b : bool) :
  In false answers -> stops_after_false (answers ++ [b]) = false.
Proof.
  induction answers as [|a answers IH]; intros Hin; [destruct Hin|].
  destruct a; cbn [app stops_after_false].
  - apply IH. destruct Hin as [Heq | Hin]; [discriminate Heq | exact Hin].
  - destruct answers; reflexivity.
Qed.

(** The fetch loop only adds to the log, and once the callback has
    answered [false] the loop is left with [row_count] at the chunk
    size. *)
Lemma fetch_loop_log {S : Type} (zone : Libc.timezone)
    (types : list LogicalType) (num_cols : N) (callback : Callback S)
    (rows : list Row) :
  forall (chunk : DataChunk) (row_count : N) (s : S) (log : list Delivery),
  exists new : list Delivery,
    snd (snd (fetch_loop zone types num_cols (recording callback)
                rows chunk row_count (s, log))) = (log ++ new)%list
    /\ (In false (map snd new) ->
        snd (fst (fetch_loop zone types num_cols (recording callback)
                    rows chunk row_count (s, log))) = CHUNK_SIZE).
Proof.
  induction rows as [|r rows IH]; intros chunk row_count s log.
  - exists []. cbn [fetch_loop fst snd map]. split.
    + now rewrite app_nil_r.
    + intros [].
  - cbn [fetch_loop].
    destruct (N.eqb_spec (row_count + 1) CHUNK_SIZE) as [Hfull | Hpart].
    + unfold recording at 1 3.
      destruct (callback s
                  (SetCardinality
                     (fill_row zone r num_cols row_count types 0%N chunk)
                     (row_count + 1)%N)) as [[go_on s'] chunk'] eqn:Hcb.
      destruct go_on; cbn [negb].
      * destruct (IH (Reset chunk') 0%N s'
                    (log ++ [(SetCardinality
                                (fill_row zone r num_cols row_count types
                                   0%N chunk) (row_count + 1)%N, true)])%list)
          as (new & Hlog & Hfalse).
        eexists (_ :: new). split.
        -- rewrite Hlog. now rewrite <- app_assoc.
        -- cbn [map snd In]. intros [Heq | Hin]; [discriminate Heq|].
           now apply Hfalse.
      * eexists [_]. cbn [fst snd]. split; [reflexivity|].
        intros _. exact Hfull.
    + apply IH.
Qed.

(** Whenever the callback answers [false] inside the fetch loop, the
    flush delivers once more in the same call. *)
Lemma false_answer_is_followed_by_a_delivery {S : Type}
    (zone : Libc.timezone) (server : Server) (sql : string)
    (types : list LogicalType) (fetch_size : N) (callback : Callback S)
    (s0 : S) :
  In false (map snd (loop_deliveries zone server sql types callback s0)) ->
  stops_after_false
    (map snd (deliveries zone server sql types fetch_size callback s0))
  = false.
Proof.
  unfold loop_deliveries, deliveries, ExecuteQuery, ThrowIfError.
  destruct (prepared (server sql)) as [u | m]; [|intros []].
  destruct (executed (server sql)) as [num_cols | m]; [|intros []].
  destruct (fetch_loop_log zone types num_cols callback
              (fetched (server sql)) (Initialize types) 0%N s0 [])
    as (new & Hlog & Hfalse).
  destruct (fetch_loop zone types num_cols (recording callback)
              (fetched (server sql)) (Initialize types) 0%N (s0, []))
    as [[chunk row_count] [s log]] eqn:Hloop.
  cbn [fst snd] in Hlog, Hfalse |- *. cbn [app] in Hlog. subst log.
  intros Hin. rewrite (Hfalse Hin).
  change (0 <? CHUNK_SIZE)%N with true. cbv iota.
  unfold recording.
  destruct (callback s (SetCardinality chunk CHUNK_SIZE))
    as [[go_on s'] chunk'].
  rewrite map_app. cbn [map snd]. now apply false_then_more.
Qed.

End AnyFloats.

Section AnyFloats.
Context `{FloatModel}.

(** A [Scan] call that is not done changes the pools exactly as
    [InitLocal] does: by one [Acquire]. *)
Lemma Scan_pools_as_InitLocal (zone : Libc.timezone) (server : Server)
    (created : dpi_answer nat) (bind_data : OracleScanBindData)
    (local : OracleScanLocalState) (pools : Pools) (output0 : DataChunk) :
  done local = false ->
  snd (Scan zone server created bind_data local pools output0)
  = snd (InitLocal created bind_data pools).
Proof.
  intros Hdone. unfold Scan, InitLocal. rewrite Hdone.
  destruct (Acquire created (pools (pool bind_data))) as [acquired p].
  destruct acquired as [e | temporary]; [reflexivity|].
  destruct (ExecuteQuery zone server (BuildSelectQuery bind_data)
              (projected_types_of bind_data)
              (idx_of_int (fetch_size (GetParams temporary)))
              scan_callback (output0, false)) as [e | [output1 got]];
    reflexivity.
Qed.

(** A [Scan] call that is done touches nothing. *)
Lemma Scan_done_is_idle (zone : Libc.timezone) (server : Server)
    (created : dpi_answer nat) (bind_data : OracleScanBindData)
    (local : OracleScanLocalState) (pools : Pools) (output0 : DataChunk) :
  done local = true ->
  snd (Scan zone server created bind_data local pools output0) = pools.
Proof. intros Hdone. unfold Scan. now rewrite Hdone. Qed.

End AnyFloats.

End ExecutorFacts.

(* ===================================================================== *)
(** * The metadata reader                                                 *)
(* ===================================================================== *)

Section MetadataFacts.
Import Dpi TypeMapping Connection MetadataSpec Inputs.

(** C9 as stated fails on the statement text: for schema [hr] and table
    [employees] the text [GetColumns] prepares has no [:schema] and no
    [:table] bind variable; the upper-cased names stand in it as string
    literals. *)
Lemma GetColumns_sql_has_no_bind_variables :
  uses_bind_variables (GetColumns_sql "hr" "employees") = false
  /\ mentions "OWNER = 'HR'" (GetColumns_sql "hr" "employees") = true
  /\ mentions "TABLE_NAME = 'EMPLOYEES'" (GetColumns_sql "hr" "employees")
     = true.
Proof. repeat split; vm_compute; reflexivity. Qed.

(** Upper-casing leaves no lower-case letter and is idempotent. *)
Lemma toupper_idempotent (c : ascii) :
  OracleUtils.toupper (OracleUtils.toupper c) = OracleUtils.toupper c.
Proof.
  destruct c as [[] [] [] [] [] [] [] []]; reflexivity.
Qed.

Lemma ToUpper_idempotent (s : string) :
  OracleUtils.ToUpper (OracleUtils.ToUpper s) = OracleUtils.ToUpper s.
Proof.
  induction s as [|c s IH]; [reflexivity|].
  cbn [OracleUtils.ToUpper]. now rewrite toupper_idempotent, IH.
Qed.

Section AnyFloats.
Context `{FloatModel}.

(** One fetched row becomes the column the specification describes. *)
Lemma column_of_row_spec (r : Row) :
  column_of_row r = spec_column (dictionary_row r).
Proof.
  unfold column_of_row, spec_column, dictionary_row, number_cell.
  cbn [COLUMN_NAME DATA_TYPE DATA_PRECISION DATA_SCALE CHAR_LENGTH NULLABLE].
  destruct (isNull (snd (r 3%N))), (isNull (snd (r 4%N))),
    (isNull (snd (r 5%N))); reflexivity.
Qed.

(** The fetch loop collects the columns in fetch order. *)
Lemma fetch_columns_loop (rows : list Row) :
  forall columns : list OracleColumnInfo,
    fold_left (fun columns r => (columns ++ [column_of_row r])%list)
      rows columns
    = (columns ++ map (fun r => spec_column (dictionary_row r)) rows)%list.
Proof.
  induction rows as [|r rows IH]; intros columns.
  - cbn [fold_left map]. now rewrite app_nil_r.
  - cbn [fold_left map]. rewrite IH, column_of_row_spec.
    now rewrite <- app_assoc.
Qed.

(** C9, amended.  For every schema and table, [GetColumns] prepares the
    dictionary query on ALL_TAB_COLUMNS for COLUMN_NAME, DATA_TYPE,
    DATA_PRECISION, DATA_SCALE, CHAR_LENGTH and NULLABLE, ordered by
    COLUMN_ID, with the upper-cased schema and table written into the
    text as string literals; when the statement prepares and executes it
    maps every fetched row, in order, to a column with a missing
    precision as 0, a missing scale as -127 and nullable exactly when
    NULLABLE is Y; an empty result gives the empty list and no error. *)
Theorem GetColumns_reads_dictionary (server : Server)
    (schema table : string) :
  GetColumns_sql schema table
  = "SELECT COLUMN_NAME, DATA_TYPE, DATA_PRECISION, DATA_SCALE, "
    ++ "       CHAR_LENGTH, NULLABLE FROM ALL_TAB_COLUMNS WHERE OWNER = '"
    ++ OracleUtils.ToUpper schema
    ++ "'   AND TABLE_NAME = '"
    ++ OracleUtils.ToUpper table
    ++ "' ORDER BY COLUMN_ID"
  /\ GetColumns server schema table
     = spec_list_columns (server (GetColumns_sql schema table))
  /\ (forall n : N,
        GetColumns
          (fun _ => {| prepared := DPI_SUCCESS tt;
                       executed := DPI_SUCCESS n; fetched := [] |})
          schema table = inr []).
Proof.
  split; [|split].
  - unfold GetColumns_sql. cbn [String.append].
    repeat (rewrite ?string_app_assoc; cbn [String.append]).
    reflexivity.
  - unfold GetColumns, spec_list_columns, ThrowIfError.
    destruct (prepared (server (GetColumns_sql schema table)));
      [|reflexivity].
    destruct (executed (server (GetColumns_sql schema table)));
      [|reflexivity].
    now rewrite fetch_columns_loop.
  - intros n. reflexivity.
Qed.

End AnyFloats.

End MetadataFacts.

(* ===================================================================== *)
(** * The executor: how rows are cut into chunks                          *)
(* ===================================================================== *)

Section ChunkingFacts.
Import Host Dpi TypeMapping Connection ExecutorSpec.
Context `{FloatModel}.




End ChunkingFacts.

Section ChunkBounds.
Import Host Dpi TypeMapping Connection ExecutorSpec Inputs MoreInputs.


Section AnyFloats.
Context `{FloatModel}.

(** Whatever the callback answers, the loop entered below the chunk size
    delivers full chunks only and leaves at most a full chunk behind. *)
Lemma fetch_loop_delivers_full_chunks {St : Type} (zone : Libc.timezone)
    (types : list LogicalType) (num_cols : N) (callback : Callback St)
    (rows : list Row) :
  forall (chunk : DataChunk) (row_count : N) (s : St) (log : list Delivery),
    (row_count < CHUNK_SIZE)%N ->
    let r := fetch_loop zone types num_cols (recording callback)
               rows chunk row_count (s, log) in
    (snd (fst r) <= CHUNK_SIZE)%N
    /\ exists new : list Delivery,
         snd (snd r) = (log ++ new)%list
         /\ Forall (fun d => count (fst d) = CHUNK_SIZE) new.
Proof.
  induction rows as [|r rows IH]; intros chunk row_count s log Hlt; cbv zeta.
  - cbn [fetch_loop fst snd]. split; [lia|].
    exists []. split; [now rewrite app_nil_r | constructor].
  - cbn [fetch_loop].
    destruct (N.eqb_spec (row_count + 1) CHUNK_SIZE) as [Hfull | Hpart].
    + unfold recording at 1 3.
      destruct (callback s
                  (SetCardinality
                     (fill_row zone r num_cols row_count types 0%N chunk)
                     (row_count + 1)%N)) as [[go_on s'] chunk'] eqn:Hcb.
      destruct go_on; cbn [negb].
      * assert (Hzero : (0 < CHUNK_SIZE)%N) by lia.
        destruct (IH (Reset chunk') 0%N s'
                    (log ++ [(SetCardinality
                                (fill_row zone r num_cols row_count types
                                   0%N chunk) (row_count + 1)%N, true)])%list
                    Hzero) as (Hrc & new & Hlog & Hall).
        cbv zeta in Hrc, Hlog. split; [exact Hrc|].
        eexists (_ :: new). split.
        -- rewrite Hlog. now rewrite <- app_assoc.
        -- constructor; [exact Hfull | exact Hall].
      * cbn [fst snd]. split; [lia|].
        eexists [_]. split; [reflexivity|].
        constructor; [exact Hfull | constructor].
    + assert (Hlt' : (row_count + 1 < CHUNK_SIZE)%N) by lia.
      apply (IH _ _ s log Hlt').
Qed.

(** X2. Whatever the callback answers, every chunk [ExecuteQuery] hands
    to it holds at least one row and at most [STANDARD_VECTOR_SIZE]
    rows: an empty chunk is never delivered. *)
Theorem ExecuteQuery_never_delivers_empty_chunk {St : Type}
    (zone : Libc.timezone) (server : Server) (sql : string)
    (types : list LogicalType) (fetch_size : N) (callback : Callback St)
    (s0 : St) :
  Forall (fun c => (1 <= c <= STANDARD_VECTOR_SIZE)%N)
    (delivered_counts
       (deliveries zone server sql types fetch_size callback s0)).
Proof.
  unfold deliveries, ExecuteQuery, ThrowIfError.
  destruct (prepared (server sql)) as [u | m]; [|constructor].
  destruct (executed (server sql)) as [num_cols | m]; [|constructor].
  assert (Hzero : (0 < CHUNK_SIZE)%N) by (unfold CHUNK_SIZE; reflexivity).
  destruct (fetch_loop_delivers_full_chunks zone types num_cols callback
              (fetched (server sql)) (Initialize types) 0%N s0 [] Hzero)
    as (Hrc & new & Hlog & Hall).
  cbv zeta in Hrc, Hlog.
  destruct (fetch_loop zone types num_cols (recording callback)
              (fetched (server sql)) (Initialize types) 0%N (s0, []))
    as [[chunk row_count] [s log]].
  cbn [fst snd app] in Hrc, Hlog. subst log.
  assert (Hnew : Forall (fun c => (1 <= c <= STANDARD_VECTOR_SIZE)%N)
                   (delivered_counts new)).
  { unfold delivered_counts. apply Forall_map.
    eapply Forall_impl; [|exact Hall].
    intros d Hd. cbv beta in Hd. rewrite Hd. unfold CHUNK_SIZE.
    unfold STANDARD_VECTOR_SIZE. lia. }
  destruct (N.ltb_spec 0 row_count) as [Hpos | Hnone]; [|exact Hnew].
  unfold recording.
  destruct (callback s (SetCardinality chunk row_count))
    as [[go_on s'] chunk'].
  unfold delivered_counts. rewrite map_app. apply Forall_app.
  split; [exact Hnew|].
  cbn [map fst count SetCardinality]. constructor; [|constructor].
  unfold CHUNK_SIZE in Hrc. lia.
Qed.

End AnyFloats.

End ChunkBounds.

(* ===================================================================== *)
(** * The pool as its callers see it                                      *)
(* ===================================================================== *)

Section PoolUseFacts.
Import Connection PoolUse Inputs.

Lemma set_pool_same (p : OracleConnectionPool) : set_pool_ p (pool_ p) = p.
Proof. destruct p; reflexivity. Qed.

Lemma set_pool_twice (p : OracleConnectionPool)
    (l1 l2 : list OracleConnection) :
  set_pool_ (set_pool_ p l1) l2 = set_pool_ p l2.
Proof. reflexivity. Qed.

(** [Acquire] on a pool whose free list ends in [c]. *)
Lemma Acquire_back (created : dpi_answer nat) (p : OracleConnectionPool)
    (idle : list OracleConnection) (c : OracleConnection) :
  pool_ p = (idle ++ [c])%list ->
  Acquire created p = (inr c, set_pool_ p idle).
Proof.
  intros Hpool. unfold Acquire. rewrite Hpool.
  destruct (idle ++ [c])%list as [|c0 rest] eqn:Hl.
  - destruct idle; discriminate Hl.
  - destruct (last_removelast_snoc idle c c0) as [Hlast Hremove].
    rewrite Hl in Hlast, Hremove.
    assert (Hback : last rest c0 = c).
    { destruct rest as [|r rest']; [|exact Hlast].
      cbn [last] in Hlast |- *. exact Hlast. }
    now rewrite Hback, Hremove.
Qed.

(** X3. The free list is a stack: a connection released into a pool
    that has room is the one the next [Acquire] returns, and the pool is
    then as it was before the release; a connection released into a full
    pool is dropped, and the next [Acquire] behaves as if the release had
    not happened. *)
Theorem Acquire_after_Release (created : dpi_answer nat)
    (conn : OracleConnection) (p : OracleConnectionPool) :
  Acquire created (Release conn p)
  = if (idle_count p <? max_connections_ p)%N
    then (inr conn, p)
    else Acquire created p.
Proof.
  unfold Release, idle_count.
  destruct (N.of_nat (List.length (pool_ p)) <? max_connections_ p)%N;
    [|reflexivity].
  rewrite (Acquire_back created (set_pool_ p (pool_ p ++ [conn]))
             (pool_ p) conn eq_refl).
  now rewrite set_pool_twice, set_pool_same.
Qed.

(** Borrowing from a pool with an idle connection and room for it leaves
    the pool as it was, and opens nothing. *)
Lemma borrow_reuses (created : dpi_answer nat) (p : OracleConnectionPool)
    (idle : list OracleConnection) (c : OracleConnection) :
  pool_ p = (idle ++ [c])%list ->
  (N.of_nat (List.length idle) < max_connections_ p)%N ->
  borrow created p = p.
Proof.
  intros Hpool Hroom. unfold borrow.
  rewrite (Acquire_back created p idle c Hpool).
  unfold Release. cbn [set_pool_ pool_ max_connections_].
  apply N.ltb_lt in Hroom. rewrite Hroom.
  destruct p as [params cap idle0]. cbn [pool_ pool_params_ max_connections_]
    in *. now subst idle0.
Qed.

Lemma borrow_all_reuses (answers : list (dpi_answer nat))
    (p : OracleConnectionPool) (c : OracleConnection) :
  pool_ p = [c] -> (0 < max_connections_ p)%N -> borrow_all answers p = p.
Proof.
  intros Hpool Hroom. unfold borrow_all.
  induction answers as [|a answers IH]; [reflexivity|].
  cbn [fold_left].
  rewrite (borrow_reuses a p [] c Hpool Hroom). exact IH.
Qed.

(** X4. Callers that borrow one after the other share one connection:
    starting from the empty pool of a capacity of at least one, the
    first borrow opens a connection and every later borrow reuses it,
    whatever the driver would answer to another open; the pool ends
    holding exactly that connection. *)
Theorem borrowers_share_one_connection
    (params : OracleConnectionParameters) (max_connections : N)
    (h : nat) (answers : list (dpi_answer nat)) :
  (1 <= max_connections)%N ->
  pool_ (borrow_all (DPI_SUCCESS h :: answers)
           (new_pool params max_connections))
  = [{| conn_ := h; params_ := params |}].
Proof.
  intros Hcap. unfold borrow_all. cbn [fold_left].
  assert (Hfirst :
    borrow (DPI_SUCCESS h) (new_pool params max_connections)
    = set_pool_ (new_pool params max_connections)
        [{| conn_ := h; params_ := params |}]).
  { unfold borrow, Acquire, Open, Release.
    cbn [new_pool pool_ pool_params_ max_connections_ List.length].
    assert (Hlt : (N.of_nat 0 <? max_connections)%N = true)
      by (apply N.ltb_lt; lia).
    now rewrite Hlt. }
  rewrite Hfirst.
  fold (borrow_all answers
          (set_pool_ (new_pool params max_connections)
             [{| conn_ := h; params_ := params |}])).
  rewrite (borrow_all_reuses answers _ {| conn_ := h; params_ := params |});
    [reflexivity | reflexivity |].
  cbn [set_pool_ new_pool max_connections_]. lia.
Qed.

(** X4 on the catalog's pool of capacity 8 and three borrowers, the
    driver refusing any further connection. *)
Lemma borrowers_share_one_connection_witness :
  (1 <= default_max_connections)%N
  /\ pool_ (borrow_all
              [DPI_SUCCESS 7%nat; DPI_FAILURE "ORA-12541"; DPI_FAILURE "ORA-12541"]
              (new_pool some_params default_max_connections))
     = [{| conn_ := 7%nat; params_ := some_params |}].
Proof.
  assert (Hcap : (1 <= default_max_connections)%N)
    by (unfold default_max_connections; lia).
  split; [exact Hcap|].
  exact (borrowers_share_one_connection some_params default_max_connections
           7%nat [DPI_FAILURE "ORA-12541"; DPI_FAILURE "ORA-12541"] Hcap).
Defined.

End PoolUseFacts.

(* ===================================================================== *)
(** * The expression rewriter                                             *)
(* ===================================================================== *)

Section RewriterFacts.
Import Host TypeMapping BindData FilterPushdown PushdownSpec RewriterSpec Text.

(** X7. A VARCHAR constant is rendered as a single-quoted literal in
    which every quote of the text is doubled: reading the literal's body
    back, two quotes for one, gives the text again, whatever characters
    it holds. *)
Theorem varchar_literal_reads_back `{FloatModel} (s : string) :
  exists body : string,
    ConstantToSQL (V_VARCHAR s) = "'" ++ body ++ "'"
    /\ unescape_quotes body = Some s.
Proof.
  exists (escape_quotes s). split; [reflexivity|].
  induction s as [|c s IH]; [reflexivity|].
  cbn [escape_quotes].
  destruct (Ascii.eqb c "'"%char) eqn:Hc.
  - apply Ascii.eqb_eq in Hc. subst c.
    cbn [unescape_quotes Ascii.eqb Bool.eqb]. cbv iota.
    now rewrite IH.
  - cbn [unescape_quotes]. rewrite Hc. now rewrite IH.
Qed.

Section AnyFloats.
Context `{FloatModel}.

(** The loop of [ConjunctionToSQL] that collects the parts. *)
Lemma collect_parts (names : list string) (cs : list Expression) :
  forall parts : list string,
    (fix collect (cs : list Expression) (parts : list string)
       : option (list string) :=
       match cs with
       | [] => Some parts
       | child :: cs' =>
           let part := ExpressionToSQL child names in
           if empty part then None
           else collect cs' (parts ++ [part])%list
       end) cs parts
    = if forallb (pushable names) cs
      then Some (parts ++ map (rendering names) cs)%list
      else None.
Proof.
  induction cs as [|c cs IH]; intros parts.
  - cbn [forallb map]. now rewrite app_nil_r.
  - cbn [forallb map]. unfold pushable at 1, rendering at 1. cbv zeta.
    destruct (empty (ExpressionToSQL c names)); cbn [negb andb];
      [reflexivity|].
    rewrite IH. unfold rendering at 3.
    destruct (forallb (pushable names) cs); [|reflexivity].
    now rewrite <- app_assoc.
Qed.

(** X5. A conjunction is pushed whole or not at all: for AND and OR its
    rendering is empty as soon as one child's rendering is empty, and
    otherwise it is the children's renderings, in order, joined by the
    operator inside one pair of parentheses; any other conjunction type
    renders empty. *)
Theorem conjunction_is_all_or_nothing (type : ExpressionType)
    (children : list Expression) (names : list string) :
  ExpressionToSQL (BoundConjunction type children) names
  = match conjunction_op type with
    | None => ""
    | Some op =>
        if forallb (pushable names) children
        then "(" ++ String.concat op (map (rendering names) children) ++ ")"
        else ""
    end.
Proof.
  cbn [ExpressionToSQL].
  destruct (conjunction_op type) as [op|]; [|reflexivity].
  rewrite collect_parts.
  destruct (forallb (pushable names) children); [|reflexivity].
  cbn [app]. rewrite append_joined_concat.
  now rewrite string_app_assoc.
Qed.


End AnyFloats.

End RewriterFacts.

Section RewriterTrees.
Import Host TypeMapping BindData FilterPushdown PushdownSpec RewriterSpec Text
  Inputs.


Section AnyFloats.
Context `{FloatModel}.

Lemma pushable_nonempty (names : list string) (e : Expression) :
  pushable names e = true <-> ExpressionToSQL e names <> "".
Proof.
  unfold pushable, rendering.
  destruct (ExpressionToSQL e names); cbn [empty negb]; split;
    congruence.
Qed.

(** A pushable node has pushable children. *)
Lemma pushable_children (names : list string) (e : Expression) :
  pushable names e = true ->
  forallb (pushable names) (rendered_children e) = true.
Proof.
  destruct e as [type l r | type children | fn children | v | i | k];
    cbn [rendered_children forallb]; try reflexivity.
  - unfold pushable at 1, rendering. cbn [ExpressionToSQL].
    unfold pushable, rendering.
    destruct (empty (ExpressionToSQL l names)); cbn [orb negb andb];
      [intros Hp; discriminate Hp|].
    destruct (empty (ExpressionToSQL r names)); cbn [orb negb andb];
      [intros Hp; discriminate Hp | reflexivity].
  - unfold pushable at 1, rendering.
    rewrite conjunction_is_all_or_nothing.
    destruct (conjunction_op type) as [op|];
      [|intros Hp; discriminate Hp].
    destruct (forallb (pushable names) children);
      [reflexivity | intros Hp; discriminate Hp].
  - unfold pushable at 1, rendering. cbn [ExpressionToSQL].
    destruct ((fn =? "isnull") && (List.length children =? 1)%nat) eqn:H1.
    { apply andb_true_iff in H1. destruct H1 as [_ Hlen].
      destruct children as [|c0 [|c1 cs]]; try discriminate Hlen.
      cbn [forallb]. unfold pushable, rendering.
      destruct (empty (ExpressionToSQL c0 names)); cbn [negb andb];
        [intros Hp; discriminate Hp | reflexivity]. }
    destruct ((fn =? "isnotnull") && (List.length children =? 1)%nat)
      eqn:H2.
    { apply andb_true_iff in H2. destruct H2 as [_ Hlen].
      destruct children as [|c0 [|c1 cs]]; try discriminate Hlen.
      cbn [forallb]. unfold pushable, rendering.
      destruct (empty (ExpressionToSQL c0 names)); cbn [negb andb];
        [intros Hp; discriminate Hp | reflexivity]. }
    destruct ((fn =? "~~") && (List.length children =? 2)%nat) eqn:H3;
      [|intros Hp; discriminate Hp].
    apply andb_true_iff in H3. destruct H3 as [_ Hlen].
    destruct children as [|c0 [|c1 [|c2 cs]]]; try discriminate Hlen.
    cbn [forallb]. unfold pushable, rendering.
    destruct (empty (ExpressionToSQL c0 names)); cbn [orb negb andb];
      [intros Hp; discriminate Hp|].
    destruct (empty (ExpressionToSQL c1 names)); cbn [orb negb andb];
      [intros Hp; discriminate Hp | reflexivity].
Qed.

(** X8. A filter is pushed only when everything below it renders: if
    the rendering of an expression is non-empty then so is the rendering
    of each of its sub-expressions, at any depth.  No part of a pushed
    filter is left out of the SQL. *)
Theorem pushed_filter_renders_every_part (names : list string) :
  forall e : Expression,
    ExpressionToSQL e names <> "" ->
    Forall (fun sub => ExpressionToSQL sub names <> "") (subexpressions e).
Proof.
  fix IH 1. intros e Hne.
  pose proof (proj2 (pushable_nonempty names e) Hne) as Hp.
  pose proof (pushable_children names e Hp) as Hchildren.
  destruct e as [type l r | type children | fn children | v | i | k];
    cbn [subexpressions]; constructor; try exact Hne; try constructor.
  - cbn [rendered_children forallb] in Hchildren.
    apply andb_true_iff in Hchildren. destruct Hchildren as [Hl Hr].
    apply andb_true_iff in Hr. destruct Hr as [Hr _].
    apply Forall_app. split; apply IH; now apply pushable_nonempty.
  - cbn [rendered_children] in Hchildren. clear Hne Hp.
    induction children as [|c cs IHcs]; [constructor|].
    cbn [forallb] in Hchildren. apply andb_true_iff in Hchildren.
    destruct Hchildren as [Hc Hcs].
    apply Forall_app. split.
    + apply IH. now apply pushable_nonempty.
    + now apply IHcs.
  - cbn [rendered_children] in Hchildren. clear Hne Hp.
    induction children as [|c cs IHcs]; [constructor|].
    cbn [forallb] in Hchildren. apply andb_true_iff in Hchildren.
    destruct Hchildren as [Hc Hcs].
    apply Forall_app. split.
    + apply IH. now apply pushable_nonempty.
    + now apply IHcs.
Qed.

End AnyFloats.

(** X8 on the LIKE filter of scenario S2. *)
Lemma pushed_filter_renders_every_part_witness :
  ExpressionToSQL name_like_A ["EMP_ID"; "NAME"] <> ""
  /\ Forall (fun sub => ExpressionToSQL sub ["EMP_ID"; "NAME"] <> "")
       (subexpressions name_like_A).
Proof.
  assert (Hne : ExpressionToSQL name_like_A ["EMP_ID"; "NAME"] <> "")
    by (intros Heq; discriminate Heq).
  split; [exact Hne|].
  exact (@pushed_filter_renders_every_part WholeFloats ["EMP_ID"; "NAME"]
           name_like_A Hne).
Defined.

End RewriterTrees.

(* ===================================================================== *)
(** * The scan: binding, projection and completion                        *)
(* ===================================================================== *)

Section ScanFacts.
Import Host Dpi TypeMapping Connection BindData OracleScan SelectSpec
  ScanBind Inputs.




Section AnyFloats.
Context `{FloatModel}.



(** With the lambda of [Scan] as callback the fetch loop leaves a
    positive [row_count] as soon as it has fetched a row. *)
Lemma scan_loop_row_count (zone : Libc.timezone)
    (types : list LogicalType) (num_cols : N) (rows : list Row) :
  forall (chunk : DataChunk) (row_count : N) (st : DataChunk * bool),
    (rows <> [] \/ 0 < row_count)%N ->
    (0 < snd (fst (fetch_loop zone types num_cols scan_callback rows chunk
                     row_count st)))%N.
Proof.
  induction rows as [|r rows IH]; intros chunk row_count st Hsome.
  - cbn [fetch_loop fst snd]. destruct Hsome as [Hne | Hpos];
      [now elim Hne | exact Hpos].
  - cbn [fetch_loop].
    destruct (N.eqb_spec (row_count + 1) CHUNK_SIZE) as [Hfull | Hpart].
    + destruct st as [output got]. cbn [scan_callback negb fst snd]. lia.
    + apply IH. right. lia.
Qed.

(** X10. A [Scan] call that can run its statement marks the local
    state done exactly when the statement fetched no row, and then
    leaves [output] untouched.  Whenever at least one row is fetched the
    local state is left as it was: the next call runs the same
    statement from its first row again. *)
Theorem Scan_is_done_only_on_empty_result (zone : Libc.timezone)
    (server : Server) (created : dpi_answer nat)
    (bind_data : OracleScanBindData) (local : OracleScanLocalState)
    (pools : Pools) (output0 : DataChunk)
    (temporary : OracleConnection) (p : OracleConnectionPool)
    (u : unit) (num_cols : N) :
  done local = false ->
  Acquire created (pools (pool bind_data)) = (inr temporary, p) ->
  prepared (server (BuildSelectQuery bind_data)) = DPI_SUCCESS u ->
  executed (server (BuildSelectQuery bind_data)) = DPI_SUCCESS num_cols ->
  exists outcome : ScanOutcome,
    fst (Scan zone server created bind_data local pools output0)
    = inr outcome
    /\ connection (local_after outcome) = connection local
    /\ (done (local_after outcome) = true
        <-> fetched (server (BuildSelectQuery bind_data)) = [])
    /\ (fetched (server (BuildSelectQuery bind_data)) = [] ->
        output outcome = output0)
    /\ (fetched (server (BuildSelectQuery bind_data)) <> [] ->
        local_after outcome = local).
Proof.
  intros Hdone Hacq Hprep Hexec.
  unfold Scan. rewrite Hdone, Hacq.
  unfold ExecuteQuery, ThrowIfError. rewrite Hprep, Hexec.
  destruct (fetched (server (BuildSelectQuery bind_data))) as [|r rows]
    eqn:Hrows.
  - cbn [fetch_loop N.ltb N.compare fst snd negb].
    eexists. split; [reflexivity|].
    cbn [local_after output connection done].
    repeat split; try reflexivity; try congruence.
  - pose proof (scan_loop_row_count zone (projected_types_of bind_data)
                  num_cols (r :: rows)
                  (Initialize (projected_types_of bind_data)) 0%N
                  (output0, false)) as Hpos.
    destruct (fetch_loop zone (projected_types_of bind_data) num_cols
                scan_callback (r :: rows)
                (Initialize (projected_types_of bind_data)) 0%N
                (output0, false)) as [[chunk row_count] [out got]].
    cbn [fst snd] in Hpos.
    assert (Hlt : (0 <? row_count)%N = true).
    { apply N.ltb_lt, Hpos. left. discriminate. }
    rewrite Hlt. cbn [scan_callback negb].
    eexists. split; [reflexivity|].
    cbn [local_after output connection done].
    repeat split; try reflexivity; try congruence.
Qed.

End AnyFloats.

(** X10 on the scan of HR.EMPLOYEES with three rows to fetch. *)
Lemma Scan_is_done_only_on_empty_result_witness :
  exists outcome : @ScanOutcome WholeFloats,
    fst (scan_rows 3) = inr outcome
    /\ connection (local_after outcome) = connection scanning_local
    /\ (done (local_after outcome) = true
        <-> fetched (server_of_rows 3 (BuildSelectQuery plain_scan)) = [])
    /\ (fetched (server_of_rows 3 (BuildSelectQuery plain_scan)) = [] ->
        output outcome = @Initialize WholeFloats [])
    /\ (fetched (server_of_rows 3 (BuildSelectQuery plain_scan)) <> [] ->
        local_after outcome = scanning_local).
Proof.
  exact (@Scan_is_done_only_on_empty_result WholeFloats Libc.utc
           (server_of_rows 3) (DPI_SUCCESS 3%nat) plain_scan scanning_local
           pools_with_one_idle (@Initialize WholeFloats [])
           idle_connection_500
           (set_pool_ (pools_with_one_idle (pool plain_scan)) [])
           tt 1%N eq_refl eq_refl eq_refl eq_refl).
Defined.

End ScanFacts.

(* ===================================================================== *)
(** * Filters that cannot be pushed, and the metadata reader              *)
(* ===================================================================== *)

Section ComplexFilterFacts.
Import Host TypeMapping BindData FilterPushdown PushdownSpec OracleScan Text
  Inputs.

Section AnyFloats.
Context `{FloatModel}.

(** The loop of [ComplexFilter] collects the column names. *)
Lemma column_names_loop (cols : list OracleColumnInfo) :
  forall names0 : list string,
    fold_left (fun names col => (names ++ [name col])%list) cols names0
    = (names0 ++ map name cols)%list.
Proof.
  induction cols as [|c cols IH]; intros names0.
  - cbn [fold_left map]. now rewrite app_nil_r.
  - cbn [fold_left map]. rewrite IH. now rewrite <- app_assoc.
Qed.

Lemma filter_none {A : Type} (test : A -> bool) (l : list A) :
  Forall (fun x => test x = false) l ->
  filter test l = [] /\ filter (fun x => negb (test x)) l = l.
Proof.
  induction 1 as [|x l Hx Hl [IH1 IH2]]; [split; reflexivity|].
  cbn [filter]. rewrite Hx. cbn [negb]. now rewrite IH1, IH2.
Qed.

(** [PushdownFilters] in closed form. *)
Lemma PushdownFilters_closed_form (b : OracleScanBindData)
    (names : list string) (fs : list Expression) :
  PushdownFilters b names fs
  = (with_filters b
       (filters b ++ map (rendering names) (pushed_filters names fs))%list,
     residual_filters names fs).
Proof.
  unfold PushdownFilters.
  rewrite <- (with_filters_same b) at 1.
  now rewrite pushdown_loop.
Qed.

(** X11. Filters that cannot be rendered change nothing: when no filter
    of the list has a rendering over the table's column names,
    [ComplexFilter] leaves the bind data as it was, so the statement is
    the same, and hands every filter back to the host, in order. *)
Theorem ComplexFilter_keeps_unrenderable_filters
    (b : OracleScanBindData) (fs : list Expression) :
  Forall (fun f => ExpressionToSQL f (map name (all_columns b)) = "") fs ->
  ComplexFilter b fs = (b, fs)
  /\ BuildSelectQuery (fst (ComplexFilter b fs)) = BuildSelectQuery b.
Proof.
  intros Hnone.
  assert (Hsame : ComplexFilter b fs = (b, fs)).
  { unfold ComplexFilter.
    rewrite column_names_loop. cbn [app].
    rewrite PushdownFilters_closed_form.
    destruct (filter_none (pushable (map name (all_columns b))) fs)
      as [Hpushed Hresidual].
    { eapply Forall_impl; [|exact Hnone].
      intros f Hf. unfold pushable, rendering. cbv beta in Hf.
      now rewrite Hf. }
    unfold pushed_filters, residual_filters.
    rewrite Hpushed, Hresidual. cbn [map app].
    now rewrite app_nil_r, with_filters_same. }
  split; [exact Hsame | now rewrite Hsame].
Qed.

End AnyFloats.

(** X11 on the filter [lower(NAME) = 'x'] of scenario S3. *)
Lemma ComplexFilter_keeps_unrenderable_filters_witness :
  Forall (fun f =>
            ExpressionToSQL f (map name (all_columns plain_scan)) = "")
    [lower_name_is_x]
  /\ @ComplexFilter WholeFloats plain_scan [lower_name_is_x]
     = (plain_scan, [lower_name_is_x]).
Proof.
  assert (Hnone :
    Forall (fun f =>
              ExpressionToSQL f (map name (all_columns plain_scan)) = "")
      [lower_name_is_x])
    by (constructor; [reflexivity | constructor]).
  split; [exact Hnone|].
  exact (proj1 (@ComplexFilter_keeps_unrenderable_filters WholeFloats
                  plain_scan [lower_name_is_x] Hnone)).
Defined.

End ComplexFilterFacts.

Section MetadataReaderFacts.
Import Dpi TypeMapping Connection Metadata MetadataSpec.
Context `{FloatModel}.

(** The fetch loop of [GetTables] collects the tables in fetch order. *)
Lemma fetch_tables_loop (schema : string) (rows : list Row) :
  forall tables : list OracleTableInfo,
    fold_left (fun tables r => (tables ++ [table_of_row schema r])%list)
      rows tables
    = (tables ++ map (table_of_row schema) rows)%list.
Proof.
  induction rows as [|r rows IH]; intros tables.
  - cbn [fold_left map]. now rewrite app_nil_r.
  - cbn [fold_left map]. rewrite IH. now rewrite <- app_assoc.
Qed.

(** X12. [GetTables] fails only when its statement cannot be prepared
    or executed, with the driver's message after the step's name.
    Otherwise it returns one entry per fetched row, in fetch order; every
    entry carries the upper-cased schema, the object's name as fetched,
    and is a view exactly when the object type is the text VIEW.  An
    empty result is the empty list. *)
Theorem GetTables_lists_fetched_objects (server : Server)
    (schema : string) :
  GetTables server schema
  = match prepared (server (GetTables_sql schema)) with
    | DPI_FAILURE message =>
        inl ("Oracle error in GetTables::prepareStmt: " ++ message)
    | DPI_SUCCESS _ =>
        match executed (server (GetTables_sql schema)) with
        | DPI_FAILURE message =>
            inl ("Oracle error in GetTables::execute: " ++ message)
        | DPI_SUCCESS _ =>
            inr (map (fun r =>
                        {| table_schema := OracleUtils.ToUpper schema;
                           table_name := asBytes (snd (r 1%N));
                           is_view := (asBytes (snd (r 2%N)) =? "VIEW") |})
                   (fetched (server (GetTables_sql schema))))
        end
    end.
Proof.
  unfold GetTables, ThrowIfError.
  destruct (prepared (server (GetTables_sql schema))); [|reflexivity].
  destruct (executed (server (GetTables_sql schema))); [|reflexivity].
  now rewrite fetch_tables_loop.
Qed.

(** X13. The metadata reader does not see the letter case of the names
    it is given: [GetTables] and [GetColumns] return for a schema and a
    table what they return for their upper-cased forms. *)
Theorem metadata_lookup_ignores_case (server : Server)
    (schema table : string) :
  GetTables server schema = GetTables server (OracleUtils.ToUpper schema)
  /\ GetColumns server schema table
     = GetColumns server (OracleUtils.ToUpper schema)
         (OracleUtils.ToUpper table).
Proof.
  split.
  - unfold GetTables, GetTables_sql, table_of_row.
    now rewrite !ToUpper_idempotent.
  - unfold GetColumns, GetColumns_sql.
    now rewrite !ToUpper_idempotent.
Qed.

End MetadataReaderFacts.

(* ===================================================================== *)
(** * From Oracle types to host types and back to DDL                     *)
(* ===================================================================== *)

Section TypeDDLFacts.
Import Host TypeMapping TypeSpec TypeDDL.


Lemma ToDuckDBType_of_number (col : OracleColumnInfo) :
  oracle_type_name col = "NUMBER" ->
  ToDuckDBType col = spec_number_type (precision col) (scale col).
Proof.
  intros Hname. unfold ToDuckDBType. rewrite Hname.
  cbn [String.eqb Ascii.eqb Bool.eqb]. cbn match.
  apply number_branch_is_table.
Qed.

(** X15. Turning an integral NUMBER column into a host type and that
    type back into DDL never narrows it: for a NUMBER column with scale
    0 or unset and precision at most 38 (precision and scale not both
    unset) the DDL type is NUMBER(w) with w at least the column's
    precision. *)
Theorem integer_ddl_is_wide_enough (col : OracleColumnInfo) :
  oracle_type_name col = "NUMBER" ->
  integral_scale (scale col) = true ->
  (precision col <= 38)%Z ->
  ~ (precision col = 0 /\ scale col = -127)%Z ->
  exists w : Z,
    ToOracleType (ToDuckDBType col) = number_ddl w
    /\ (precision col <= w)%Z.
Proof.
  intros Hname Hint Hmax Hset.
  rewrite (ToDuckDBType_of_number col Hname).
  unfold spec_number_type. rewrite Hint. cbn [andb].
  destruct ((precision col =? 0)%Z && (scale col =? -127)%Z) eqn:Hunset.
  { apply andb_true_iff in Hunset. destruct Hunset as [Hp Hs].
    apply Z.eqb_eq in Hp, Hs. now elim Hset. }
  destruct (Z.leb_spec (precision col) 4); [exists 5%Z; split; [reflexivity | lia]|].
  destruct (Z.leb_spec (precision col) 9); [exists 10%Z; split; [reflexivity | lia]|].
  destruct (Z.leb_spec (precision col) 18); [exists 19%Z; split; [reflexivity | lia]|].
  destruct (Z.leb_spec (precision col) 38); [exists 38%Z; split; [reflexivity | lia]|].
  lia.
Qed.

(** X15 on NUMBER(9,0): the DDL is NUMBER(10). *)
Lemma integer_ddl_is_wide_enough_witness :
  oracle_type_name (number_column 9 0) = "NUMBER"
  /\ integral_scale (scale (number_column 9 0)) = true
  /\ (precision (number_column 9 0) <= 38)%Z
  /\ exists w : Z,
       ToOracleType (ToDuckDBType (number_column 9 0)) = number_ddl w
       /\ (precision (number_column 9 0) <= w)%Z.
Proof.
  split; [reflexivity|]. split; [reflexivity|].
  split; [cbn; lia|].
  apply (integer_ddl_is_wide_enough (number_column 9 0)).
  - reflexivity.
  - reflexivity.
  - cbn. lia.
  - cbn. intros [Hp _]. discriminate Hp.
Defined.

(** X16. A NUMBER column with a positive scale keeps its precision and
    scale exactly through the host type and back: NUMBER(p,s) with
    0 < p <= 255 and 0 < s <= 255 gives the DDL type NUMBER(p,s). *)
Theorem decimal_ddl_round_trip (col : OracleColumnInfo) :
  oracle_type_name col = "NUMBER" ->
  (0 < precision col <= 255)%Z ->
  (0 < scale col <= 255)%Z ->
  ToOracleType (ToDuckDBType col)
  = "NUMBER(" ++ Machine.dec_of_Z (precision col) ++ ","
    ++ Machine.dec_of_Z (scale col) ++ ")".
Proof.
  intros Hname Hp Hs.
  rewrite (ToDuckDBType_of_number col Hname).
  unfold spec_number_type, integral_scale.
  assert (H1 : (precision col =? 0)%Z = false) by (apply Z.eqb_neq; lia).
  assert (H2 : (scale col =? 0)%Z = false) by (apply Z.eqb_neq; lia).
  assert (H3 : (scale col =? -127)%Z = false) by (apply Z.eqb_neq; lia).
  assert (H4 : (0 <? precision col)%Z = true) by (apply Z.ltb_lt; lia).
  assert (H5 : (0 <=? scale col)%Z = true) by (apply Z.leb_le; lia).
  rewrite H1, H2, H3, H4, H5. cbn [andb orb].
  unfold ToOracleType, GetWidth, GetScale.
  now rewrite !Z.mod_small by lia.
Qed.

(** X16 on NUMBER(10,2). *)
Lemma decimal_ddl_round_trip_witness :
  oracle_type_name (number_column 10 2) = "NUMBER"
  /\ ToOracleType (ToDuckDBType (number_column 10 2)) = "NUMBER(10,2)".
Proof.
  split; [reflexivity|].
  rewrite (decimal_ddl_round_trip (number_column 10 2) eq_refl);
    [reflexivity | cbn; lia | cbn; lia].
Defined.

End TypeDDLFacts.

(* ===================================================================== *)
(** * Connection strings                                                  *)
(* ===================================================================== *)

Section ConnectStringFacts.
Import Connection ConnectString ConnectStringSpec Text.

Lemma string_length_app (a b : string) :
  String.length (a ++ b) = (String.length a + String.length b)%nat.
Proof. induction a as [|c a IH]; cbn; [reflexivity | now rewrite IH]. Qed.

(** ** The scanning loops *)

Lemma skip_spaces_shorter (s : string) :
  (String.length (skip_spaces s) <= String.length s)%nat.
Proof.
  induction s as [|c s IH]; cbn [skip_spaces]; [lia|].
  destruct (isspace c); cbn [String.length] in *; lia.
Qed.

Lemma span_lengths (stop : ascii -> bool) (s : string) :
  (String.length (fst (span stop s)) + String.length (snd (span stop s))
   = String.length s)%nat.
Proof.
  induction s as [|c s IH]; cbn [span]; [reflexivity|].
  destruct (stop c); [reflexivity|].
  destruct (span stop s) as [passed remaining].
  cbn [fst snd String.length] in *. lia.
Qed.

Lemma span_empty_key (stop : ascii -> bool) (s : string) :
  fst (span stop s) = "" -> snd (span stop s) = s.
Proof.
  destruct s as [|c s]; cbn [span]; [reflexivity|].
  destruct (stop c); [reflexivity|].
  destruct (span stop s). cbn [fst]. discriminate.
Qed.

Lemma advance_shorter (s : string) :
  s <> "" -> (String.length (advance s) < String.length s)%nat.
Proof. destruct s; [congruence | cbn; lia]. Qed.

Lemma advance_not_longer (s : string) :
  (String.length (advance s) <= String.length s)%nat.
Proof. destruct s; cbn; lia. Qed.

(** The text left after a value has been read is no longer than the
    text the value was read from. *)
Lemma value_rest_shorter (s : string) :
  (String.length
     (snd (match s with
           | String q quoted =>
               if Ascii.eqb q "'"%char
               then let '(v, remaining) := span quote_stop quoted in
                    (v, advance remaining)
               else span word_stop s
           | EmptyString => span word_stop s
           end)) <= String.length s)%nat.
Proof.
  destruct s as [|q quoted]; [cbn; lia|].
  destruct (Ascii.eqb q "'"%char).
  - pose proof (span_lengths quote_stop quoted) as Hlen.
    destruct (span quote_stop quoted) as [v remaining].
    cbn [fst snd String.length] in *.
    pose proof (advance_not_longer remaining). lia.
  - pose proof (span_lengths word_stop (String q quoted)) as Hlen.
    cbn [String.length] in Hlen. cbn [String.length]. lia.
Qed.

(** Fuel beyond the length of the text changes nothing: the loop of
    [ParseKeyValueString] has always ended by then. *)
Lemma parse_pairs_enough_fuel (n : nat) :
  forall (m : nat) (s : string) (result : KeyValues),
    (String.length s <= n)%nat -> (String.length s <= m)%nat ->
    parse_pairs n s result = parse_pairs m s result.
Proof.
  induction n as [|n IH]; intros m s result Hn Hm.
  - destruct s; [|cbn in Hn; lia].
    destruct m; reflexivity.
  - destruct m as [|m].
    { destruct s; [reflexivity | cbn in Hm; lia]. }
    cbn [parse_pairs].
    pose proof (skip_spaces_shorter s) as Hskip.
    destruct (skip_spaces s) as [|c0 s0] eqn:Hs0; [reflexivity|].
    pose proof (span_lengths key_stop (String c0 s0)) as Hspan.
    pose proof (span_empty_key key_stop (String c0 s0)) as Hempty.
    destruct (span key_stop (String c0 s0)) as [key s1].
    cbn [fst snd] in Hspan, Hempty.
    cbn [String.length] in Hspan, Hskip.
    destruct (empty key) eqn:Hkey.
    + apply empty_true_iff in Hkey. subst key.
      rewrite (Hempty eq_refl). cbn [advance].
      apply IH; lia.
    + assert (Hkeylen : (0 < String.length key)%nat).
      { destruct key; [discriminate Hkey | cbn; lia]. }
      pose proof (skip_spaces_shorter s1) as Hskip1.
      destruct (skip_spaces s1) as [|c after] eqn:Hs1.
      * apply IH; cbn; lia.
      * cbn [String.length] in Hskip1.
        destruct (Ascii.eqb c "="%char).
        -- pose proof (skip_spaces_shorter after) as Hskip2.
           pose proof (value_rest_shorter (skip_spaces after)) as Hvalue.
           destruct (match skip_spaces after with
                     | String q quoted =>
                         if Ascii.eqb q "'"%char
                         then let '(v, remaining) :=
                                span quote_stop quoted in
                              (v, advance remaining)
                         else span word_stop (skip_spaces after)
                     | EmptyString => span word_stop (skip_spaces after)
                     end) as [value s2].
           cbn [snd] in Hvalue. apply IH; lia.
        -- apply IH; cbn [String.length]; lia.
Qed.

(** ** Reading back what was written *)

Lemma span_stops_at (stop : ascii -> bool) (a rest : string) :
  all_chars (fun c => negb (stop c)) a = true ->
  (rest = "" \/ exists c r, rest = String c r /\ stop c = true) ->
  span stop (a ++ rest) = (a, rest).
Proof.
  intros Hall Hrest. induction a as [|x a IH].
  - cbn [String.append]. destruct Hrest as [-> | (c & r & -> & Hc)].
    + reflexivity.
    + cbn [span]. now rewrite Hc.
  - cbn [all_chars] in Hall. apply andb_true_iff in Hall.
    destruct Hall as [Hx Hall]. apply negb_true_iff in Hx.
    cbn [String.append span]. rewrite Hx. now rewrite (IH Hall).
Qed.

Lemma parse_pairs_leading_blank (n : nat) (s : string)
    (result : KeyValues) :
  parse_pairs n (String " " s) result = parse_pairs n s result.
Proof. destruct n; reflexivity. Qed.

(** One turn of the loop on a well-formed pair. *)
Lemma parse_pairs_step (n : nat) (k v rest : string)
    (result : KeyValues) :
  well_formed_pair (k, v) = true ->
  (rest = "" \/ exists r, rest = String " " r) ->
  parse_pairs (S n) (k ++ "=" ++ v ++ rest) result
  = parse_pairs n rest (kv_set result k v).
Proof.
  unfold well_formed_pair, plain_key, plain_value. cbn [fst snd].
  intros Hwf Hrest.
  apply andb_true_iff in Hwf. destruct Hwf as [Hk Hv].
  apply andb_true_iff in Hk. destruct Hk as [Hkne Hk].
  destruct k as [|k0 k']; [discriminate Hkne|].
  destruct v as [|v0 v']; [discriminate Hv|].
  apply andb_true_iff in Hv. destruct Hv as [Hquote Hv].
  apply negb_true_iff in Hquote.
  assert (Hk0 : key_stop k0 = false).
  { cbn [all_chars] in Hk. apply andb_true_iff in Hk.
    now apply negb_true_iff. }
  assert (Hk0space : isspace k0 = false).
  { unfold key_stop in Hk0. now apply orb_false_iff in Hk0. }
  assert (Hv0space : isspace v0 = false).
  { cbn [all_chars] in Hv. apply andb_true_iff in Hv.
    now apply negb_true_iff. }
  cbn [parse_pairs].
  change (String k0 k' ++ "=" ++ String v0 v' ++ rest)
    with (String k0 (k' ++ "=" ++ String v0 v' ++ rest)).
  cbn [skip_spaces]. rewrite Hk0space.
  change (String k0 (k' ++ "=" ++ String v0 v' ++ rest))
    with (String k0 k' ++ String "=" (String v0 v' ++ rest)).
  rewrite (span_stops_at key_stop (String k0 k')
             (String "=" (String v0 v' ++ rest)) Hk).
  2:{ right. exists "="%char, (String v0 v' ++ rest). split; reflexivity. }
  cbn [empty skip_spaces]. change (isspace "=") with false. cbv iota.
  change (Ascii.eqb "=" "=") with true. cbv iota.
  change (String v0 v' ++ rest) with (String v0 (v' ++ rest)).
  cbn [skip_spaces]. rewrite Hv0space. rewrite Hquote.
  change (String v0 (v' ++ rest)) with (String v0 v' ++ rest).
  rewrite (span_stops_at word_stop (String v0 v') rest Hv).
  - reflexivity.
  - destruct Hrest as [-> | (r & ->)]; [now left|].
    right. exists " "%char, r. split; reflexivity.
Qed.

Lemma render_pairs_cons (kv : string * string)
    (kvs : list (string * string)) :
  render_pairs (kv :: kvs)
  = fst kv ++ "=" ++ snd kv
    ++ match kvs with
       | [] => ""
       | _ :: _ => String " " (render_pairs kvs)
       end.
Proof.
  unfold render_pairs, render_pair. cbn [map String.concat].
  destruct kvs as [|kv2 kvs].
  - cbn [map]. now rewrite ?string_app_assoc, ?string_app_nil_r.
  - cbn [map]. rewrite ?string_app_assoc. reflexivity.
Qed.

(** The loop on a rendered list of pairs, with a turn of fuel for each
    pair. *)
Lemma parse_rendered_pairs (kvs : list (string * string)) :
  forall (n : nat) (result : KeyValues),
    forallb well_formed_pair kvs = true ->
    (List.length kvs <= n)%nat ->
    parse_pairs n (render_pairs kvs) result = (rev kvs ++ result)%list.
Proof.
  induction kvs as [|[k v] kvs IH]; intros n result Hwf Hfuel.
  - destruct n; reflexivity.
  - cbn [forallb] in Hwf. apply andb_true_iff in Hwf.
    destruct Hwf as [Hkv Hwf].
    destruct n as [|n]; [cbn in Hfuel; lia|].
    cbn [List.length] in Hfuel.
    rewrite render_pairs_cons. cbn [fst snd].
    rewrite parse_pairs_step; [| exact Hkv |].
    + destruct kvs as [|kv2 kvs'].
      * destruct n; reflexivity.
      * rewrite parse_pairs_leading_blank.
        rewrite IH by (try exact Hwf; lia).
        cbn [rev kv_set]. now rewrite <- !app_assoc.
    + destruct kvs; [now left | right; eexists; reflexivity].
Qed.

Lemma render_pairs_long_enough (kvs : list (string * string)) :
  (List.length kvs <= String.length (render_pairs kvs))%nat.
Proof.
  induction kvs as [|kv kvs IH]; [cbn; lia|].
  rewrite render_pairs_cons, !string_length_app.
  cbn [List.length]. destruct kvs as [|kv2 kvs'].
  - cbn. lia.
  - change (String.length (String " " (render_pairs (kv2 :: kvs'))))
      with (S (String.length (render_pairs (kv2 :: kvs')))).
    lia.
Qed.

(** X17. [ParseKeyValueString] reads back what is written as
    [key=value] pairs with one blank between them: for keys without
    blank or equals sign and values without blank that do not open with
    a quote, the value found for a key is the one of the last pair with
    that key, and a key that is in no pair is not found. *)
Theorem ParseKeyValueString_reads_pairs (kvs : list (string * string))
    (key : string) :
  forallb well_formed_pair kvs = true ->
  kv_find (ParseKeyValueString (render_pairs kvs)) key
  = kv_find (rev kvs) key.
Proof.
  intros Hwf. unfold ParseKeyValueString.
  rewrite (parse_rendered_pairs kvs _ [] Hwf (render_pairs_long_enough kvs)).
  now rewrite app_nil_r.
Qed.

(** X17 on [host=a port=1 host=b]: the later host wins. *)
Lemma ParseKeyValueString_reads_pairs_witness :
  forallb well_formed_pair [("host", "a"); ("port", "1"); ("host", "b")]
  = true
  /\ kv_find
       (ParseKeyValueString
          (render_pairs [("host", "a"); ("port", "1"); ("host", "b")]))
       "host"
     = Some "b".
Proof.
  split; [reflexivity|].
  rewrite (ParseKeyValueString_reads_pairs
             [("host", "a"); ("port", "1"); ("host", "b")] "host" eq_refl).
  reflexivity.
Defined.

(** ** Quoted values *)

Lemma parse_pairs_quoted_step (n : nat) (k v rest : string)
    (result : KeyValues) :
  plain_key k = true ->
  all_chars (fun c => negb (quote_stop c)) v = true ->
  parse_pairs (S n) (k ++ String "=" (String "'" (v ++ String "'" rest)))
    result
  = parse_pairs n rest (kv_set result k v).
Proof.
  unfold plain_key. intros Hk Hv.
  apply andb_true_iff in Hk. destruct Hk as [Hkne Hk].
  destruct k as [|k0 k']; [discriminate Hkne|].
  assert (Hk0space : isspace k0 = false).
  { cbn [all_chars] in Hk. apply andb_true_iff in Hk.
    destruct Hk as [Hk0 _]. apply negb_true_iff in Hk0.
    unfold key_stop in Hk0. now apply orb_false_iff in Hk0. }
  cbn [parse_pairs].
  change (String k0 k' ++ ?x) with (String k0 (k' ++ x)).
  cbn [skip_spaces]. rewrite Hk0space.
  change (String k0 (k' ++ ?x)) with (String k0 k' ++ x).
  rewrite (span_stops_at key_stop (String k0 k') _ Hk).
  2:{ right. do 2 eexists. split; reflexivity. }
  cbn [empty skip_spaces]. change (isspace "=") with false. cbv iota.
  change (Ascii.eqb "=" "=") with true. cbv iota.
  cbn [skip_spaces]. change (isspace "'") with false. cbv iota.
  change (Ascii.eqb "'" "'") with true. cbv iota.
  rewrite (span_stops_at quote_stop v (String "'" rest) Hv).
  - reflexivity.
  - right. do 2 eexists. split; reflexivity.
Qed.

(** X18. A value written between single quotes is read back as it is,
    blanks and equals signs included, as long as it holds no single
    quote itself (there is no escape for one); the empty value [''] is
    read as the empty text, not as a missing key. *)
Theorem ParseKeyValueString_reads_quoted_value (key value : string) :
  plain_key key = true ->
  all_chars (fun c => negb (quote_stop c)) value = true ->
  kv_find (ParseKeyValueString (render_quoted key value)) key = Some value.
Proof.
  intros Hk Hv. unfold ParseKeyValueString, render_quoted.
  destruct (String.length (key ++ "='" ++ value ++ "'")) as [|n] eqn:Hlen.
  - rewrite string_length_app in Hlen. cbn in Hlen. lia.
  - change (key ++ "='" ++ value ++ "'")
      with (key ++ String "=" (String "'" (value ++ String "'" ""))).
    rewrite (parse_pairs_quoted_step n key value "" [] Hk Hv).
    assert (Hend : parse_pairs n "" (kv_set [] key value)
                   = kv_set [] key value) by (destruct n; reflexivity).
    rewrite Hend. cbn [kv_set kv_find]. now rewrite String.eqb_refl.
Qed.

(** X18 on [service='my svc']. *)
Lemma ParseKeyValueString_reads_quoted_value_witness :
  plain_key "service" = true
  /\ all_chars (fun c => negb (quote_stop c)) "my svc" = true
  /\ kv_find (ParseKeyValueString "service='my svc'") "service"
     = Some "my svc".
Proof.
  split; [reflexivity | split; [reflexivity|]].
  exact (ParseKeyValueString_reads_quoted_value "service" "my svc"
           eq_refl eq_refl).
Defined.

(** ** Numbers *)

Lemma all_chars_impl (f g : ascii -> bool) (s : string) :
  (forall c, f c = true -> g c = true) ->
  all_chars f s = true -> all_chars g s = true.
Proof.
  intros Himpl. induction s as [|c s IH]; cbn [all_chars]; [easy|].
  intros H. apply andb_true_iff in H. destruct H as [Hc Hs].
  now rewrite (Himpl c Hc), (IH Hs).
Qed.

Lemma all_chars_app (f : ascii -> bool) (a b : string) :
  all_chars f (a ++ b) = all_chars f a && all_chars f b.
Proof.
  induction a as [|c a IH]; cbn [String.append all_chars]; [reflexivity|].
  now rewrite IH, andb_assoc.
Qed.

Lemma uint_digits (d : Decimal.uint) :
  all_chars is_digit (NilEmpty.string_of_uint d) = true.
Proof. induction d; cbn [NilEmpty.string_of_uint all_chars]; auto. Qed.

Lemma NilZero_nonnil (d : Decimal.uint) :
  d <> Decimal.Nil ->
  NilZero.string_of_uint d = NilEmpty.string_of_uint d.
Proof. destruct d; [congruence | reflexivity ..]. Qed.

Lemma digit_is_no_blank_or_sign (c : ascii) :
  is_digit c = true ->
  isspace c = false /\ Ascii.eqb c "-" = false /\ Ascii.eqb c "+" = false.
Proof.
  destruct c as [[] [] [] [] [] [] [] []]; vm_compute;
    intros H; try discriminate H; repeat split.
Qed.

Lemma no_digit_ahead (rest : string) :
  starts_with_digit rest = false ->
  rest = ""
  \/ exists c r, rest = String c r /\ negb (is_digit c) = true.
Proof.
  destruct rest as [|c r]; [now left|]. cbn [starts_with_digit].
  intros H. right. exists c, r. now rewrite H.
Qed.

(** [stoi] on the digits of [d], with or without a minus sign before
    them. *)
Lemma stoi_digits (negative : bool) (d : Decimal.uint) (rest : string) :
  d <> Decimal.Nil ->
  starts_with_digit rest = false ->
  let v := if negative then (- Z.of_uint d)%Z else Z.of_uint d in
  (INT_MIN <= v <= INT_MAX)%Z ->
  stoi ((if negative then "-" else "")
        ++ NilEmpty.string_of_uint d ++ rest)
  = inr v.
Proof.
  intros Hd Hrest v Hrange.
  assert (Hspan : span (fun c => negb (is_digit c))
                    (NilEmpty.string_of_uint d ++ rest)
                  = (NilEmpty.string_of_uint d, rest)).
  { apply span_stops_at; [| now apply no_digit_ahead].
    apply (all_chars_impl is_digit); [| apply uint_digits].
    intros c Hc. now rewrite Hc. }
  pose proof (uint_digits d) as Hdigits.
  pose proof (NilEmpty.usu d) as Hread.
  destruct (NilEmpty.string_of_uint d) as [|c0 digits] eqn:Htext.
  { destruct d; cbn in Htext; congruence. }
  cbn [all_chars] in Hdigits. apply andb_true_iff in Hdigits.
  destruct Hdigits as [Hc0 _].
  destruct (digit_is_no_blank_or_sign c0 Hc0) as (Hblank & Hminus & Hplus).
  assert (Hin : ((INT_MIN <=? v) && (v <=? INT_MAX))%Z = true).
  { apply andb_true_iff. split; apply Z.leb_le; lia. }
  unfold stoi. destruct negative.
  - change ("-" ++ String c0 digits ++ rest)
      with (String "-" (String c0 digits ++ rest)).
    cbn [skip_spaces]. change (isspace "-") with false. cbv iota.
    change (Ascii.eqb "-" "-") with true. cbv iota.
    rewrite Hspan, Hread. fold v. now rewrite Hin.
  - change ("" ++ String c0 digits ++ rest)
      with (String c0 (digits ++ rest)).
    cbn [skip_spaces]. rewrite Hblank, Hminus, Hplus.
    change (String c0 (digits ++ rest)) with (String c0 digits ++ rest).
    rewrite Hspan, Hread. fold v. now rewrite Hin.
Qed.

Lemma stoi_of_dec (z : Z) (rest : string) :
  (INT_MIN <= z <= INT_MAX)%Z ->
  starts_with_digit rest = false ->
  stoi (Machine.dec_of_Z z ++ rest) = inr z.
Proof.
  intros Hrange Hrest. unfold Machine.dec_of_Z.
  destruct z as [|p|p]; cbn [Z.to_int NilZero.string_of_int].
  - exact (stoi_digits false (Decimal.D0 Decimal.Nil) rest
             ltac:(discriminate) Hrest Hrange).
  - rewrite NilZero_nonnil by apply DecimalPos.Unsigned.to_uint_nonnil.
    pose proof (stoi_digits false (Pos.to_uint p) rest
                  (DecimalPos.Unsigned.to_uint_nonnil p) Hrest) as H.
    cbv zeta in H. unfold Z.of_uint in H.
    rewrite DecimalPos.Unsigned.of_to in H. exact (H Hrange).
  - rewrite NilZero_nonnil by apply DecimalPos.Unsigned.to_uint_nonnil.
    pose proof (stoi_digits true (Pos.to_uint p) rest
                  (DecimalPos.Unsigned.to_uint_nonnil p) Hrest) as H.
    cbv zeta in H. unfold Z.of_uint in H.
    rewrite DecimalPos.Unsigned.of_to in H. exact (H Hrange).
Qed.

Lemma sign_or_digit_opens_a_word (c : ascii) :
  is_digit c || Ascii.eqb c "-" = true ->
  isspace c = false /\ Ascii.eqb c "'" = false.
Proof.
  destruct c as [[] [] [] [] [] [] [] []]; vm_compute;
    intros H; try discriminate H; split; reflexivity.
Qed.

Lemma dec_chars (z : Z) :
  all_chars (fun c => is_digit c || Ascii.eqb c "-") (Machine.dec_of_Z z)
  = true.
Proof.
  assert (Hdigits : forall d,
             all_chars (fun c => is_digit c || Ascii.eqb c "-")
               (NilEmpty.string_of_uint d) = true).
  { intros d. apply (all_chars_impl is_digit); [| apply uint_digits].
    intros c Hc. now rewrite Hc. }
  unfold Machine.dec_of_Z.
  destruct z as [|p|p]; cbn [Z.to_int NilZero.string_of_int].
  - reflexivity.
  - rewrite NilZero_nonnil by apply DecimalPos.Unsigned.to_uint_nonnil.
    apply Hdigits.
  - rewrite NilZero_nonnil by apply DecimalPos.Unsigned.to_uint_nonnil.
    cbn [all_chars]. now rewrite Hdigits.
Qed.

Lemma dec_nonempty (z : Z) : empty (Machine.dec_of_Z z) = false.
Proof.
  unfold Machine.dec_of_Z.
  destruct z as [|p|p]; cbn [Z.to_int NilZero.string_of_int];
    [reflexivity | | reflexivity].
  pose proof (DecimalPos.Unsigned.to_uint_nonnil p) as Hnonnil.
  rewrite NilZero_nonnil by exact Hnonnil.
  now destruct (Pos.to_uint p).
Qed.

(** [ParseConnectionString] on a text whose only pair is the port. *)
Lemma ParseConnectionString_of_port (s v : string) :
  starts_with_slashes s = false ->
  ParseKeyValueString s = [("port", v)] ->
  ParseConnectionString s
  = and_then (stoi v) (fun pt =>
      inr (set_host_port_service default_params "localhost" pt "")).
Proof.
  intros Hslashes Hkv. unfold ParseConnectionString.
  rewrite Hslashes, Hkv. reflexivity.
Qed.

(** X19. A port is read by [std::stoi], which stops at the first
    character that is no digit: [port=] followed by the decimal digits
    of an [int] and then by any text without white space that does not
    open with a digit is accepted without an error, as that number; the
    text after the digits is ignored.  The other fields keep their
    defaults. *)
Theorem ParseConnectionString_ignores_text_after_port (z : Z)
    (junk : string) :
  (INT_MIN <= z <= INT_MAX)%Z ->
  starts_with_digit junk = false ->
  all_chars (fun c => negb (isspace c)) junk = true ->
  ParseConnectionString ("port=" ++ Machine.dec_of_Z z ++ junk)
  = inr (set_host_port_service default_params "localhost" z "").
Proof.
  intros Hrange Hjunk Hword.
  pose proof (stoi_of_dec z junk Hrange Hjunk) as Hstoi.
  pose proof (dec_chars z) as Hchars.
  pose proof (dec_nonempty z) as Hnonempty.
  remember (Machine.dec_of_Z z) as dec eqn:Hdec. clear Hdec.
  assert (Hvalue : well_formed_pair ("port", dec ++ junk) = true).
  { unfold well_formed_pair, plain_value. cbn [fst snd].
    change (plain_key "port") with true. cbn [andb].
    destruct dec as [|c0 dec']; [discriminate Hnonempty|].
    cbn [all_chars] in Hchars. apply andb_true_iff in Hchars.
    destruct Hchars as [Hc0 Hchars].
    destruct (sign_or_digit_opens_a_word c0 Hc0) as [Hblank Hquote].
    change (String c0 dec' ++ junk) with (String c0 (dec' ++ junk)).
    cbn [all_chars]. rewrite Hquote, Hblank. cbn [negb andb].
    rewrite all_chars_app, Hword, andb_true_r.
    revert Hchars. apply all_chars_impl. intros c Hc.
    now destruct (sign_or_digit_opens_a_word c Hc) as [-> _]. }
  rewrite (ParseConnectionString_of_port _ (dec ++ junk)).
  - now rewrite Hstoi.
  - reflexivity.
  - unfold ParseKeyValueString.
    destruct (String.length ("port=" ++ dec ++ junk)) as [|n] eqn:Hlen;
      [discriminate Hlen|].
    pose proof (parse_pairs_step n "port" (dec ++ junk) "" []
                  Hvalue (or_introl eq_refl)) as Hstep.
    rewrite string_app_nil_r in Hstep.
    change ("port=" ++ dec ++ junk) with ("port" ++ "=" ++ dec ++ junk).
    rewrite Hstep. now destruct n.
Qed.

(** X19 on [port=1522x]. *)
Lemma ParseConnectionString_ignores_text_after_port_witness :
  (INT_MIN <= 1522 <= INT_MAX)%Z
  /\ starts_with_digit "x" = false
  /\ all_chars (fun c => negb (isspace c)) "x" = true
  /\ ParseConnectionString "port=1522x"
     = inr (set_host_port_service default_params "localhost" 1522 "").
Proof.
  split; [unfold INT_MIN, INT_MAX; lia|].
  split; [reflexivity | split; [reflexivity|]].
  apply (ParseConnectionString_ignores_text_after_port 1522 "x");
    [unfold INT_MIN, INT_MAX; lia | reflexivity | reflexivity].
Defined.

(** ** EasyConnect strings *)

Lemma find_from_passes (c : ascii) (a b : string) :
  all_chars (fun x => negb (Ascii.eqb x c)) a = true ->
  find_from c (a ++ b) 0
  = option_map (Nat.add (String.length a)) (find_from c b 0).
Proof.
  induction a as [|x a IH]; cbn [String.append all_chars String.length].
  - intros _. now destruct (find_from c b 0).
  - intros H. apply andb_true_iff in H. destruct H as [Hx Ha].
    apply negb_true_iff in Hx. cbn [find_from]. rewrite Hx, (IH Ha).
    now destruct (find_from c b 0).
Qed.

Lemma find_from_skips (c : ascii) (a b : string) :
  find_from c (a ++ b) (String.length a)
  = option_map (Nat.add (String.length a)) (find_from c b 0).
Proof.
  induction a as [|x a IH]; cbn [String.append String.length].
  - now destruct (find_from c b 0).
  - cbn [find_from]. rewrite IH. now destruct (find_from c b 0).
Qed.

Lemma find_none (c : ascii) (s : string) :
  all_chars (fun x => negb (Ascii.eqb x c)) s = true ->
  find_from c s 0 = None.
Proof.
  induction s as [|x s IH]; cbn [all_chars find_from]; [reflexivity|].
  intros H. apply andb_true_iff in H. destruct H as [Hx Hs].
  apply negb_true_iff in Hx. now rewrite Hx, (IH Hs).
Qed.

Lemma substring_prefix (a b : string) :
  substring 0 (String.length a) (a ++ b) = a.
Proof.
  induction a as [|x a IH]; cbn [String.append String.length substring].
  - now destruct b.
  - now rewrite IH.
Qed.

Lemma substring_skip (a b : string) (n m : nat) :
  substring (String.length a + n) m (a ++ b) = substring n m b.
Proof.
  induction a as [|x a IH]; [reflexivity|].
  cbn [String.append String.length Nat.add substring]. exact IH.
Qed.

Lemma substring_whole (s : string) :
  substring 0 (String.length s) s = s.
Proof.
  induction s as [|x s IH]; [reflexivity|].
  cbn [String.length substring]. now rewrite IH.
Qed.

Lemma substr_from_skip (a b : string) :
  substr_from (a ++ b) (String.length a) = inr b.
Proof.
  unfold substr_from. rewrite string_length_app.
  replace (String.length a <=? String.length a + String.length b)%nat
    with true by (symmetry; apply Nat.leb_le; lia).
  replace (String.length a + String.length b - String.length a)%nat
    with (String.length b) by lia.
  pose proof (substring_skip a b 0 (String.length b)) as H.
  rewrite Nat.add_0_r in H. now rewrite H, substring_whole.
Qed.

Lemma sign_or_digit_is_plain (c : ascii) :
  is_digit c || Ascii.eqb c "-" = true ->
  negb (Ascii.eqb c " ") = true /\ negb (Ascii.eqb c "/") = true.
Proof.
  destruct c as [[] [] [] [] [] [] [] []]; vm_compute;
    intros H; try discriminate H; split; reflexivity.
Qed.

(** What [BuildConnectString] writes without a TNS alias and without a
    SID standing alone. *)
Lemma BuildConnectString_easy (p : OracleConnectionParameters) :
  empty (tns_name p) = true ->
  negb (empty (service_name p)) || empty (sid p) = true ->
  BuildConnectString p
  = "//" ++ host p ++ ":" ++ Machine.dec_of_Z (port p) ++ "/"
    ++ service_name p.
Proof.
  intros Htns Hsid. unfold BuildConnectString. rewrite Htns. cbn [negb].
  destruct (service_name p) as [|c svc] eqn:Hsvc; cbn [empty negb] in *.
  - cbn [orb] in Hsid. rewrite Hsid. cbn [negb].
    now rewrite !string_app_nil_r.
  - now rewrite !string_app_assoc.
Qed.

(** [ParseEasyConnect] on [//host:port/service]. *)
Lemma ParseEasyConnect_reads (h : string) (pt : Z) (svc : string) :
  all_chars (fun c => negb (Ascii.eqb c " ") && negb (Ascii.eqb c ":")
                      && negb (Ascii.eqb c "/")) h = true ->
  all_chars (fun c => negb (Ascii.eqb c " ")) svc = true ->
  (INT_MIN <= pt <= INT_MAX)%Z ->
  ParseEasyConnect ("//" ++ h ++ ":" ++ Machine.dec_of_Z pt ++ "/" ++ svc)
  = inr (set_host_port_service default_params h pt svc).
Proof.
  intros Hh Hsvc Hpt.
  assert (Hh_blank : all_chars (fun c => negb (Ascii.eqb c " ")) h = true).
  { revert Hh. apply all_chars_impl. intros c Hc.
    apply andb_true_iff in Hc. destruct Hc as [Hc _].
    now apply andb_true_iff in Hc. }
  assert (Hh_colon : all_chars (fun c => negb (Ascii.eqb c ":")) h = true).
  { revert Hh. apply all_chars_impl. intros c Hc.
    apply andb_true_iff in Hc. destruct Hc as [Hc _].
    now apply andb_true_iff in Hc. }
  assert (Hh_slash : all_chars (fun c => negb (Ascii.eqb c "/")) h = true).
  { revert Hh. apply all_chars_impl. intros c Hc.
    now apply andb_true_iff in Hc. }
  pose proof (dec_chars pt) as Hdec.
  assert (Hd_blank : all_chars (fun c => negb (Ascii.eqb c " "))
                       (Machine.dec_of_Z pt) = true).
  { revert Hdec. apply all_chars_impl. intros c Hc.
    now apply sign_or_digit_is_plain. }
  assert (Hd_slash : all_chars (fun c => negb (Ascii.eqb c "/"))
                       (Machine.dec_of_Z pt) = true).
  { revert Hdec. apply all_chars_impl. intros c Hc.
    now apply sign_or_digit_is_plain. }
  pose proof (stoi_of_dec pt "" Hpt eq_refl) as Hstoi.
  rewrite string_app_nil_r in Hstoi.
  remember (Machine.dec_of_Z pt) as dec eqn:Hdec_eq.
  set (ec := h ++ String ":" (dec ++ String "/" svc)).
  change ("//" ++ h ++ ":" ++ dec ++ "/" ++ svc) with ("//" ++ ec).
  assert (Hspace : find " " ("//" ++ ec) = None).
  { unfold find. apply find_none. unfold ec.
    change ("//" ++ ?x) with (String "/" (String "/" x)).
    cbn [all_chars]. rewrite all_chars_app. cbn [all_chars].
    rewrite all_chars_app. cbn [all_chars].
    now rewrite Hh_blank, Hd_blank, Hsvc. }
  assert (Hcolon : find ":" ec = Some (String.length h)).
  { unfold find, ec. rewrite (find_from_passes ":" h _ Hh_colon).
    cbn [find_from]. change (Ascii.eqb ":" ":") with true.
    cbn [option_map]. now rewrite Nat.add_0_r. }
  assert (Hafter : find_from "/" (String ":" (dec ++ String "/" svc)) 0
                   = Some (S (String.length dec))).
  { cbn [find_from]. change (Ascii.eqb ":" "/") with false. cbv iota.
    rewrite (find_from_passes "/" dec _ Hd_slash).
    cbn [find_from]. change (Ascii.eqb "/" "/") with true.
    cbn [option_map]. now rewrite Nat.add_0_r. }
  assert (Hslash : find "/" ec
                   = Some (String.length h + S (String.length dec))%nat).
  { unfold find, ec. rewrite (find_from_passes "/" h _ Hh_slash).
    now rewrite Hafter. }
  assert (Hslash2 : find_from "/" ec (String.length h)
                    = Some (String.length h + S (String.length dec))%nat).
  { unfold ec. rewrite find_from_skips. now rewrite Hafter. }
  assert (Hhost_text : substring 0 (String.length h) ec = h).
  { unfold ec. apply substring_prefix. }
  assert (Hport_text :
            substring (String.length h + 1)
              (String.length h + S (String.length dec)
               - String.length h - 1) ec = dec).
  { replace (String.length h + S (String.length dec)
             - String.length h - 1)%nat
      with (String.length dec) by lia.
    unfold ec. rewrite substring_skip. cbn [substring].
    apply substring_prefix. }
  assert (Hsvc_text :
            substr_from ec (String.length h + S (String.length dec) + 1)
            = inr svc).
  { replace ec with ((h ++ String ":" (dec ++ "/")) ++ svc).
    - replace (String.length h + S (String.length dec) + 1)%nat
        with (String.length (h ++ String ":" (dec ++ "/"))).
      + apply substr_from_skip.
      + rewrite string_length_app. cbn [String.length].
        rewrite string_length_app. cbn [String.length]. lia.
    - unfold ec. rewrite string_app_assoc. cbn [String.append].
      now rewrite string_app_assoc. }
  unfold ParseEasyConnect. rewrite Hspace. cbv beta iota zeta.
  change (substr_from ("//" ++ ec) 2)
    with (substr_from ("//" ++ ec) (String.length "//")).
  rewrite (substr_from_skip "//" ec). cbn [and_then].
  rewrite Hcolon, Hslash.
  replace (String.length h <? String.length h + S (String.length dec))%nat
    with true by (symmetry; apply Nat.ltb_lt; lia).
  unfold easy_host_port. rewrite Hslash2, Hhost_text, Hport_text, Hstoi.
  cbn [and_then]. rewrite Hsvc_text. reflexivity.
Qed.

(** X20. A connect string written by [BuildConnectString] in the form
    [//host:port/service] is read back by [ParseConnectionString]
    without an error, with the host, the port and the service name it
    was written from; the other fields are those of default-constructed
    parameters. *)
Theorem BuildConnectString_reads_back (p : OracleConnectionParameters) :
  easy_connectable p = true ->
  ParseConnectionString (BuildConnectString p)
  = inr (set_host_port_service default_params
           (host p) (port p) (service_name p)).
Proof.
  unfold easy_connectable. intros H.
  apply andb_true_iff in H. destruct H as [H Hmax].
  apply andb_true_iff in H. destruct H as [H Hmin].
  apply andb_true_iff in H. destruct H as [H Hsvc].
  apply andb_true_iff in H. destruct H as [H Hhost].
  apply andb_true_iff in H. destruct H as [Htns Hsid].
  apply Z.leb_le in Hmin, Hmax.
  rewrite (BuildConnectString_easy p Htns Hsid).
  unfold ParseConnectionString.
  change (starts_with_slashes
            ("//" ++ host p ++ ":" ++ Machine.dec_of_Z (port p) ++ "/"
             ++ service_name p)) with true.
  cbv iota. apply ParseEasyConnect_reads; [exact Hhost | exact Hsvc | lia].
Qed.

(** X20 on the parameters [localhost], 1521, [ORCL]. *)
Lemma BuildConnectString_reads_back_witness :
  easy_connectable Inputs.some_params = true
  /\ ParseConnectionString (BuildConnectString Inputs.some_params)
     = inr (set_host_port_service default_params "localhost" 1521 "ORCL").
Proof.
  split; [reflexivity|].
  exact (BuildConnectString_reads_back Inputs.some_params eq_refl).
Defined.

End ConnectStringFacts.

(* ===================================================================== *)
(** * The table cache of a schema entry                                   *)
(* ===================================================================== *)

Section SchemaEntryFacts.
Import TypeMapping Connection Text SchemaEntry SchemaEntrySpec.

(** ** The map *)

Lemma cache_find_erase {A : Type} (m : Cache A) (key k : string) :
  cache_find (cache_erase m key) k
  = if k =? key then None else cache_find m k.
Proof.
  unfold cache_erase. induction m as [|[k0 v] m IH]; cbn [filter cache_find].
  - now destruct (k =? key).
  - cbn [fst]. destruct (k0 =? key) eqn:Hk0; cbn [negb].
    + rewrite IH. apply String.eqb_eq in Hk0. subst k0.
      rewrite (String.eqb_sym key k). now destruct (k =? key).
    + cbn [cache_find]. rewrite IH.
      destruct (k0 =? k) eqn:Hk; [|reflexivity].
      apply String.eqb_eq in Hk. subst k0. now rewrite Hk0.
Qed.

Lemma cache_find_assign {A : Type} (m : Cache A) (key k : string) (v : A) :
  cache_find (cache_assign m key v) k
  = if k =? key then Some v else cache_find m k.
Proof.
  unfold cache_assign. cbn [cache_find]. rewrite cache_find_erase.
  rewrite (String.eqb_sym key k). now destruct (k =? key).
Qed.

Lemma unique_keys_erase {A : Type} (m : Cache A) (key : string) :
  unique_keys m = true -> unique_keys (cache_erase m key) = true.
Proof.
  induction m as [|[k0 v] m IH]; [reflexivity|].
  cbn [unique_keys]. destruct (cache_find m k0) eqn:Hfind; [discriminate|].
  intros Hm. change (cache_erase ((k0, v) :: m) key)
    with (if negb (k0 =? key) then (k0, v) :: cache_erase m key
          else cache_erase m key).
  destruct (k0 =? key); cbn [negb]; [now apply IH|].
  cbn [unique_keys]. rewrite cache_find_erase, Hfind.
  destruct (k0 =? key); now apply IH.
Qed.

Lemma unique_keys_assign {A : Type} (m : Cache A) (key : string) (v : A) :
  unique_keys m = true -> unique_keys (cache_assign m key v) = true.
Proof.
  intros Hm. unfold cache_assign. cbn [unique_keys].
  rewrite cache_find_erase, String.eqb_refl. now apply unique_keys_erase.
Qed.

Lemma forallb_erase {A : Type} (test : string * A -> bool) (m : Cache A)
    (key : string) :
  forallb test m = true -> forallb test (cache_erase m key) = true.
Proof.
  unfold cache_erase. induction m as [|kv m IH]; [reflexivity|].
  cbn [forallb filter]. intros Hm. apply andb_true_iff in Hm.
  destruct Hm as [Hkv Hm]. destruct (negb (fst kv =? key)).
  - cbn [forallb]. now rewrite Hkv, IH.
  - now apply IH.
Qed.

(** The loop of [OracleTableInfoToCreateTableInfo] makes one column
    definition for each column, in order. *)
Lemma column_definitions_loop (columns : list OracleColumnInfo)
    (done : list ColumnDefinition) :
  fold_left
    (fun cols col =>
       let dtype := ToDuckDBType col in
       (cols ++ [{| column_name := name col; column_type := dtype |}])%list)
    columns done
  = (done
     ++ map (fun col => {| column_name := name col;
                           column_type := ToDuckDBType col |}) columns)%list.
Proof.
  revert done. induction columns as [|col columns IH]; intros done.
  - cbn [fold_left map]. now rewrite app_nil_r.
  - cbn [fold_left map]. rewrite IH. now rewrite <- app_assoc.
Qed.

Section AnyFloats.
Context `{FloatModel}.

(** What a lookup that finds a table leaves in the cache. *)
Lemma GetOrLoadTable_found (created : dpi_answer nat) (server : Server)
    (pool pool' : OracleConnectionPool) (entry entry' : OracleSchemaEntry)
    (table_name : string) (found : OracleTableEntry) :
  GetOrLoadTable created server pool entry table_name
  = (inr (Some found), pool', entry') ->
  cache_find (table_cache_ entry') (OracleUtils.ToUpper table_name)
  = Some found.
Proof.
  unfold GetOrLoadTable.
  destruct (cache_find (table_cache_ entry)
              (OracleUtils.ToUpper table_name)) as [cached|] eqn:Hfind.
  - intros Heq. injection Heq as Hc _ He. now subst.
  - destruct (Acquire created pool) as [[e|conn] pool1]; [discriminate|].
    destruct (GetColumns server (schema_name entry)
                (OracleUtils.ToUpper table_name)) as [e|columns];
      [discriminate|].
    destruct columns as [|col columns]; [discriminate|].
    intros Heq. injection Heq as Hc _ He. subst.
    cbn [set_table_cache_ table_cache_].
    now rewrite cache_find_assign, String.eqb_refl.
Qed.

(** X21. A table found once is served from the cache from then on: a
    later [GetEntry] for a table or a view whose name differs at most in
    letter case returns the same entry and leaves the pool and the
    schema entry as they are, whatever the server and the driver would
    answer, since they are not asked. *)
Theorem GetEntry_serves_from_cache
    (created : dpi_answer nat) (server : Server)
    (pool pool' : OracleConnectionPool) (entry entry' : OracleSchemaEntry)
    (type : CatalogType) (entry_name : string) (found : OracleTableEntry) :
  GetEntry created server pool entry type entry_name
  = (inr (Some found), pool', entry') ->
  forall (created2 : dpi_answer nat) (server2 : Server)
         (type2 : CatalogType) (entry_name2 : string),
    is_table_or_view type2 = true ->
    OracleUtils.ToUpper entry_name2 = OracleUtils.ToUpper entry_name ->
    GetEntry created2 server2 pool' entry' type2 entry_name2
    = (inr (Some found), pool', entry').
Proof.
  unfold GetEntry. destruct (is_table_or_view type); cbn [negb];
    [|discriminate].
  intros Hfirst created2 server2 type2 entry_name2 Htype Hname.
  rewrite Htype. cbn [negb].
  apply GetOrLoadTable_found in Hfirst.
  unfold GetOrLoadTable. now rewrite Hname, Hfirst.
Qed.

(** X22. [GetOrLoadTable] answers [nullptr] only for a table that is
    not in the cache and for which the dictionary query succeeds and
    lists no column; the connection it borrowed is released and the
    cache is left as it was, so the next lookup asks the server again. *)
Theorem GetOrLoadTable_null_is_not_cached
    (created : dpi_answer nat) (server : Server)
    (pool pool' : OracleConnectionPool) (entry entry' : OracleSchemaEntry)
    (table_name : string) :
  GetOrLoadTable created server pool entry table_name
  = (inr None, pool', entry') ->
  cache_find (table_cache_ entry) (OracleUtils.ToUpper table_name) = None
  /\ GetColumns server (schema_name entry)
       (OracleUtils.ToUpper table_name) = inr []
  /\ (exists conn pool1,
         Acquire created pool = (inr conn, pool1)
         /\ pool' = Release conn pool1)
  /\ entry' = entry.
Proof.
  unfold GetOrLoadTable.
  destruct (cache_find (table_cache_ entry)
              (OracleUtils.ToUpper table_name)) as [cached|];
    [discriminate|].
  destruct (Acquire created pool) as [[e|conn] pool1]; [discriminate|].
  destruct (GetColumns server (schema_name entry)
              (OracleUtils.ToUpper table_name)) as [e|columns];
    [discriminate|].
  destruct columns as [|col columns]; [|discriminate].
  intros Heq. injection Heq as Hpool Hentry. subst.
  repeat split. now exists conn, pool1.
Qed.

(** X23. The connection a lookup borrows goes back to the pool exactly
    when the dictionary query does not throw.  For a table that is not
    cached and a pool whose free list ends in [c] and has room for it:
    if [GetColumns] throws, [GetOrLoadTable] throws the same error, the
    cache is unchanged, and the pool is left without [c]; otherwise the
    pool is left as it was. *)
Theorem GetOrLoadTable_returns_connection_unless_it_throws
    (created : dpi_answer nat) (server : Server)
    (pool : OracleConnectionPool) (entry : OracleSchemaEntry)
    (table_name : string) (idle : list OracleConnection)
    (c : OracleConnection) :
  cache_find (table_cache_ entry) (OracleUtils.ToUpper table_name) = None ->
  pool_ pool = (idle ++ [c])%list ->
  (N.of_nat (List.length idle) < max_connections_ pool)%N ->
  match GetColumns server (schema_name entry)
          (OracleUtils.ToUpper table_name) with
  | inl e =>
      GetOrLoadTable created server pool entry table_name
      = (inl e, set_pool_ pool idle, entry)
  | inr _ =>
      snd (fst (GetOrLoadTable created server pool entry table_name)) = pool
  end.
Proof.
  intros Hmiss Hpool Hroom. unfold GetOrLoadTable. rewrite Hmiss.
  rewrite (Acquire_back created pool idle c Hpool).
  destruct (GetColumns server (schema_name entry)
              (OracleUtils.ToUpper table_name)) as [e|columns];
    [reflexivity|].
  assert (Hback : Release c (set_pool_ pool idle) = pool).
  { unfold Release. cbn [set_pool_ pool_ max_connections_].
    apply N.ltb_lt in Hroom. rewrite Hroom.
    rewrite <- Hpool, set_pool_twice. apply set_pool_same. }
  rewrite Hback. now destruct columns.
Qed.

(** X24. [DropEntry] forgets the table only when the statement went
    through.  After a drop that returns, no name that differs from the
    dropped one at most in letter case is in the cache, and every other
    cached table is still there; after a drop that throws, the schema
    entry is as it was. *)
Theorem DropEntry_forgets_the_table
    (created : dpi_answer nat) (server : Server)
    (pool pool' : OracleConnectionPool) (entry entry' : OracleSchemaEntry)
    (table : string) (if_exists : bool) (outcome : result unit) :
  DropEntry created server pool entry table if_exists
  = (outcome, pool', entry') ->
  match outcome with
  | inr _ =>
      forall key : string,
        cache_find (table_cache_ entry') key
        = if key =? OracleUtils.ToUpper table then None
          else cache_find (table_cache_ entry) key
  | inl _ => entry' = entry
  end.
Proof.
  unfold DropEntry.
  destruct (Acquire created pool) as [[e|conn] pool1].
  - intros Heq. injection Heq as <- _ <-. reflexivity.
  - destruct (ExecuteDML server
                (DropEntry_sql (schema_name entry) table if_exists))
      as [e|[]].
    + intros Heq. injection Heq as <- _ <-. reflexivity.
    + intros Heq. injection Heq as <- _ <-. intros key.
      cbn [set_table_cache_ table_cache_]. apply cache_find_erase.
Qed.

(** X25. Lookups and drops keep the table cache well formed: every
    entry stays under its own upper-case table name, in the schema of
    the entry, with at least one column and a column definition for
    each, and no name is cached twice. *)
Theorem table_cache_stays_well_formed (entry : OracleSchemaEntry) :
  cache_ok entry = true ->
  unique_keys (table_cache_ entry) = true ->
  forall (created : dpi_answer nat) (server : Server)
         (pool : OracleConnectionPool) (table : string) (if_exists : bool),
    let looked_up := snd (GetOrLoadTable created server pool entry table) in
    let dropped :=
      snd (DropEntry created server pool entry table if_exists) in
    cache_ok looked_up = true
    /\ unique_keys (table_cache_ looked_up) = true
    /\ cache_ok dropped = true
    /\ unique_keys (table_cache_ dropped) = true.
Proof.
  intros Hok Hunique created server pool table if_exists.
  cbv zeta. unfold GetOrLoadTable, DropEntry.
  destruct (Acquire created pool) as [[e|conn] pool1].
  - destruct (cache_find (table_cache_ entry) (OracleUtils.ToUpper table));
      cbn [snd]; auto.
  - assert (Hdrop :
      let dropped :=
        snd (match ExecuteDML server
                     (DropEntry_sql (schema_name entry) table if_exists) with
             | inl e => (inl e, pool1, entry)
             | inr _ =>
                 (inr tt, Release conn pool1,
                  set_table_cache_ entry
                    (cache_erase (table_cache_ entry)
                       (OracleUtils.ToUpper table)))
             end : Outcome unit) in
      cache_ok dropped = true /\ unique_keys (table_cache_ dropped) = true).
    { cbv zeta.
      destruct (ExecuteDML server
                  (DropEntry_sql (schema_name entry) table if_exists));
        cbn [snd]; [auto|].
      split.
      - unfold cache_ok. cbn [set_table_cache_ schema_name table_cache_].
        now apply forallb_erase.
      - cbn [set_table_cache_ table_cache_]. now apply unique_keys_erase. }
    cbv zeta in Hdrop. destruct Hdrop as [Hdrop_ok Hdrop_unique].
    destruct (cache_find (table_cache_ entry) (OracleUtils.ToUpper table));
      [cbn [snd]; auto|].
    destruct (GetColumns server (schema_name entry)
                (OracleUtils.ToUpper table)) as [e|columns];
      [cbn [snd]; auto|].
    destruct columns as [|col columns]; [cbn [snd]; auto|].
    cbn [snd]. repeat split; auto.
    + unfold cache_ok.
      cbn [set_table_cache_ schema_name table_cache_ cache_assign forallb].
      apply andb_true_iff. split; [| now apply forallb_erase].
      unfold loaded_entry, OracleTableInfoToCreateTableInfo.
      cbn [create_info oracle_columns_ info_table info_schema info_columns].
      rewrite ToUpper_idempotent, !String.eqb_refl.
      rewrite column_definitions_loop. cbn [app].
      rewrite length_map, Nat.eqb_refl. reflexivity.
    + cbn [set_table_cache_ table_cache_]. now apply unique_keys_assign.
Qed.

End AnyFloats.

(** X21 on the table [emp] of [HR]: loaded through an empty pool, then
    asked for as the view [Emp] on a server that answers nothing. *)
Lemma GetEntry_serves_from_cache_witness :
  GetEntry (DPI_SUCCESS 1%nat) SchemaInputs.one_column_server
    (new_pool Inputs.some_params 8) SchemaInputs.hr_schema
    TABLE_ENTRY "emp"
  = (inr (Some SchemaInputs.emp_entry), SchemaInputs.pool_after_first,
     SchemaInputs.hr_with_emp)
  /\ GetEntry (DPI_FAILURE "ORA-12541") SchemaInputs.failing_server
       SchemaInputs.pool_after_first SchemaInputs.hr_with_emp
       VIEW_ENTRY "Emp"
     = (inr (Some SchemaInputs.emp_entry), SchemaInputs.pool_after_first,
        SchemaInputs.hr_with_emp).
Proof.
  split; [reflexivity|].
  exact (GetEntry_serves_from_cache
           (DPI_SUCCESS 1%nat) SchemaInputs.one_column_server
           (new_pool Inputs.some_params 8) SchemaInputs.pool_after_first
           SchemaInputs.hr_schema SchemaInputs.hr_with_emp
           TABLE_ENTRY "emp" SchemaInputs.emp_entry eq_refl
           (DPI_FAILURE "ORA-12541") SchemaInputs.failing_server
           VIEW_ENTRY "Emp" eq_refl eq_refl).
Defined.

(** X22 on a table the dictionary does not list. *)
Lemma GetOrLoadTable_null_is_not_cached_witness :
  GetOrLoadTable (DPI_SUCCESS 1%nat) (Inputs.server_of_rows 0)
    (new_pool Inputs.some_params 8) SchemaInputs.hr_schema "nowhere"
  = (inr None, SchemaInputs.pool_after_first, SchemaInputs.hr_schema)
  /\ GetColumns (Inputs.server_of_rows 0) "HR" "NOWHERE" = inr [].
Proof.
  split; [reflexivity|].
  exact (proj1 (proj2
    (GetOrLoadTable_null_is_not_cached
       (DPI_SUCCESS 1%nat) (Inputs.server_of_rows 0)
       (new_pool Inputs.some_params 8) SchemaInputs.pool_after_first
       SchemaInputs.hr_schema SchemaInputs.hr_schema
       "nowhere" eq_refl))).
Defined.

(** X23 on a pool with one idle connection and a server on which no
    statement can be prepared. *)
Lemma GetOrLoadTable_returns_connection_unless_it_throws_witness :
  cache_find (table_cache_ SchemaInputs.hr_schema) "EMP" = None
  /\ pool_ Inputs.pool_with_one_idle = [Inputs.idle_connection]
  /\ GetOrLoadTable (DPI_SUCCESS 2%nat) SchemaInputs.failing_server
       Inputs.pool_with_one_idle SchemaInputs.hr_schema "emp"
     = (inl "Oracle error in GetColumns::prepareStmt: ORA-03113",
        set_pool_ Inputs.pool_with_one_idle [], SchemaInputs.hr_schema).
Proof.
  split; [reflexivity | split; [reflexivity|]].
  exact (GetOrLoadTable_returns_connection_unless_it_throws
           (DPI_SUCCESS 2%nat) SchemaInputs.failing_server
           Inputs.pool_with_one_idle SchemaInputs.hr_schema "emp"
           [] Inputs.idle_connection eq_refl eq_refl eq_refl).
Defined.

(** X24 on a drop of [emp] from the cache that holds it. *)
Lemma DropEntry_forgets_the_table_witness :
  DropEntry (DPI_SUCCESS 2%nat) SchemaInputs.one_column_server
    SchemaInputs.pool_after_first SchemaInputs.hr_with_emp "emp" false
  = (inr tt, SchemaInputs.pool_after_first, SchemaInputs.hr_schema)
  /\ cache_find (table_cache_ SchemaInputs.hr_schema) "EMP" = None.
Proof.
  split; [reflexivity|].
  exact (DropEntry_forgets_the_table
           (DPI_SUCCESS 2%nat) SchemaInputs.one_column_server
           SchemaInputs.pool_after_first SchemaInputs.pool_after_first
           SchemaInputs.hr_with_emp SchemaInputs.hr_schema
           "emp" false (inr tt) eq_refl "EMP").
Defined.

(** X25 on the empty cache of [HR]. *)
Lemma table_cache_stays_well_formed_witness :
  cache_ok SchemaInputs.hr_schema = true
  /\ cache_ok
       (snd (GetOrLoadTable (DPI_SUCCESS 1%nat)
               SchemaInputs.one_column_server
               (new_pool Inputs.some_params 8) SchemaInputs.hr_schema
               "emp"))
     = true.
Proof.
  split; [reflexivity|].
  exact (proj1
    (table_cache_stays_well_formed SchemaInputs.hr_schema eq_refl eq_refl
       (DPI_SUCCESS 1%nat) SchemaInputs.one_column_server
       (new_pool Inputs.some_params 8) "emp" false)).
Defined.

End SchemaEntryFacts.

(* ===================================================================== *)
(** * The schema cache of the catalog                                     *)
(* ===================================================================== *)

Section CatalogFacts.
Import TypeMapping Connection Text SchemaEntry Catalog.

Lemma cache_replace_same {A : Type} (m : Cache A) (key : string) (v : A) :
  cache_find m key = Some v -> cache_replace m key v = m.
Proof.
  induction m as [|[k x] m IH]; [reflexivity|].
  cbn [cache_find cache_replace]. destruct (k =? key).
  - intros Heq. now injection Heq as ->.
  - intros Hfind. now rewrite (IH Hfind).
Qed.

Lemma cache_find_replace {A : Type} (m : Cache A) (key : string)
    (x v : A) :
  cache_find m key = Some x ->
  cache_find (cache_replace m key v) key = Some v.
Proof.
  induction m as [|[k y] m IH]; [discriminate|].
  cbn [cache_find cache_replace]. destruct (k =? key) eqn:Hk.
  - intros _. cbn [cache_find]. now rewrite Hk.
  - intros Hfind. cbn [cache_find]. rewrite Hk. now apply IH.
Qed.

Lemma GetEffectiveSchema_is_upper (p : OracleConnectionParameters) :
  OracleUtils.ToUpper (ConnectString.GetEffectiveSchema p)
  = ConnectString.GetEffectiveSchema p.
Proof.
  unfold ConnectString.GetEffectiveSchema.
  destruct (negb (empty (Connection.schema p)));
    apply ToUpper_idempotent.
Qed.

(** [GetSchema] by what the cache holds for the upper-cased name. *)
Lemma GetSchema_by_cache (cat : OracleCatalog) (schema_name : string) :
  GetSchema cat schema_name
  = match cache_find (schema_cache_ cat)
            (OracleUtils.ToUpper schema_name) with
    | Some entry => (Some entry, cat)
    | None =>
        let entry :=
          {| SchemaEntry.schema_name := OracleUtils.ToUpper schema_name;
             table_cache_ := [] |} in
        (Some entry,
         set_schema_cache_ cat
           (cache_assign (schema_cache_ cat)
              (OracleUtils.ToUpper schema_name) entry))
    end.
Proof.
  unfold GetSchema, GetSchemaFromCache, CreateSchemaEntry.
  rewrite ToUpper_idempotent.
  now destruct (cache_find (schema_cache_ cat)
                  (OracleUtils.ToUpper schema_name)).
Qed.

(** After [GetSchema] the cache holds the entry it returned. *)
Lemma GetSchema_found (cat cat' : OracleCatalog) (schema_name : string)
    (found : option OracleSchemaEntry) :
  GetSchema cat schema_name = (found, cat') ->
  exists entry,
    found = Some entry
    /\ cache_find (schema_cache_ cat') (OracleUtils.ToUpper schema_name)
       = Some entry.
Proof.
  rewrite GetSchema_by_cache.
  destruct (cache_find (schema_cache_ cat)
              (OracleUtils.ToUpper schema_name)) as [entry|] eqn:Hfind.
  - intros Heq. injection Heq as <- <-. now exists entry.
  - cbv zeta. intros Heq. injection Heq as <- <-. eexists. split; [easy|].
    cbn [set_schema_cache_ schema_cache_].
    now rewrite cache_find_assign, String.eqb_refl.
Qed.

(** X26. [GetSchema] never answers a null pointer and asks no server:
    a schema that is not cached is made on the spot, named by the
    upper-cased name and with no table cached, whether or not the
    database has such a schema.  The entry is then cached: asking again
    under a name that differs at most in letter case returns the same
    entry and changes nothing, and the entries of other schemas are
    untouched. *)
Theorem GetSchema_makes_what_it_does_not_find (cat : OracleCatalog)
    (schema_name : string) :
  let found := fst (GetSchema cat schema_name) in
  let cat' := snd (GetSchema cat schema_name) in
  found
  = Some (match cache_find (schema_cache_ cat)
                  (OracleUtils.ToUpper schema_name) with
          | Some entry => entry
          | None =>
              {| SchemaEntry.schema_name := OracleUtils.ToUpper schema_name;
                 table_cache_ := [] |}
          end)
  /\ (forall schema_name2 : string,
        OracleUtils.ToUpper schema_name2 = OracleUtils.ToUpper schema_name ->
        GetSchema cat' schema_name2 = (found, cat'))
  /\ (forall key : string,
        key <> OracleUtils.ToUpper schema_name ->
        cache_find (schema_cache_ cat') key
        = cache_find (schema_cache_ cat) key).
Proof.
  cbv zeta.
  destruct (GetSchema cat schema_name) as [found cat'] eqn:Hget.
  cbn [fst snd].
  destruct (GetSchema_found cat cat' schema_name found Hget)
    as (entry & -> & Hcached).
  rewrite GetSchema_by_cache in Hget.
  repeat split.
  - destruct (cache_find (schema_cache_ cat)
                (OracleUtils.ToUpper schema_name));
      now injection Hget as <- _.
  - intros schema_name2 Hsame.
    now rewrite GetSchema_by_cache, Hsame, Hcached.
  - intros key Hkey.
    destruct (cache_find (schema_cache_ cat)
                (OracleUtils.ToUpper schema_name)).
    + now injection Hget as _ <-.
    + cbv zeta in Hget. injection Hget as _ <-.
      cbn [set_schema_cache_ schema_cache_]. rewrite cache_find_assign.
      apply String.eqb_neq in Hkey. now rewrite Hkey.
Qed.

(** X27. [ClearCache] leaves the catalog with no idle connection and
    with one cached schema, the effective schema of the parameters (the
    schema given, else the user, in upper case); no table is cached
    afterwards, in whatever schema one looks. *)
Theorem ClearCache_forgets_every_table (cat : OracleCatalog) :
  let cleared := Catalog.ClearCache cat in
  let effective :=
    ConnectString.GetEffectiveSchema (catalog_params_ cat) in
  pool_ (catalog_pool_ cleared) = []
  /\ schema_cache_ cleared
     = [(effective,
         {| SchemaEntry.schema_name := effective; table_cache_ := [] |})]
  /\ (forall schema_name : string,
        exists entry,
          fst (GetSchema cleared schema_name) = Some entry
          /\ table_cache_ entry = []).
Proof.
  cbv zeta.
  assert (Hcache :
    schema_cache_ (Catalog.ClearCache cat)
    = [(ConnectString.GetEffectiveSchema (catalog_params_ cat),
        {| SchemaEntry.schema_name :=
             ConnectString.GetEffectiveSchema (catalog_params_ cat);
           table_cache_ := [] |})]).
  { unfold Catalog.ClearCache, PreloadSchema, CreateSchemaEntry.
    cbn [catalog_params_ set_schema_cache_ schema_cache_ cache_assign
         cache_erase filter].
    now rewrite !GetEffectiveSchema_is_upper. }
  repeat split; [exact Hcache|].
  intros schema_name. rewrite GetSchema_by_cache, Hcache.
  cbn [cache_find].
  destruct (ConnectString.GetEffectiveSchema (catalog_params_ cat)
            =? OracleUtils.ToUpper schema_name);
    eexists; cbn [fst]; split; reflexivity.
Qed.

Section AnyFloats.
Context `{FloatModel}.

(** X28. Through the catalog, a table found once is found again without
    the server under any spelling that differs at most in letter case,
    of the schema as of the table, and as a table or as a view: the
    second [GetEntryInternal] returns the same entry and leaves the
    catalog, its pool included, as it is. *)
Theorem GetEntryInternal_ignores_letter_case
    (created : dpi_answer nat) (server : Server)
    (cat cat' : OracleCatalog) (type : CatalogType)
    (schema name : string) (found : OracleTableEntry) :
  GetEntryInternal created server cat type schema name
  = (inr (Some found), cat') ->
  forall (created2 : dpi_answer nat) (server2 : Server)
         (type2 : CatalogType) (schema2 name2 : string),
    is_table_or_view type2 = true ->
    OracleUtils.ToUpper schema2 = OracleUtils.ToUpper schema ->
    OracleUtils.ToUpper name2 = OracleUtils.ToUpper name ->
    GetEntryInternal created2 server2 cat' type2 schema2 name2
    = (inr (Some found), cat').
Proof.
  unfold GetEntryInternal.
  destruct (GetSchema cat schema) as [schema_entry cat1] eqn:Hschema.
  destruct (GetSchema_found cat cat1 schema schema_entry Hschema)
    as (entry & -> & Hcached).
  destruct (GetEntry created server (catalog_pool_ cat1) entry type name)
    as [[outcome pool1] entry1] eqn:Hentry.
  intros Heq. injection Heq as -> <-.
  intros created2 server2 type2 schema2 name2 Htype Hschema2 Hname2.
  assert (Htable :
    cache_find (table_cache_ entry1) (OracleUtils.ToUpper name)
    = Some found).
  { unfold GetEntry in Hentry.
    destruct (is_table_or_view type); cbn [negb] in Hentry;
      [|discriminate].
    exact (GetOrLoadTable_found created server (catalog_pool_ cat1) pool1
             entry entry1 name found Hentry). }
  rewrite GetSchema_by_cache, Hschema2.
  cbn [schema_cache_ catalog_pool_ catalog_params_].
  rewrite (cache_find_replace (schema_cache_ cat1)
             (OracleUtils.ToUpper schema) entry entry1 Hcached).
  cbn [schema_cache_ catalog_pool_ catalog_params_].
  unfold GetEntry, GetOrLoadTable. rewrite Htype. cbn [negb].
  rewrite Hname2, Htable.
  rewrite (cache_replace_same
             (cache_replace (schema_cache_ cat1)
                (OracleUtils.ToUpper schema) entry1)
             (OracleUtils.ToUpper schema) entry1);
    [reflexivity|].
  exact (cache_find_replace (schema_cache_ cat1)
           (OracleUtils.ToUpper schema) entry entry1 Hcached).
Qed.

End AnyFloats.

(** X28 on [hr.emp], found through a new catalog and then asked for as
    the view [Hr.Emp] on a server that answers nothing. *)
Lemma GetEntryInternal_ignores_letter_case_witness :
  GetEntryInternal (DPI_SUCCESS 1%nat) SchemaInputs.one_column_server
    (new_catalog Inputs.some_params) TABLE_ENTRY "hr" "emp"
  = (inr (Some SchemaInputs.emp_entry), CatalogInputs.catalog_with_emp)
  /\ GetEntryInternal (DPI_FAILURE "ORA-12541") SchemaInputs.failing_server
       CatalogInputs.catalog_with_emp VIEW_ENTRY "Hr" "Emp"
     = (inr (Some SchemaInputs.emp_entry), CatalogInputs.catalog_with_emp).
Proof.
  split; [reflexivity|].
  exact (GetEntryInternal_ignores_letter_case
           (DPI_SUCCESS 1%nat) SchemaInputs.one_column_server
           (new_catalog Inputs.some_params) CatalogInputs.catalog_with_emp
           TABLE_ENTRY "hr" "emp" SchemaInputs.emp_entry eq_refl
           (DPI_FAILURE "ORA-12541") SchemaInputs.failing_server
           VIEW_ENTRY "Hr" "Emp" eq_refl eq_refl eq_refl).
Defined.

End CatalogFacts.
